(** * KDE Connect core (kde-connect-fyne): a shallow embedding

    The Go sources under [internal/protocol], [internal/network],
    [internal/events] and [internal/core] are embedded as Rocq functions:
    byte slices are [list byte], Go strings are [string], Go maps are
    [gmap]s, pointers to connections are locations into an explicit heap,
    and every side effect of the engine (event emission, configuration
    writes, packets handed to a connection) is appended to a log.

    Part I holds the embedding, Part II the notions the properties are
    stated with, Part III the properties. *)

From Stdlib Require Import ZArith NArith List Ascii String Lia Bool.
From Stdlib.Strings Require Import Byte.
From Stdlib Require Import DecimalString.
From stdpp Require Import gmap strings list sorting.

Import ListNotations.
Local Open Scope Z_scope.
#[local] Set Warnings "-register-all".

(* ===================================================================== *)
(** * Part I. The embedding                                                *)
(* ===================================================================== *)

(** ** crypto/sha256 (Go standard library), after FIPS 180-4

    [GetVerificationKey] calls [sha256.Sum256]; the function is modelled
    in full so that verification keys can be computed inside Rocq. A
    32-bit word is a [Z] reduced modulo [2^32]. *)
Module Sha256.

Definition w32 (x : Z) : Z := x mod 2 ^ 32.

Definition add32 (x y : Z) : Z := w32 (x + y).

Definition rotr (n x : Z) : Z :=
  Z.lor (Z.shiftr x n) (w32 (Z.shiftl x (32 - n))).

Definition Ch (x y z : Z) : Z :=
  Z.lxor (Z.land x y) (Z.land (w32 (Z.lnot x)) z).

Definition Maj (x y z : Z) : Z :=
  Z.lxor (Z.lxor (Z.land x y) (Z.land x z)) (Z.land y z).

Definition bsig0 (x : Z) : Z := Z.lxor (Z.lxor (rotr 2 x) (rotr 13 x)) (rotr 22 x).
Definition bsig1 (x : Z) : Z := Z.lxor (Z.lxor (rotr 6 x) (rotr 11 x)) (rotr 25 x).
Definition ssig0 (x : Z) : Z := Z.lxor (Z.lxor (rotr 7 x) (rotr 18 x)) (Z.shiftr x 3).
Definition ssig1 (x : Z) : Z := Z.lxor (Z.lxor (rotr 17 x) (rotr 19 x)) (Z.shiftr x 10).

(** The sixty-four round constants. *)
Definition K256 : list Z :=
  [ 0x428A2F98; 0x71374491; 0xB5C0FBCF; 0xE9B5DBA5;
    0x3956C25B; 0x59F111F1; 0x923F82A4; 0xAB1C5ED5;
    0xD807AA98; 0x12835B01; 0x243185BE; 0x550C7DC3;
    0x72BE5D74; 0x80DEB1FE; 0x9BDC06A7; 0xC19BF174;
    0xE49B69C1; 0xEFBE4786; 0x0FC19DC6; 0x240CA1CC;
    0x2DE92C6F; 0x4A7484AA; 0x5CB0A9DC; 0x76F988DA;
    0x983E5152; 0xA831C66D; 0xB00327C8; 0xBF597FC7;
    0xC6E00BF3; 0xD5A79147; 0x06CA6351; 0x14292967;
    0x27B70A85; 0x2E1B2138; 0x4D2C6DFC; 0x53380D13;
    0x650A7354; 0x766A0ABB; 0x81C2C92E; 0x92722C85;
    0xA2BFE8A1; 0xA81A664B; 0xC24B8B70; 0xC76C51A3;
    0xD192E819; 0xD6990624; 0xF40E3585; 0x106AA070;
    0x19A4C116; 0x1E376C08; 0x2748774C; 0x34B0BCB5;
    0x391C0CB3; 0x4ED8AA4A; 0x5B9CCA4F; 0x682E6FF3;
    0x748F82EE; 0x78A5636F; 0x84C87814; 0x8CC70208;
    0x90BEFFFA; 0xA4506CEB; 0xBEF9A3F7; 0xC67178F2 ].

(** The chaining value: eight 32-bit words. *)
Record digest := Digest {
  d0 : Z; d1 : Z; d2 : Z; d3 : Z; d4 : Z; d5 : Z; d6 : Z; d7 : Z
}.

Definition init : digest :=
  Digest 0x6A09E667 0xBB67AE85 0x3C6EF372 0xA54FF53A
         0x510E527F 0x9B05688C 0x1F83D9AB 0x5BE0CD19.

Definition byte_to_Z (b : byte) : Z := Z.of_N (Byte.to_N b).

Definition Z_to_byte (x : Z) : byte :=
  match Byte.of_N (Z.to_N (x mod 256)) with
  | Some b => b
  | None => x00
  end.

(** Big-endian serialisation of a 32-bit word. *)
Definition be32 (x : Z) : list byte :=
  [ Z_to_byte (Z.shiftr x 24); Z_to_byte (Z.shiftr x 16);
    Z_to_byte (Z.shiftr x 8); Z_to_byte x ].

Definition be64 (x : Z) : list byte := be32 (Z.shiftr x 32) ++ be32 x.

(** Padding: a [1] bit, zeros up to 56 modulo 64 bytes, then the message
    length in bits on 64 bits. *)
Definition pad (msg : list byte) : list byte :=
  let len := Z.of_nat (length msg) in
  msg ++ [x80] ++ repeat x00 (Z.to_nat ((55 - len) mod 64)) ++ be64 (8 * len).

(** Big-endian 32-bit words of a byte string (a trailing group of fewer
    than four bytes is dropped; padded input has none). *)
Fixpoint words (bs : list byte) : list Z :=
  match bs with
  | b0 :: b1 :: b2 :: b3 :: rest =>
      (Z.shiftl (byte_to_Z b0) 24 + Z.shiftl (byte_to_Z b1) 16
       + Z.shiftl (byte_to_Z b2) 8 + byte_to_Z b3) :: words rest
  | _ => []
  end.

(** Groups of sixteen words; [fuel] bounds the number of groups. *)
Fixpoint blocks (fuel : nat) (ws : list Z) : list (list Z) :=
  match fuel with
  | O => []
  | S fuel' =>
      match ws with
      | [] => []
      | _ => firstn 16 ws :: blocks fuel' (skipn 16 ws)
      end
  end.

(** Message schedule, latest word first: each step prepends
    W(t) = ssig1 W(t-2) + W(t-7) + ssig0 W(t-15) + W(t-16). *)
Fixpoint schedule_rev (n : nat) (rw : list Z) : list Z :=
  match n with
  | O => rw
  | S n' =>
      let wt := add32 (add32 (ssig1 (nth 1 rw 0)) (nth 6 rw 0))
                      (add32 (ssig0 (nth 14 rw 0)) (nth 15 rw 0)) in
      schedule_rev n' (wt :: rw)
  end.

Definition schedule (block : list Z) : list Z :=
  rev (schedule_rev 48 (rev block)).

Definition round (s : digest) (kw : Z * Z) : digest :=
  let '(k, w) := kw in
  let t1 := add32 (add32 (add32 (add32 (d7 s) (bsig1 (d4 s))) (Ch (d4 s) (d5 s) (d6 s))) k) w in
  let t2 := add32 (bsig0 (d0 s)) (Maj (d0 s) (d1 s) (d2 s)) in
  Digest (add32 t1 t2) (d0 s) (d1 s) (d2 s) (add32 (d3 s) t1) (d4 s) (d5 s) (d6 s).

Definition compress (h : digest) (block : list Z) : digest :=
  let s := fold_left round (combine K256 (schedule block)) h in
  Digest (add32 (d0 h) (d0 s)) (add32 (d1 h) (d1 s))
         (add32 (d2 h) (d2 s)) (add32 (d3 h) (d3 s))
         (add32 (d4 h) (d4 s)) (add32 (d5 h) (d5 s))
         (add32 (d6 h) (d6 s)) (add32 (d7 h) (d7 s)).

Definition digest_bytes (h : digest) : list byte :=
  be32 (d0 h) ++ be32 (d1 h) ++ be32 (d2 h) ++ be32 (d3 h) ++
  be32 (d4 h) ++ be32 (d5 h) ++ be32 (d6 h) ++ be32 (d7 h).

(** [sha256.Sum256]: the 32-byte digest of [msg]. *)
Definition Sum256 (msg : list byte) : list byte :=
  let ws := words (pad msg) in
  digest_bytes (fold_left compress (blocks (length ws) ws) init).

End Sha256.

(** ** The pieces of [fmt], [bytes] and [strings] the sources use *)
Module Go.

(** [[]byte(s)]: the bytes of a Go string. *)
Definition bytes_of_string (s : string) : list byte :=
  map byte_of_ascii (list_ascii_of_string s).

(** [bytes.Compare]: -1, 0 or +1 as [a] is lexicographically below, equal
    to or above [b], bytes compared unsigned. *)
Fixpoint Compare (a b : list byte) : Z :=
  match a, b with
  | [], [] => 0
  | [], _ :: _ => -1
  | _ :: _, [] => 1
  | x :: a', y :: b' =>
      if (Byte.to_N x <? Byte.to_N y)%N then -1
      else if (Byte.to_N y <? Byte.to_N x)%N then 1
      else Compare a' b'
  end.

(** [fmt.Sprintf("%d", n)]: the decimal rendering, ["-"] before a negative
    number. *)
Definition Sprintf_d (n : Z) : string :=
  NilZero.string_of_int (Z.to_int n).

Definition hex_digit (d : Z) : ascii :=
  match String.get (Z.to_nat d) "0123456789abcdef" with
  | Some c => c
  | None => "0"%char
  end.

(** [fmt.Sprintf("%x", b)] on a byte array: two lowercase hexadecimal
    digits per byte. *)
Fixpoint Sprintf_x_bytes (bs : list byte) : string :=
  match bs with
  | [] => EmptyString
  | b :: rest =>
      let v := Sha256.byte_to_Z b in
      String (hex_digit (v / 16)) (String (hex_digit (v mod 16)) (Sprintf_x_bytes rest))
  end.

(** [unicode.ToUpper] on the ASCII range. *)
Definition upper_ascii (c : ascii) : ascii :=
  let n := nat_of_ascii c in
  if (97 <=? n)%nat && (n <=? 122)%nat then ascii_of_nat (n - 32) else c.

(** [strings.ToUpper], on ASCII text (the only text it is applied to is a
    hexadecimal rendering). *)
Fixpoint ToUpper (s : string) : string :=
  match s with
  | EmptyString => EmptyString
  | String c rest => String (upper_ascii c) (ToUpper rest)
  end.

(** [s[:n]] for [n <= len(s)]. *)
Definition slice_to (n : nat) (s : string) : string := String.substring 0 n s.

(** [fmt.Sprintf("%030x", n)] for an [int64]: [fmtInteger] in base 16 with
    the zero flag and width 30. The digits of the magnitude are produced
    right to left, zeros are added up to the precision (the width, less
    one when a sign is written), then the sign.

    The digit loop [for u >= 16 { ...; u >>= 4 }] runs at most fifteen
    times on a 64-bit magnitude; [fuel] is that bound plus the last digit. *)
Fixpoint hex_digits (fuel : nat) (u : Z) (buf : list ascii) : list ascii :=
  match fuel with
  | O => buf
  | S fuel' =>
      if 16 <=? u
      then hex_digits fuel' (Z.shiftr u 4) (hex_digit (Z.land u 15) :: buf)
      else hex_digit u :: buf
  end.

Definition fmtInteger_zero_x (wid : nat) (n : Z) : string :=
  let negative := n <? 0 in
  let u := if negative then - n else n in
  let prec := if negative then (wid - 1)%nat else wid in
  let buf := hex_digits 16 u [] in
  let buf := repeat "0"%char (prec - length buf) ++ buf in
  let buf := if negative then "-"%char :: buf else buf in
  string_of_list_ascii buf.

Definition Sprintf_030x (n : Z) : string := fmtInteger_zero_x 30 n.

(** The range of [int64]. *)
Definition is_int64 (n : Z) : bool := (- 2 ^ 63 <=? n) && (n <? 2 ^ 63).

End Go.

(** ** encoding/json (Go standard library)

    Decoding starts from the parsed JSON value: the text-level scanner is
    not modelled, an input that is not well-formed JSON is a failure of
    the caller's read. A number keeps whether its literal is an integer,
    which is what decides whether it fits a Go integer field. *)
Module Json.

Inductive number :=
| Int (z : Z)                (* a literal such as [-12] *)
| Frac (literal : string).   (* a literal with a fraction or an exponent *)

Inductive value :=
| Null
| Bool (b : bool)
| Number (n : number)
| Str (s : string)
| Array (elems : list value)
| Object (members : list (string * value)).

(** [foldName] of encoding/json: a key is compared with the name of a
    field after folding both. ASCII letters go to upper case; of the
    letters outside ASCII, the two whose simple case folding reaches
    ASCII go there, the long s (U+017F, bytes C5 BF) to [S] and the
    Kelvin sign (U+212A, bytes E2 84 AA) to [K]. Every other rune folds
    to a rune outside ASCII and its bytes, left as they are here, keep
    the key apart from a field name, all of which are ASCII. *)
Fixpoint foldName (s : string) : string :=
  match s with
  | EmptyString => EmptyString
  | String "197" (String "191" rest) => String "S" (foldName rest)
  | String "226" (String "132" (String "170" rest)) => String "K" (foldName rest)
  | String c rest => String (Go.upper_ascii c) (foldName rest)
  end.

(** Struct fields are matched to object keys without regard to case:
    the key as spelled, or else the key whose folded name is that of the
    field. *)
Definition key_is (field key : string) : bool :=
  bool_decide (foldName key = foldName field).

(** Unmarshalling into a field that holds [cur]; [None] is an
    [UnmarshalTypeError]. JSON [null] leaves a string, number or boolean
    untouched. *)
Definition into_string (v : value) (cur : string) : option string :=
  match v with
  | Null => Some cur
  | Str s => Some s
  | _ => None
  end.

Definition into_int (v : value) (cur : Z) : option Z :=
  match v with
  | Null => Some cur
  | Number (Int z) => if Go.is_int64 z then Some z else None
  | _ => None
  end.

Definition into_bool (v : value) (cur : bool) : option bool :=
  match v with
  | Null => Some cur
  | Bool b => Some b
  | _ => None
  end.

Fixpoint into_string_elems (elems : list value) : option (list string) :=
  match elems with
  | [] => Some []
  | v :: rest =>
      s ← into_string v "";
      ss ← into_string_elems rest;
      Some (s :: ss)
  end.

Definition into_strings (v : value) (cur : list string) : option (list string) :=
  match v with
  | Null => Some []
  | Array elems => into_string_elems elems
  | _ => None
  end.

(** Members are stored in the order they appear; a key that matches no
    field is skipped. *)
Fixpoint into_members {A : Type} (store : string → value → A → option A)
    (members : list (string * value)) (a : A) : option A :=
  match members with
  | [] => Some a
  | (k, v) :: rest => a' ← store k v a; into_members store rest a'
  end.

(** [json.Unmarshal(data, &a)] for a struct [a]: [null] is accepted and
    changes nothing, an object is stored member by member, any other
    value is an error. *)
Definition into_struct {A : Type} (store : string → value → A → option A)
    (v : value) (a : A) : option A :=
  match v with
  | Null => Some a
  | Object members => into_members store members a
  | _ => None
  end.

(** [json.RawMessage]: the undecoded text of a value, kept here as the
    value it denotes; [None] is the nil (empty) message, on which
    [json.Unmarshal] fails with "unexpected end of JSON input". *)
Definition RawMessage := option value.

Definition Unmarshal {A : Type} (store : string → value → A → option A)
    (data : RawMessage) (a : A) : option A :=
  v ← data; into_struct store v a.

End Json.

(** ** internal/protocol/crypto.go *)
Module Protocol.

(** [x509.Certificate], reduced to the fields the program reads: the
    DER encoding of the whole certificate and that of its
    SubjectPublicKeyInfo. *)
Record Certificate := {
  Raw : list byte;
  RawSubjectPublicKeyInfo : list byte
}.

(** Go's [error] results: [None] is [nil]. *)
Definition error := option string.

Definition GetVerificationKey (certA certB : Certificate) (timestamp : Z)
  : string * error :=
  let pubA := RawSubjectPublicKeyInfo certA in
  let pubB := RawSubjectPublicKeyInfo certB in
  let combined : list byte := [] in
  let combined :=
    if Go.Compare pubA pubB <? 0 then (combined ++ pubB) ++ pubA
    else (combined ++ pubA) ++ pubB in
  let tsStr := Go.Sprintf_d timestamp in
  let combined := combined ++ Go.bytes_of_string tsStr in
  let hash := Sha256.Sum256 combined in
  let hexStr := Go.Sprintf_x_bytes hash in
  let hexStr :=
    if (8 <? String.length hexStr)%nat then Go.slice_to 8 hexStr else hexStr in
  (Go.ToUpper hexStr, None).

(** *** internal/protocol/packets.go *)

Record Packet := {
  Id : Z;
  Type_ : string;
  Body : Json.RawMessage
}.

Record IdentityBody := {
  DeviceId : string;
  DeviceName : string;
  DeviceType : string;
  ProtocolVersion : Z;
  TcpPort : Z;
  BluetoothAddress : string;
  IncomingCapabilities : list string;
  OutgoingCapabilities : list string
}.

Record PairBody := {
  Pair : bool;
  Timestamp : Z
}.

Record SftpBody := {
  StartBrowsing : bool;
  Ip : string;
  Port : Z;
  User : string;
  Password : string;
  Path : string;
  MultiPaths : list string;
  PathNames : list string;
  ErrorMessage : string
}.

(** The zero values [var p protocol.Packet] and the like start from. *)
Definition zeroPacket : Packet := {| Id := 0; Type_ := ""; Body := None |}.
Definition zeroIdentity : IdentityBody :=
  {| DeviceId := ""; DeviceName := ""; DeviceType := ""; ProtocolVersion := 0;
     TcpPort := 0; BluetoothAddress := ""; IncomingCapabilities := [];
     OutgoingCapabilities := [] |}.
Definition zeroPair : PairBody := {| Pair := false; Timestamp := 0 |}.
Definition zeroSftp : SftpBody :=
  {| StartBrowsing := false; Ip := ""; Port := 0; User := ""; Password := "";
     Path := ""; MultiPaths := []; PathNames := []; ErrorMessage := "" |}.

(** The struct tags: which key stores into which field. *)
Definition storePacket (k : string) (v : Json.value) (p : Packet) : option Packet :=
  if Json.key_is "id" k then
    z ← Json.into_int v (Id p);
    Some {| Id := z; Type_ := Type_ p; Body := Body p |}
  else if Json.key_is "type" k then
    s ← Json.into_string v (Type_ p);
    Some {| Id := Id p; Type_ := s; Body := Body p |}
  else if Json.key_is "body" k then
    Some {| Id := Id p; Type_ := Type_ p; Body := Some v |}
  else Some p.

Definition storeIdentity (k : string) (v : Json.value) (b : IdentityBody)
  : option IdentityBody :=
  let '{| DeviceId := di; DeviceName := dn; DeviceType := dt;
          ProtocolVersion := pv; TcpPort := tp; BluetoothAddress := ba;
          IncomingCapabilities := ic; OutgoingCapabilities := oc |} := b in
  if Json.key_is "deviceId" k then
    x ← Json.into_string v di; Some (Build_IdentityBody x dn dt pv tp ba ic oc)
  else if Json.key_is "deviceName" k then
    x ← Json.into_string v dn; Some (Build_IdentityBody di x dt pv tp ba ic oc)
  else if Json.key_is "deviceType" k then
    x ← Json.into_string v dt; Some (Build_IdentityBody di dn x pv tp ba ic oc)
  else if Json.key_is "protocolVersion" k then
    x ← Json.into_int v pv; Some (Build_IdentityBody di dn dt x tp ba ic oc)
  else if Json.key_is "tcpPort" k then
    x ← Json.into_int v tp; Some (Build_IdentityBody di dn dt pv x ba ic oc)
  else if Json.key_is "bluetoothAddress" k then
    x ← Json.into_string v ba; Some (Build_IdentityBody di dn dt pv tp x ic oc)
  else if Json.key_is "incomingCapabilities" k then
    x ← Json.into_strings v ic; Some (Build_IdentityBody di dn dt pv tp ba x oc)
  else if Json.key_is "outgoingCapabilities" k then
    x ← Json.into_strings v oc; Some (Build_IdentityBody di dn dt pv tp ba ic x)
  else Some b.

Definition storePair (k : string) (v : Json.value) (b : PairBody) : option PairBody :=
  if Json.key_is "pair" k then
    x ← Json.into_bool v (Pair b); Some {| Pair := x; Timestamp := Timestamp b |}
  else if Json.key_is "timestamp" k then
    x ← Json.into_int v (Timestamp b); Some {| Pair := Pair b; Timestamp := x |}
  else Some b.

Definition storeSftp (k : string) (v : Json.value) (b : SftpBody) : option SftpBody :=
  let '{| StartBrowsing := sb; Ip := ip; Port := po; User := us; Password := pw;
          Path := pa; MultiPaths := mp; PathNames := pn; ErrorMessage := em |} := b in
  if Json.key_is "startBrowsing" k then
    x ← Json.into_bool v sb; Some (Build_SftpBody x ip po us pw pa mp pn em)
  else if Json.key_is "ip" k then
    x ← Json.into_string v ip; Some (Build_SftpBody sb x po us pw pa mp pn em)
  else if Json.key_is "port" k then
    x ← Json.into_int v po; Some (Build_SftpBody sb ip x us pw pa mp pn em)
  else if Json.key_is "user" k then
    x ← Json.into_string v us; Some (Build_SftpBody sb ip po x pw pa mp pn em)
  else if Json.key_is "password" k then
    x ← Json.into_string v pw; Some (Build_SftpBody sb ip po us x pa mp pn em)
  else if Json.key_is "path" k then
    x ← Json.into_string v pa; Some (Build_SftpBody sb ip po us pw x mp pn em)
  else if Json.key_is "multiPaths" k then
    x ← Json.into_strings v mp; Some (Build_SftpBody sb ip po us pw pa x pn em)
  else if Json.key_is "pathNames" k then
    x ← Json.into_strings v pn; Some (Build_SftpBody sb ip po us pw pa mp x em)
  else if Json.key_is "errorMessage" k then
    x ← Json.into_string v em; Some (Build_SftpBody sb ip po us pw pa mp pn x)
  else Some b.

(** [var p Packet; err := json.Unmarshal(line, &p)] on a line holding the
    JSON value [v] (also one [decoder.Decode(&p)]): [None] is [err != nil]. *)
Definition decodePacket (v : Json.value) : option Packet :=
  Json.into_struct storePacket v zeroPacket.

Definition decodeIdentity (body : Json.RawMessage) : option IdentityBody :=
  Json.Unmarshal storeIdentity body zeroIdentity.

Definition decodePair (body : Json.RawMessage) : option PairBody :=
  Json.Unmarshal storePair body zeroPair.

Definition decodeSftp (body : Json.RawMessage) : option SftpBody :=
  Json.Unmarshal storeSftp body zeroSftp.

End Protocol.


(** ** internal/events: the event bus *)
Module Events.
Section Emitter.

(** A listener is an opaque callable ([func(data interface{})]); the
    payload type is whatever the emitting code passes. *)
Context {Listener Data : Type}.

Record EventEmitter := {
  listeners : gmap string (list Listener)
}.

Definition NewEventEmitter : EventEmitter := {| listeners := ∅ |}.

(** [e.listeners[event] = append(e.listeners[event], listener)]; a
    missing key reads as the nil slice. *)
Definition On (e : EventEmitter) (event : string) (listener : Listener)
  : EventEmitter :=
  {| listeners :=
       <[event := default [] (listeners e !! event) ++ [listener]]> (listeners e) |}.

(** The body of [Off] is empty. *)
Definition Off (e : EventEmitter) (event : string) (listener : Listener)
  : EventEmitter := e.

(** [Emit] starts one goroutine [listener(data)] per registered
    listener; the result lists the calls started, in the order they are
    started. The emitter is not changed. *)
Definition Emit (e : EventEmitter) (event : string) (data : Data)
  : list (Listener * Data) :=
  match listeners e !! event with
  | Some ls => map (λ l, (l, data)) ls
  | None => []
  end.

(** A client of the bus, for statements about sequences of calls. *)
Inductive call :=
| CallOn (event : string) (listener : Listener)
| CallOff (event : string) (listener : Listener)
| CallEmit (event : string) (data : Data).

Definition run_call (e : EventEmitter) (c : call) : EventEmitter :=
  match c with
  | CallOn ev l => On e ev l
  | CallOff ev l => Off e ev l
  | CallEmit _ _ => e
  end.

Definition run_calls (e : EventEmitter) (cs : list call) : EventEmitter :=
  fold_left run_call cs e.

End Emitter.
Arguments EventEmitter : clear implicits.
Arguments call : clear implicits.
End Events.

(** ** internal/network *)
Module Network.
Import Protocol.

(** A [*Connection]: a location in the engine's heap of connections. *)
Definition loc := nat.

(** The closures the engine stores in [OnPacket] and [OnDisconnect], each
    named after the place that builds it, with the variables it
    captures. *)
Inductive PacketHandler :=
| HandlePacketOf (conn : loc).                    (* func(p) { e.handlePacket(conn, p) } *)

Inductive DisconnectHandler :=
| DeleteIfSame (deviceId : string) (conn : loc)   (* built in handleNewConnection *)
| DeleteAlways (deviceId : string).               (* built in getOrConnect *)

(** [*net.UDPAddr]; [IP] is the text [addr.IP.String()] yields. *)
Record UDPAddr := {
  IP : string;
  Port : Z
}.

(** [net.ResolveUDPAddr("udp", net.JoinHostPort(host, port))] for a
    literal address: it fails (the caller then holds a nil pointer) when
    the port is not a UDP port number. [IP] is the host as given, which
    is the text of the resolved address when the host is the usual
    spelling of an address without zone; how Go respells other hosts
    (an empty one, one with a zone, a name) is not modelled. *)
Definition ResolveUDPAddr (host : string) (port : Z) : option UDPAddr :=
  if (0 <=? port) && (port <=? 65535) then Some {| IP := host; Port := port |}
  else None.

(** [net.Conn], as far as the engine looks at it: the host part of
    [RemoteAddr()] and, when the stream is a [*tls.Conn], the
    certificates the peer presented. *)
Record NetConn := {
  RemoteIP : string;
  PeerCertificates : option (list Certificate)
}.

Record Connection := {
  Conn : NetConn;
  DeviceId : string;
  RemoteIdentity : IdentityBody;
  OnPacket : option PacketHandler;
  OnDisconnect : option DisconnectHandler
}.

Definition NewConnection (conn : NetConn) (deviceId : string)
    (remoteIdentity : IdentityBody) : Connection :=
  {| Conn := conn; DeviceId := deviceId; RemoteIdentity := remoteIdentity;
     OnPacket := None; OnDisconnect := None |}.

(** What the reader loop calls back. *)
Inductive Callback :=
| CallOnPacket (h : PacketHandler) (p : Packet)
| CallOnDisconnect (h : DisconnectHandler).

Definition disconnect (c : Connection) : list Callback :=
  match OnDisconnect c with
  | Some h => [CallOnDisconnect h]
  | None => []
  end.

(** [StartLoop]. [stream] is what the JSON decoder finds on the wire, one
    item per [decoder.Decode]: [Some v] a JSON value, [None] bytes that
    are not JSON or a failed read; the end of the list is end of file.
    The result is the sequence of callbacks made before the loop
    returns. *)
Fixpoint StartLoop (c : Connection) (stream : list (option Json.value))
  : list Callback :=
  match stream with
  | Some v :: rest =>
      match decodePacket v with
      | Some p =>
          match OnPacket c with
          | Some h => CallOnPacket h p :: StartLoop c rest
          | None => StartLoop c rest
          end
      | None => disconnect c
      end
  | None :: _ => disconnect c
  | [] => disconnect c
  end.

(** *** The outbound handshake ([Connect]) *)

(** What the remote end does when dialled. *)
Record Peer := {
  dial_err : error;                              (* [dialer.Dial] *)
  plain_write_err : error;                       (* first [conn.Write] *)
  tls_completes : bool;                          (* the TLS exchange itself *)
  presented : list Certificate;                  (* certificates the peer sends *)
  secure_write_err : error;                      (* [tlsConn.Write] *)
  secure_line : option (option Json.value)       (* [ReadBytes('\n')], then parsing *)
}.

Inductive ClientAuthType := RequestClientCert | RequireAnyClientCert.

Record tlsConfig := {
  Certificates : list Certificate;
  ClientAuth : ClientAuthType;
  InsecureSkipVerify : bool;
  VerifyPeerCertificate : list Certificate → error
}.

(** [tlsConn.Handshake()] under [cfg]: with [RequireAnyClientCert] a
    peer without certificate is refused; presented certificates are
    handed to [VerifyPeerCertificate]; no chain is built for either
    policy. *)
Definition Handshake (cfg : tlsConfig) (peer : Peer)
  : list Certificate + string :=
  if negb (tls_completes peer) then inr "tls: handshake failure"
  else
    match ClientAuth cfg, presented peer with
    | RequireAnyClientCert, [] => inr "tls: client didn't provide a certificate"
    | _, [] => inl []
    | _, certs =>
        match VerifyPeerCertificate cfg certs with
        | None => inl certs
        | Some e => inr e
        end
    end.

(** [sendIdentity]: the packet goes out on the stream; the result is the
    error of the write. *)
Definition sendIdentity (write_err : error) (identity : IdentityBody) : error :=
  write_err.

(** [Connect], up to the connection object it returns. An error result
    is the text the code puts before the cause, followed by the cause
    where [peer] gives one; the causes of a failed read and of a failed
    decoding are left out. The [bufio.Reader] that reads the identity
    line may hold bytes the peer sent after it, which the reader loop
    started later on the same stream does not see; the streams of this
    model start after the handshake. *)
Definition Connect (ip : string) (port : Z) (cert : Certificate)
    (myIdentity : IdentityBody) (peer : Peer) : Connection + string :=
  match dial_err peer with
  | Some err => inr err
  | None =>
  match sendIdentity (plain_write_err peer) myIdentity with
  | Some err => inr ("failed to send plain identity: " +:+ err)
  | None =>
  let tlsConfig :=
    {| Certificates := [cert];
       ClientAuth := RequireAnyClientCert;
       InsecureSkipVerify := true;
       VerifyPeerCertificate := λ rawCerts, None |} in
  match Handshake tlsConfig peer with
  | inr err => inr ("tls handshake failed: " +:+ err)
  | inl peerCerts =>
  match sendIdentity (secure_write_err peer) myIdentity with
  | Some err => inr ("failed to send encrypted identity: " +:+ err)
  | None =>
  match secure_line peer with
  | None => inr "failed to read secure identity"
  | Some line =>
  match line ≫= decodePacket with
  | None => inr "invalid secure identity packet"
  | Some p =>
  match decodeIdentity (Body p) with
  | None => inr "invalid secure identity body"
  | Some remoteIdentity =>
      let tlsConn := {| RemoteIP := ip; PeerCertificates := Some peerCerts |} in
      inl (NewConnection tlsConn (Protocol.DeviceId remoteIdentity) remoteIdentity)
  end end end end end end end.

(** *** UDP discovery listener *)

(** One [ReadFromUDP]: the bytes as JSON ([None] when they are not) and
    the source address. *)
Record Datagram := {
  payload : option Json.value;
  source : UDPAddr
}.

(** [ListenDiscovery], over the results of the successive reads ([None]:
    the read failed): the calls [handler(p, remoteAddr)] it makes. *)
Fixpoint ListenDiscovery (reads : list (option Datagram))
  : list (Packet * UDPAddr) :=
  match reads with
  | [] => []
  | None :: rest => ListenDiscovery rest
  | Some d :: rest =>
      match payload d ≫= decodePacket with
      | Some p => (p, source d) :: ListenDiscovery rest
      | None => ListenDiscovery rest
      end
  end.

End Network.

(** ** internal/core: the engine *)
Module Core.
Import Protocol Network.

Module DiscoveredDevice.
Record t := {
  Identity : IdentityBody;
  Addr : option UDPAddr          (* [*net.UDPAddr]; [None] is nil *)
}.
End DiscoveredDevice.

Module PairRequest.
Record t := {
  RemoteIP : string;
  Identity : IdentityBody;
  VerificationKey : string
}.
End PairRequest.

Module PairedDeviceInfo.
Record t := {
  Identity : IdentityBody;
  LastIP : string;
  LastPort : Z
}.
End PairedDeviceInfo.

Module Config.
Record t := {
  Identity : IdentityBody;
  PairedDevices : gmap string PairedDeviceInfo.t
}.
End Config.

(** What the engine does to the outside world. *)
Inductive Payload :=
| OfDevice (d : DiscoveredDevice.t)
| OfPairRequest (r : PairRequest.t)
| OfDeviceId (deviceId : string).

Inductive OutBody :=
| PairOut (b : PairBody)
| EmptyOut                                       (* [json.RawMessage("{}")] *)
| SftpOut (b : SftpBody).

Inductive Effect :=
| Emitted (event : string) (data : Payload)      (* [e.Events.Emit(event, data)] *)
| ConfigWritten (c : Config.t)                   (* [SaveConfig]: config.json *)
| CertificateWritten                             (* [SaveCertificate] *)
| PacketSent (conn : loc) (pType : string) (body : OutBody)   (* [conn.SendPacket] *)
| LoopStarted (conn : loc).                      (* [go newConn.StartLoop()] *)

(** The engine, the connection objects its maps point to, and the log of
    its effects, oldest first. *)
Record Engine := {
  Identity : IdentityBody;
  Cert : Certificate;
  discoveredDevices : gmap string DiscoveredDevice.t;
  pairedDevices : gmap string PairedDeviceInfo.t;
  sftpOffers : gmap string SftpBody;
  activeConns : gmap string loc;
  pendingPairing : gmap string bool;
  heap : gmap loc Connection;
  log : list Effect
}.

Definition with_discoveredDevices (f : gmap string DiscoveredDevice.t → gmap string DiscoveredDevice.t)
    (e : Engine) : Engine :=
  Build_Engine (Identity e) (Cert e) (f (discoveredDevices e)) (pairedDevices e)
    (sftpOffers e) (activeConns e) (pendingPairing e) (heap e) (log e).
Definition with_pairedDevices (f : gmap string PairedDeviceInfo.t → gmap string PairedDeviceInfo.t)
    (e : Engine) : Engine :=
  Build_Engine (Identity e) (Cert e) (discoveredDevices e) (f (pairedDevices e))
    (sftpOffers e) (activeConns e) (pendingPairing e) (heap e) (log e).
Definition with_sftpOffers (f : gmap string SftpBody → gmap string SftpBody)
    (e : Engine) : Engine :=
  Build_Engine (Identity e) (Cert e) (discoveredDevices e) (pairedDevices e)
    (f (sftpOffers e)) (activeConns e) (pendingPairing e) (heap e) (log e).
Definition with_activeConns (f : gmap string loc → gmap string loc)
    (e : Engine) : Engine :=
  Build_Engine (Identity e) (Cert e) (discoveredDevices e) (pairedDevices e)
    (sftpOffers e) (f (activeConns e)) (pendingPairing e) (heap e) (log e).
Definition with_pendingPairing (f : gmap string bool → gmap string bool)
    (e : Engine) : Engine :=
  Build_Engine (Identity e) (Cert e) (discoveredDevices e) (pairedDevices e)
    (sftpOffers e) (activeConns e) (f (pendingPairing e)) (heap e) (log e).
Definition with_heap (f : gmap loc Connection → gmap loc Connection)
    (e : Engine) : Engine :=
  Build_Engine (Identity e) (Cert e) (discoveredDevices e) (pairedDevices e)
    (sftpOffers e) (activeConns e) (pendingPairing e) (f (heap e)) (log e).
Definition with_log (f : list Effect → list Effect) (e : Engine) : Engine :=
  Build_Engine (Identity e) (Cert e) (discoveredDevices e) (pairedDevices e)
    (sftpOffers e) (activeConns e) (pendingPairing e) (heap e) (f (log e)).

(** Engine code runs on the state and may panic ([None]): a nil pointer
    is dereferenced. Each method is taken as one atomic step; the
    readers-writer lock is not modelled. *)
Definition M (A : Type) : Type := Engine → option (A * Engine).

Definition ret {A} (a : A) : M A := λ e, Some (a, e).
Definition bind {A B} (m : M A) (k : A → M B) : M B :=
  λ e, match m e with
       | Some (a, e') => k a e'
       | None => None
       end.
Definition panic {A} : M A := λ _, None.
Definition get : M Engine := λ e, Some (e, e).
Definition modify (f : Engine → Engine) : M unit := λ e, Some (tt, f e).
Definition perform (eff : Effect) : M unit := modify (with_log (λ l, l ++ [eff])).
Definition when (b : bool) (m : M unit) : M unit := if b then m else ret tt.
Definition deref {A} (p : option A) : M A :=
  match p with
  | Some a => ret a
  | None => panic
  end.

#[global] Instance M_ret : MRet M := @ret.
#[global] Instance M_bind : MBind M := λ A B k m, bind m k.

Fixpoint for_each {A} (f : A → M unit) (l : list A) : M unit :=
  match l with
  | [] => ret tt
  | a :: rest => f a ;; for_each f rest
  end.

(** What the surroundings answer during one call into the engine. *)
Record Env := {
  now : Z;                 (* [time.Now().Unix()] *)
  peer : Peer;             (* the remote end if the engine dials *)
  write_err : error        (* result of the write in [conn.SendPacket] *)
}.

(** *** Connection objects *)

Definition deref_conn (conn : loc) : M Connection :=
  e ← get; deref (heap e !! conn).

(** A new [*Connection]: an unused location. *)
Definition new_conn (c : Connection) : M loc :=
  e ← get;
  let l := fresh (dom (heap e)) in
  modify (with_heap (insert l c)) ;; ret l.

Definition set_OnPacket (conn : loc) (h : PacketHandler) : M unit :=
  c ← deref_conn conn;
  modify (with_heap (insert conn
    {| Conn := Conn c; DeviceId := Network.DeviceId c;
       RemoteIdentity := RemoteIdentity c;
       OnPacket := Some h; OnDisconnect := OnDisconnect c |})).

Definition set_OnDisconnect (conn : loc) (h : DisconnectHandler) : M unit :=
  c ← deref_conn conn;
  modify (with_heap (insert conn
    {| Conn := Conn c; DeviceId := Network.DeviceId c;
       RemoteIdentity := RemoteIdentity c;
       OnPacket := OnPacket c; OnDisconnect := Some h |})).

(** [conn.SendPacket(pType, body)]: the packet is handed to the stream;
    the result is the error of the write. *)
Definition Connection_SendPacket (conn : loc) (pType : string) (body : OutBody)
    (env : Env) : M error :=
  perform (PacketSent conn pType body) ;; ret (write_err env).

(** *** unnamed/part_002: persistence *)

(** [SaveConfig] writes the identity and the paired map as they are at
    the call. Its error is dropped by every caller in the engine. *)
Definition config_written (e : Engine) : Engine :=
  with_log (λ l, l ++ [ConfigWritten {| Config.Identity := Identity e;
                                        Config.PairedDevices := pairedDevices e |}]) e.

Definition SaveConfig : M unit := modify config_written.

Definition certificate_written (e : Engine) : Engine :=
  with_log (λ l, l ++ [CertificateWritten]) e.

(** *** core.go *)

Definition IsPaired (e : Engine) (deviceId : string) : bool :=
  match pairedDevices e !! deviceId with
  | Some _ => true
  | None => false
  end.

Definition IsDiscovered (e : Engine) (deviceId : string) : bool :=
  match discoveredDevices e !! deviceId with
  | Some _ => true
  | None => false
  end.

Definition addDiscoveredDevice (identity : IdentityBody) (addr : option UDPAddr)
  : M unit :=
  let dev := {| DiscoveredDevice.Identity := identity; DiscoveredDevice.Addr := addr |} in
  modify (with_discoveredDevices (insert (Protocol.DeviceId identity) dev)) ;;
  e ← get;
  changed ←
    match pairedDevices e !! Protocol.DeviceId identity with
    | Some info =>
        a ← deref addr;
        if bool_decide (PairedDeviceInfo.LastIP info ≠ IP a)
           || bool_decide (DeviceName (PairedDeviceInfo.Identity info) ≠ DeviceName identity)
        then
          modify (with_pairedDevices (insert (Protocol.DeviceId identity)
            {| PairedDeviceInfo.Identity := identity;
               PairedDeviceInfo.LastIP := IP a;
               PairedDeviceInfo.LastPort := Network.Port a |})) ;;
          ret true
        else ret false
    | None => ret false
    end;
  when changed SaveConfig ;;
  perform (Emitted "device_discovered" (OfDevice dev)).

Definition AddDeviceManual (identity : IdentityBody) (ip : string) (port : Z)
  : M unit :=
  let addr := ResolveUDPAddr ip port in
  let dev := {| DiscoveredDevice.Identity := identity; DiscoveredDevice.Addr := addr |} in
  modify (with_discoveredDevices (insert (Protocol.DeviceId identity) dev)) ;;
  perform (Emitted "device_discovered" (OfDevice dev)).

Definition MarkAsPaired (deviceId : string) : M unit :=
  e ← get;
  match discoveredDevices e !! deviceId with
  | Some dev =>
      a ← deref (DiscoveredDevice.Addr dev);
      modify (with_pairedDevices (insert deviceId
        {| PairedDeviceInfo.Identity := DiscoveredDevice.Identity dev;
           PairedDeviceInfo.LastIP := IP a;
           PairedDeviceInfo.LastPort := Network.Port a |}))
  | None => ret tt
  end ;;
  SaveConfig ;;
  perform (Emitted "pairing_changed" (OfDeviceId deviceId)).

Definition getOrConnect (deviceId : string) (env : Env) : M (loc + string) :=
  e ← get;
  match activeConns e !! deviceId with
  | Some conn => ret (inl conn)
  | None =>
      target ←
        match discoveredDevices e !! deviceId, pairedDevices e !! deviceId with
        | Some dev, _ =>
            a ← deref (DiscoveredDevice.Addr dev);
            ret (Some (IP a, TcpPort (DiscoveredDevice.Identity dev)))
        | None, Some info =>
            ret (Some (PairedDeviceInfo.LastIP info, PairedDeviceInfo.LastPort info))
        | None, None => ret None
        end;
      match target with
      | None => ret (inr ("device " +:+ deviceId +:+ " not found"))
      | Some (ip, port) =>
          if bool_decide (ip = "") || bool_decide (port = 0)
          then ret (inr ("missing address for device " +:+ deviceId))
          else
            match Connect ip port (Cert e) (Identity e) (peer env) with
            | inr err => ret (inr err)
            | inl c =>
                newConn ← new_conn c;
                modify (with_activeConns (insert deviceId newConn)) ;;
                set_OnPacket newConn (HandlePacketOf newConn) ;;
                set_OnDisconnect newConn (DeleteAlways deviceId) ;;
                perform (LoopStarted newConn) ;;
                ret (inl newConn)
            end
      end
  end.

Definition SendPacket (deviceId : string) (pType : string) (body : OutBody)
    (env : Env) : M error :=
  r ← getOrConnect deviceId env;
  match r with
  | inr err => ret (Some err)
  | inl conn => Connection_SendPacket conn pType body env
  end.

(** [Engine.Pair] (the name [Pair] is taken by the field of [PairBody]). *)
Definition Pair_ (deviceId : string) (env : Env) : M error :=
  modify (with_pendingPairing (insert deviceId true)) ;;
  SendPacket deviceId "kdeconnect.pair"
    (PairOut {| Pair := true; Timestamp := now env |}) env.

Definition Unpair (deviceId : string) (env : Env) : M error :=
  e ← get;
  match pairedDevices e !! deviceId with
  | None => ret (Some "device not paired")
  | Some _ =>
      modify (with_pairedDevices (delete deviceId)) ;;
      SaveConfig ;;
      perform (Emitted "pairing_changed" (OfDeviceId deviceId)) ;;
      SendPacket deviceId "kdeconnect.pair"
        (PairOut {| Pair := false; Timestamp := now env |}) env ;;
      ret None
  end.

Definition handlePacket (conn : loc) (p : Packet) (env : Env) : M unit :=
  c ← deref_conn conn;
  if bool_decide (Type_ p = "kdeconnect.pair") then
    match decodePair (Body p) with
    | None => ret tt
    | Some pair_ =>
        if Pair pair_ then
          let remoteIP := RemoteIP (Conn c) in
          e ← get;
          let key :=
            match PeerCertificates (Conn c) with
            | Some (peerCert :: _) =>
                fst (GetVerificationKey (Cert e) peerCert (Timestamp pair_))
            | _ => ""
            end in
          let exists_ := IsDiscovered e (Network.DeviceId c) in
          let isPending := default false (pendingPairing e !! Network.DeviceId c) in
          if isPending then
            modify (with_pendingPairing (delete (Network.DeviceId c))) ;;
            MarkAsPaired (Network.DeviceId c)
          else
            when (negb exists_)
              (addDiscoveredDevice (RemoteIdentity c)
                 (ResolveUDPAddr remoteIP (TcpPort (RemoteIdentity c)))) ;;
            perform (Emitted "pair_request" (OfPairRequest
              {| PairRequest.RemoteIP := remoteIP;
                 PairRequest.Identity := RemoteIdentity c;
                 PairRequest.VerificationKey := key |}))
        else
          Unpair (Network.DeviceId c) env ;; ret tt
    end
  else if bool_decide (Type_ p = "kdeconnect.ping") then
    Connection_SendPacket conn "kdeconnect.ping" EmptyOut env ;; ret tt
  else if bool_decide (Type_ p = "kdeconnect.sftp") then
    match decodeSftp (Body p) with
    | Some sftpBody =>
        if bool_decide (Protocol.Port sftpBody ≠ 0) then
          modify (with_sftpOffers (insert (Network.DeviceId c) sftpBody)) ;;
          perform (Emitted "sftp_offer" (OfDeviceId (Network.DeviceId c)))
        else ret tt
    | None => ret tt
    end
  else ret tt.

Definition handleNewConnection (conn : loc) : M unit :=
  c ← deref_conn conn;
  let deviceId := Network.DeviceId c in
  modify (with_activeConns (insert deviceId conn)) ;;
  addDiscoveredDevice (RemoteIdentity c)
    (ResolveUDPAddr (RemoteIP (Conn c)) (TcpPort (RemoteIdentity c))) ;;
  set_OnPacket conn (HandlePacketOf conn) ;;
  set_OnDisconnect conn (DeleteIfSame deviceId conn).

(** The bodies of the closures stored in connections. *)
Definition call_OnDisconnect (h : DisconnectHandler) : M unit :=
  match h with
  | DeleteIfSame deviceId conn =>
      e ← get;
      if bool_decide (activeConns e !! deviceId = Some conn)
      then modify (with_activeConns (delete deviceId))
      else ret tt
  | DeleteAlways deviceId =>
      modify (with_activeConns (delete deviceId))
  end.

Definition call_OnPacket (h : PacketHandler) (p : Packet) (env : Env) : M unit :=
  match h with
  | HandlePacketOf conn => handlePacket conn p env
  end.

Definition call (env : Env) (cb : Callback) : M unit :=
  match cb with
  | CallOnPacket h p => call_OnPacket h p env
  | CallOnDisconnect h => call_OnDisconnect h
  end.

(** The reader loop of the connection at [conn], run on [stream]. *)
Definition Connection_StartLoop (conn : loc) (stream : list (option Json.value))
    (env : Env) : M unit :=
  c ← deref_conn conn;
  for_each (call env) (StartLoop c stream).

(** The connection at [conn] reports its disconnect: what [StartLoop]
    does when its read fails, [if c.OnDisconnect != nil { c.OnDisconnect() }]. *)
Definition disconnects (conn : loc) : M unit :=
  c ← deref_conn conn;
  for_each call_OnDisconnect
    (match OnDisconnect c with Some h => [h] | None => [] end).

(** The end of [Server.handleConnection]: the connection object is
    created and passed to [OnConnect], which is [handleNewConnection]. *)
Definition accepted (c : Connection) : M loc :=
  conn ← new_conn (NewConnection (Conn c) (Network.DeviceId c) (RemoteIdentity c));
  handleNewConnection conn ;;
  ret conn.

(** The handler [Start] passes to [ListenDiscovery]. *)
Definition discoveryHandler (pa : Packet * UDPAddr) : M unit :=
  let '(p, addr) := pa in
  if bool_decide (Type_ p = "kdeconnect.identity") then
    match decodeIdentity (Body p) with
    | Some idBody =>
        e ← get;
        if bool_decide (Protocol.DeviceId idBody ≠ Protocol.DeviceId (Identity e))
        then addDiscoveredDevice idBody (Some addr)
        else ret tt
    | None => ret tt
    end
  else ret tt.

(** [go network.ListenDiscovery(handler)] in [Start], over the reads of
    the UDP socket. *)
Definition Start_ListenDiscovery (reads : list (option Datagram)) : M unit :=
  for_each discoveryHandler (ListenDiscovery reads).

(** *** [NewEngine] *)

(** [sha256.Sum256(cert.Certificate[0])], the fingerprint [NewEngine]
    prints; nothing else in the program computes one. *)
Definition Fingerprint (cert : Certificate) : list byte := Sha256.Sum256 (Raw cert).

(** What the machine answers at start-up. *)
Record Startup := {
  LoadConfig : option Config.t;                  (* config.json, when readable *)
  LoadCertificate : option Certificate;          (* cert.pem and key.pem *)
  UnixNano : Z;                                  (* [time.Now().UnixNano()] *)
  GenerateCertificate : string → option Certificate;
  listen_ok : Z → bool;                          (* [net.Listen("tcp", ":p")] succeeds *)
  getBluetoothAddress : string
}.

Definition capabilities : list string :=
  ["kdeconnect.ping"; "kdeconnect.identity"; "kdeconnect.pair"; "kdeconnect.sftp"].

(** [for p := 1716; p <= 1764; p++]: the first port that can be bound,
    [port] when there is none. *)
Fixpoint first_free (listen : Z → bool) (ports : list Z) (port : Z) : Z :=
  match ports with
  | [] => port
  | p :: rest => if listen p then p else first_free listen rest port
  end.

Definition with_DeviceName (name : string) (i : IdentityBody) : IdentityBody :=
  Build_IdentityBody (Protocol.DeviceId i) name (DeviceType i) (ProtocolVersion i)
    (TcpPort i) (BluetoothAddress i) (IncomingCapabilities i) (OutgoingCapabilities i).
Definition with_BluetoothAddress (a : string) (i : IdentityBody) : IdentityBody :=
  Build_IdentityBody (Protocol.DeviceId i) (DeviceName i) (DeviceType i) (ProtocolVersion i)
    (TcpPort i) a (IncomingCapabilities i) (OutgoingCapabilities i).

(** The identifier of a new installation. *)
Definition newDeviceId (nanos : Z) : string := "fyne-" +:+ Go.Sprintf_030x nanos.

Definition NewEngine (deviceName : string) (os : Startup) : Engine + string :=
  let paired : gmap string PairedDeviceInfo.t :=
    match LoadConfig os with
    | Some cfg => Config.PairedDevices cfg
    | None => ∅
    end in
  match LoadConfig os, LoadCertificate os with
  | Some cfg, Some cert =>
      let identity := Config.Identity cfg in
      let renamed := bool_decide (DeviceName identity ≠ deviceName) in
      let identity := if renamed then with_DeviceName deviceName identity else identity in
      let found :=
        bool_decide (BluetoothAddress identity = "")
        && bool_decide (getBluetoothAddress os ≠ "") in
      let identity :=
        if found then with_BluetoothAddress (getBluetoothAddress os) identity
        else identity in
      let engine := Build_Engine identity cert ∅ paired ∅ ∅ ∅ ∅ [] in
      inl (if renamed || found then config_written engine else engine)
  | _, _ =>
      let deviceId := newDeviceId (UnixNano os) in
      match GenerateCertificate os deviceId with
      | None => inr "certificate generation failed"
      | Some cert =>
          let port := first_free (listen_ok os) (seqZ 1716 49) 1716 in
          let identity :=
            {| Protocol.DeviceId := deviceId;
               DeviceName := deviceName;
               DeviceType := "desktop";
               ProtocolVersion := 8;
               TcpPort := port;
               BluetoothAddress := getBluetoothAddress os;
               IncomingCapabilities := capabilities;
               OutgoingCapabilities := capabilities |} in
          let engine := Build_Engine identity cert ∅ paired ∅ ∅ ∅ ∅ [] in
          inl (certificate_written (config_written engine))
      end
  end.

End Core.

(** ** unicode/utf8 and the strings of encoding/json (Go standard library)

    A Go string is a sequence of bytes that need not be UTF-8.
    [json.Marshal] writes it as a JSON string, which is UTF-8 always: it
    goes through the bytes with [utf8.DecodeRuneInString] and writes
    U+FFFD for every byte that starts no character. *)
Module Utf8.

(** The table [first] of unicode/utf8, by leading byte: [as_] for an
    ASCII byte, [xx] for a byte that starts no character, otherwise the
    size of the sequence and the range its second byte must lie in
    ([acceptRanges]). *)
Inductive lead :=
| as_
| xx
| sz (size : nat) (lo hi : N).

Definition first (b : N) : lead :=
  (if b <? 0x80 then as_
   else if b <? 0xC2 then xx
   else if b <? 0xE0 then sz 2 0x80 0xBF
   else if b =? 0xE0 then sz 3 0xA0 0xBF
   else if b <? 0xED then sz 3 0x80 0xBF
   else if b =? 0xED then sz 3 0x80 0x9F
   else if b <? 0xF0 then sz 3 0x80 0xBF
   else if b =? 0xF0 then sz 4 0x90 0xBF
   else if b <? 0xF4 then sz 4 0x80 0xBF
   else if b =? 0xF4 then sz 4 0x80 0x8F
   else xx)%N.

Definition within (lo hi : N) (c : ascii) : bool :=
  ((lo <=? N_of_ascii c) && (N_of_ascii c <=? hi))%N.

(** [locb] and [hicb]: the range of a continuation byte. *)
Definition continuation (c : ascii) : bool := within 0x80 0xBF c.

(** [utf8.DecodeRuneInString(s)] for a non-empty [s], as far as its
    caller looks at the result: the size of the character at the start
    of [s], and [None] for [RuneError] with size 1. *)
Definition DecodeRuneInString (s : list ascii) : option nat :=
  match s with
  | [] => None
  | s0 :: _ =>
      match first (N_of_ascii s0) with
      | as_ => Some 1%nat
      | xx => None
      | sz size lo hi =>
          if (length s <? size)%nat then None
          else
            match s with
            | _ :: s1 :: rest =>
                if negb (within lo hi s1) then None
                else if (size <=? 2)%nat then Some 2%nat
                else
                  match rest with
                  | s2 :: rest =>
                      if negb (continuation s2) then None
                      else if (size <=? 3)%nat then Some 3%nat
                      else
                        match rest with
                        | s3 :: _ => if negb (continuation s3) then None else Some 4%nat
                        | [] => None
                        end
                  | [] => None
                  end
            | _ => None
            end
      end
  end.

(** U+FFFD in UTF-8. *)
Definition replacement : list ascii := ["239"; "191"; "189"]%char.

(** The loop of [appendString] in encoding/json, on the text the
    written string stands for (its escapes, [\n] and the like, stand for
    the bytes they replace). Every round takes at least one byte of
    [src], so [fuel] rounds are enough for [fuel] bytes. *)
Fixpoint appendString_from (fuel : nat) (src : list ascii) : list ascii :=
  match fuel with
  | O => []
  | S fuel' =>
      match src with
      | [] => []
      | _ :: rest =>
          match DecodeRuneInString src with
          | None => replacement ++ appendString_from fuel' rest
          | Some size => take size src ++ appendString_from fuel' (drop size src)
          end
      end
  end.

(** The text of the JSON string [json.Marshal] writes for [s]. *)
Definition appendString (s : string) : string :=
  string_of_list_ascii
    (appendString_from (String.length s) (list_ascii_of_string s)).

End Utf8.

(** ** encoding/json, the other direction

    [Encode] builds the JSON value that holds a struct of [packets.go]
    field by field: one member per field, in field order, under the name
    of its tag, every string as it is; a field tagged [omitempty] is left
    out when it holds its zero value. These are the objects a peer or a
    file may hold. What this program itself prints is [Marshal] below:
    the same objects with every string as [json.Marshal] writes it, so
    the two agree on text that is UTF-8. Go prints a nil slice as [null]
    and an empty one as [[]]; lists do not tell them apart here and are
    printed as arrays, both texts decode to the same list. *)
Module Encode.
Import Json Protocol.

Definition strings (l : list string) : value := Array (map Str l).

Definition omitempty (empty : bool) (member : string * value)
  : list (string * value) :=
  if empty then [] else [member].

Definition identity (i : IdentityBody) : value :=
  Object
    ([("deviceId", Str (DeviceId i));
      ("deviceName", Str (DeviceName i));
      ("deviceType", Str (DeviceType i));
      ("protocolVersion", Number (Int (ProtocolVersion i)));
      ("tcpPort", Number (Int (TcpPort i)))]
     ++ omitempty (bool_decide (BluetoothAddress i = ""))
          ("bluetoothAddress", Str (BluetoothAddress i))
     ++ [("incomingCapabilities", strings (IncomingCapabilities i));
         ("outgoingCapabilities", strings (OutgoingCapabilities i))]).

Definition pairBody (b : PairBody) : value :=
  Object
    ([("pair", Bool (Pair b))]
     ++ omitempty (bool_decide (Timestamp b = 0))
          ("timestamp", Number (Int (Timestamp b)))).

(** A nil [json.RawMessage] prints as [null]. *)
Definition packet (p : Packet) : value :=
  Object
    [("id", Number (Int (Id p)));
     ("type", Str (Type_ p));
     ("body", default Null (Body p))].

(** The packet [sendIdentity], [StartDiscovery] and
    [Server.handleConnection] build around an identity at the clock
    reading [millis] ([time.Now().UnixMilli()]). *)
Definition identityPacket (millis : Z) (i : IdentityBody) : Packet :=
  {| Id := millis; Type_ := "kdeconnect.identity"; Body := Some (identity i) |}.

End Encode.

(** [json.Marshal] of the structs of [packets.go]. *)
Module Marshal.
Import Json Protocol.

(** A Go string, printed. *)
Definition text (s : string) : value := Str (Utf8.appendString s).

Definition strings (l : list string) : value := Array (map text l).

Definition identity (i : IdentityBody) : value :=
  Object
    ([("deviceId", text (DeviceId i));
      ("deviceName", text (DeviceName i));
      ("deviceType", text (DeviceType i));
      ("protocolVersion", Number (Int (ProtocolVersion i)));
      ("tcpPort", Number (Int (TcpPort i)))]
     ++ Encode.omitempty (bool_decide (BluetoothAddress i = ""))
          ("bluetoothAddress", text (BluetoothAddress i))
     ++ [("incomingCapabilities", strings (IncomingCapabilities i));
         ("outgoingCapabilities", strings (OutgoingCapabilities i))]).

(** A nil [json.RawMessage] prints as [null], any other as the value it
    holds. *)
Definition packet (p : Packet) : value :=
  Object
    [("id", Number (Int (Id p)));
     ("type", text (Type_ p));
     ("body", default Null (Body p))].

(** The packet [sendIdentity], [StartDiscovery] and
    [Server.handleConnection] build around an identity at the clock
    reading [millis] ([time.Now().UnixMilli()]), its body being
    [json.Marshal(identity)]. *)
Definition identityPacket (millis : Z) (i : IdentityBody) : Packet :=
  {| Id := millis; Type_ := "kdeconnect.identity"; Body := Some (identity i) |}.

End Marshal.

(** ** internal/core: the remaining entry points *)
Module CoreMore.
Import Protocol Network Core.

Definition GetSftpOffer (e : Engine) (deviceId : string) : SftpBody * bool :=
  match sftpOffers e !! deviceId with
  | Some offer => (offer, true)
  | None => (zeroSftp, false)
  end.

Definition triggerSftpBrowse (deviceId : string) (env : Env) : M error :=
  SendPacket deviceId "kdeconnect.sftp.request"
    (SftpOut {| StartBrowsing := true; Ip := ""; Protocol.Port := 0; User := "";
                Password := ""; Path := ""; MultiPaths := []; PathNames := [];
                ErrorMessage := "" |}) env.

(** [for _, conn := range e.activeConns { if ip == remoteIP { targetConn =
    conn; break } }] over the entries in the order [visit] in which the
    loop meets them. *)
Fixpoint first_from (remoteIP : string) (visit : list (string * loc))
  : M (option loc) :=
  match visit with
  | [] => mret None
  | (_, conn) :: rest =>
      c ← deref_conn conn;
      if bool_decide (RemoteIP (Conn c) = remoteIP) then mret (Some conn)
      else first_from remoteIP rest
  end.

(** [AcceptPair]. Go does not fix the order in which a map is ranged
    over: [visit] is the order taken, an enumeration of [activeConns]. *)
Definition AcceptPair (visit : list (string * loc)) (remoteIP : string)
    (env : Env) : M unit :=
  targetConn ← first_from remoteIP visit;
  match targetConn with
  | Some conn =>
      Connection_SendPacket conn "kdeconnect.pair"
        (PairOut {| Pair := true; Timestamp := now env |}) env ;;
      mret tt
  | None => mret tt
  end.

End CoreMore.

(** ** internal/network: the inbound handshake ([Server.handleConnection]) *)
Module Server.
Import Json Protocol Network.

(** What the remote end that dialled us does. In this direction it is
    the TLS server. *)
Record Caller := {
  caller_ip : string;                            (* host part of [conn.RemoteAddr()] *)
  caller_line : option (option Json.value);      (* [ReadBytes('\n')], then parsing *)
  caller_tls : bool;                             (* the TLS exchange itself *)
  caller_certs : list Certificate;               (* certificates the remote sends *)
  caller_write_err : error;                      (* [tlsConn.Write] *)
  caller_secure : option Json.value              (* [decoder.Decode] inside TLS *)
}.

(** [tlsConn.Handshake()] of [tls.Client(conn, cfg)] with
    [InsecureSkipVerify] set: no chain is built, a server without
    certificate is refused, the certificates go to
    [VerifyPeerCertificate]. *)
Definition ClientHandshake (cfg : tlsConfig) (caller : Caller)
  : list Certificate + string :=
  if negb (caller_tls caller) then inr "tls: handshake failure"
  else
    match caller_certs caller with
    | [] => inr "tls: received empty certificates message"
    | certs =>
        match VerifyPeerCertificate cfg certs with
        | None => inl certs
        | Some e => inr e
        end
    end.

(** [handleConnection] up to the creation of the connection object;
    [inr] is the start of the message printed before the early return,
    with the cause where [caller] gives one. What follows,
    [s.OnConnect(c)] and [c.StartLoop()], is [Core.accepted] and
    [Core.Connection_StartLoop]. The [json.Decoder] that reads the
    identity inside TLS may hold bytes the caller sent after it, which
    the reader loop does not see; the streams of this model start after
    the handshake. *)
Definition handleConnection (cert : Certificate) (identity : IdentityBody)
    (caller : Caller) : Connection + string :=
  match caller_line caller with
  | None => inr "Failed to read identity"
  | Some line =>
  match line ≫= decodePacket with
  | None => inr "Invalid identity packet"
  | Some p =>
  match decodeIdentity (Body p) with
  | None => inr "Invalid identity body"
  | Some remoteIdentity =>
  let remoteVersion := ProtocolVersion remoteIdentity in
  let tlsConfig :=
    {| Certificates := [cert];
       ClientAuth := RequestClientCert;
       InsecureSkipVerify := true;
       VerifyPeerCertificate := λ rawCerts, None |} in
  match ClientHandshake tlsConfig caller with
  | inr err => inr ("TLS Handshake failed: " +:+ err)
  | inl peerCerts =>
  match caller_write_err caller with
  | Some err => inr ("Failed to send secure identity: " +:+ err)
  | None =>
  let tlsConn := {| RemoteIP := caller_ip caller;
                    PeerCertificates := Some peerCerts |} in
  if 8 <=? remoteVersion then
    match caller_secure caller ≫= decodePacket with
    | None => inr "failed to read secure identity"
    | Some secureIdentity =>
        match Json.Unmarshal storeIdentity (Body secureIdentity) remoteIdentity with
        | None => inr "Failed to unmarshal secure identity"
        | Some remoteIdentity =>
            inl (NewConnection tlsConn (Protocol.DeviceId remoteIdentity) remoteIdentity)
        end
    end
  else inl (NewConnection tlsConn (Protocol.DeviceId remoteIdentity) remoteIdentity)
  end end end end end.

End Server.

(** ** unnamed/part_002: the configuration file *)
Module Storage.
Import Json Protocol Core.

Definition zeroInfo : PairedDeviceInfo.t :=
  {| PairedDeviceInfo.Identity := zeroIdentity;
     PairedDeviceInfo.LastIP := "";
     PairedDeviceInfo.LastPort := 0 |}.

(** The struct tags of [PairedDeviceInfo]; the identity is a nested
    struct, decoded on top of the value the field holds. *)
Definition storePairedDeviceInfo (k : string) (v : value) (info : PairedDeviceInfo.t)
  : option PairedDeviceInfo.t :=
  if key_is "identity" k then
    i ← into_struct storeIdentity v (PairedDeviceInfo.Identity info);
    Some {| PairedDeviceInfo.Identity := i;
            PairedDeviceInfo.LastIP := PairedDeviceInfo.LastIP info;
            PairedDeviceInfo.LastPort := PairedDeviceInfo.LastPort info |}
  else if key_is "lastIP" k then
    s ← into_string v (PairedDeviceInfo.LastIP info);
    Some {| PairedDeviceInfo.Identity := PairedDeviceInfo.Identity info;
            PairedDeviceInfo.LastIP := s;
            PairedDeviceInfo.LastPort := PairedDeviceInfo.LastPort info |}
  else if key_is "lastPort" k then
    z ← into_int v (PairedDeviceInfo.LastPort info);
    Some {| PairedDeviceInfo.Identity := PairedDeviceInfo.Identity info;
            PairedDeviceInfo.LastIP := PairedDeviceInfo.LastIP info;
            PairedDeviceInfo.LastPort := z |}
  else Some info.

(** Unmarshalling into a [map[string]T] with struct values: each member
    is decoded into a fresh zero value and stored under its key, exactly
    as spelled; [null] leaves the map alone. *)
Fixpoint into_entries {A : Type} (store : string → value → A → option A) (zero : A)
    (members : list (string * value)) (m : gmap string A) : option (gmap string A) :=
  match members with
  | [] => Some m
  | (k, v) :: rest =>
      a ← into_struct store v zero;
      into_entries store zero rest (<[k := a]> m)
  end.

Definition into_map {A : Type} (store : string → value → A → option A) (zero : A)
    (v : value) (m : gmap string A) : option (gmap string A) :=
  match v with
  | Null => Some m
  | Object members => into_entries store zero members m
  | _ => None
  end.

(** The temporary struct [raw] of [LoadConfig]. *)
Definition storeRaw (k : string) (v : value) (raw : IdentityBody * RawMessage)
  : option (IdentityBody * RawMessage) :=
  if key_is "identity" k then
    i ← into_struct storeIdentity v raw.1; Some (i, raw.2)
  else if key_is "pairedDevices" k then Some (raw.1, Some v)
  else Some raw.

(** [LoadConfig] on an engine whose paired map is [paired]. [file] is
    the content of config.json as JSON, [None] when the file cannot be
    read or is not JSON. The result is the identity and the paired map
    the engine holds afterwards; [None] is a returned error, the engine
    being left as it was. *)
Definition LoadConfig (file : option value) (paired : gmap string PairedDeviceInfo.t)
  : option (IdentityBody * gmap string PairedDeviceInfo.t) :=
  data ← file;
  raw ← into_struct storeRaw data (zeroIdentity, None);
  match raw.2 with
  | None => Some (raw.1, paired)
  | Some pairedDevices =>
      let oldFormat :=
        match into_map storeIdentity zeroIdentity pairedDevices ∅ with
        | Some oldFormat =>
            ((λ v, {| PairedDeviceInfo.Identity := v;
                      PairedDeviceInfo.LastIP := "";
                      PairedDeviceInfo.LastPort := 0 |}) <$> oldFormat) ∪ paired
        | None => paired
        end in
      match into_map storePairedDeviceInfo zeroInfo pairedDevices ∅ with
      | Some newFormat =>
          let isNew :=
            bool_decide (map_Forall
              (λ _ v, Protocol.DeviceId (PairedDeviceInfo.Identity v) ≠ "") newFormat) in
          if isNew && bool_decide (0 < size newFormat)%nat
          then Some (raw.1, newFormat)
          else Some (raw.1, oldFormat)
      | None => Some (raw.1, oldFormat)
      end
  end.

(** What [SaveConfig] writes for a configuration
    ([json.MarshalIndent]). Go prints the entries of a map sorted by key
    ([strings.Compare] on the keys as they are), each key as a JSON
    string. *)
Definition info (i : PairedDeviceInfo.t) : value :=
  Object [("identity", Marshal.identity (PairedDeviceInfo.Identity i));
          ("lastIP", Marshal.text (PairedDeviceInfo.LastIP i));
          ("lastPort", Number (Int (PairedDeviceInfo.LastPort i)))].

Definition key_le {A : Type} (a b : string * A) : Prop :=
  String.leb a.1 b.1 = true.

#[export] Instance key_le_dec {A : Type} (a b : string * A) : Decision (key_le a b) :=
  decide (String.leb a.1 b.1 = true).

Definition sorted {A : Type} (m : gmap string A) : list (string * A) :=
  merge_sort key_le (map_to_list m).

Definition config (cfg : Config.t) : value :=
  Object [("identity", Marshal.identity (Config.Identity cfg));
          ("pairedDevices",
           Object ((λ ka, (Utf8.appendString ka.1, info ka.2))
                   <$> sorted (Config.PairedDevices cfg)))].

(** The members of an object that holds one value per key of a map, as
    a file may hold them: the keys as they are, in the order of
    [map_to_list]. *)
Definition entries {A : Type} (enc : A → value) (m : gmap string A)
  : list (string * value) :=
  (λ ka, (ka.1, enc ka.2)) <$> map_to_list m.

(** A configuration file of the older layout, whose paired devices are
    plain identities. *)
Definition old_config (identity : IdentityBody) (paired : gmap string IdentityBody)
  : value :=
  Object [("identity", Encode.identity identity);
          ("pairedDevices", Object (entries Encode.identity paired))].

End Storage.

(** ** internal/network: where [StartDiscovery] broadcasts to *)
Module Interfaces.

(** [net.Flags]: [FlagUp Flags = 1 << iota], then [FlagBroadcast]. *)
Definition FlagUp : Z := 1.
Definition FlagBroadcast : Z := 2.

(** [*net.IPNet]. *)
Record IPNet := {
  IP : list byte;
  Mask : list byte
}.

(** The values behind [net.Addr]: an [*net.IPNet] or something else. *)
Inductive Addr :=
| OfIPNet (ipnet : IPNet)
| OfIPAddr (ip : list byte).

(** A [net.Interface] with what [iface.Addrs()] returns; [None] is its
    error. *)
Record Interface := {
  Flags : Z;
  Addrs : option (list Addr)
}.

(** The four bytes of a non-nil [ip.To4()]. *)
Definition IPv4 : Type := byte * byte * byte * byte.

Definition is_zero (b : byte) : bool := Byte.eqb b x00.

(** [IP.To4]: a four-byte address as it is, a sixteen-byte one that
    starts with ten zeros and two [0xff] cut to its last four bytes, and
    [nil] otherwise. *)
Definition To4 (ip : list byte) : option IPv4 :=
  match ip with
  | [a; b; c; d] => Some (a, b, c, d)
  | [z0; z1; z2; z3; z4; z5; z6; z7; z8; z9; f0; f1; a; b; c; d] =>
      if forallb is_zero [z0; z1; z2; z3; z4; z5; z6; z7; z8; z9]
         && Byte.eqb f0 xff && Byte.eqb f1 xff
      then Some (a, b, c, d)
      else None
  | _ => None
  end.

(** [ip[i] | ^mask[i]] on bytes. *)
Definition or_not (b m : byte) : byte :=
  Sha256.Z_to_byte (Z.lor (Sha256.byte_to_Z b) (Z.lxor (Sha256.byte_to_Z m) 255)).

(** [for i := 0; i < len(ip); i++ { broadcast[i] = ip[i] | ^mask[i] }] on
    the four bytes of [ip]; [None] is the panic of [mask[i]] on a mask of
    fewer bytes. *)
Definition broadcastOf (ip : IPv4) (mask : list byte) : option IPv4 :=
  let '(a, b, c, d) := ip in
  m0 ← mask !! 0%nat;
  m1 ← mask !! 1%nat;
  m2 ← mask !! 2%nat;
  m3 ← mask !! 3%nat;
  Some (or_not a m0, or_not b m1, or_not c m2, or_not d m3).

(** [broadcast.String()] of a four-byte address: dotted decimal. *)
Definition String_ (ip : IPv4) : string :=
  let '(a, b, c, d) := ip in
  Go.Sprintf_d (Sha256.byte_to_Z a) +:+ "." +:+ Go.Sprintf_d (Sha256.byte_to_Z b) +:+ "."
  +:+ Go.Sprintf_d (Sha256.byte_to_Z c) +:+ "." +:+ Go.Sprintf_d (Sha256.byte_to_Z d).

(** The inner loop of [getBroadcastAddresses], over the addresses of one
    interface. *)
Fixpoint over_addrs (addrs : list Addr) (broadcasts : list string)
  : option (list string) :=
  match addrs with
  | [] => Some broadcasts
  | OfIPNet ipnet :: rest =>
      match To4 (IP ipnet) with
      | None => over_addrs rest broadcasts
      | Some ip =>
          broadcast ← broadcastOf ip (Mask ipnet);
          over_addrs rest (broadcasts ++ [String_ broadcast])
      end
  | OfIPAddr _ :: rest => over_addrs rest broadcasts
  end.

(** The outer loop, over the interfaces. *)
Fixpoint over_ifaces (ifaces : list Interface) (broadcasts : list string)
  : option (list string) :=
  match ifaces with
  | [] => Some broadcasts
  | iface :: rest =>
      if (Z.land (Flags iface) FlagUp =? 0) || (Z.land (Flags iface) FlagBroadcast =? 0)
      then over_ifaces rest broadcasts
      else
        match Addrs iface with
        | None => over_ifaces rest broadcasts
        | Some addrs =>
            broadcasts ← over_addrs addrs broadcasts;
            over_ifaces rest broadcasts
        end
  end.

(** [getBroadcastAddresses]; [ifaces] is what [net.Interfaces()] returns,
    the interfaces or an error. *)
Definition getBroadcastAddresses (ifaces : list Interface + string)
  : option (list string * Protocol.error) :=
  match ifaces with
  | inr err => Some ([], Some err)
  | inl ifaces =>
      broadcasts ← over_ifaces ifaces [];
      Some (broadcasts ++ ["255.255.255.255"], None)
  end.

(** The addresses [StartDiscovery] sends the announcement to, every five
    seconds. *)
Definition targets (ifaces : list Interface + string) : option (list string) :=
  r ← getBroadcastAddresses ifaces;
  match r.2 with
  | Some _ => Some ["255.255.255.255"]
  | None => Some r.1
  end.

End Interfaces.

(** ** internal/ui: the listener of [pair_request] and its dialog *)
Module Ui.
Import Protocol Network Core CoreMore.

(** A [dialog.ShowConfirm] on screen; its callback is [answer] below. *)
Record Confirm := {
  title : string;
  message : string;
  request : PairRequest.t
}.

Definition newline : string := String (ascii_of_nat 10) EmptyString.

(** [HandlePairRequest]: the dialog it opens. *)
Definition HandlePairRequest (req : PairRequest.t) : Confirm :=
  let deviceName := DeviceName (PairRequest.Identity req) in
  let deviceName :=
    if bool_decide (deviceName = "") then "Unknown Device" else deviceName in
  {| title := "Pairing Request";
     message := "Allow pairing with " +:+ deviceName +:+ "?" +:+ newline
                +:+ "Validation Key: " +:+ PairRequest.VerificationKey req;
     request := req |}.

(** The callback of the dialog, called with the user's choice. [visit] is
    the order in which [AcceptPair] meets the active connections. *)
Definition answer (visit : list (string * loc)) (req : PairRequest.t) (ok : bool)
    (env : Env) : M unit :=
  if ok then
    AcceptPair visit (PairRequest.RemoteIP req) env ;;
    MarkAsPaired (Protocol.DeviceId (PairRequest.Identity req))
  else mret tt.

(** The listener [listenEvents] registers for [pair_request]; the result
    is the dialog it opens, if any. [data.(core.PairRequest)] panics on
    another payload. *)
Definition on_pair_request (visit : list (string * loc)) (data : Payload)
    (env : Env) : M (option Confirm) :=
  match data with
  | OfPairRequest pairReq =>
      e ← get;
      if IsPaired e (Protocol.DeviceId (PairRequest.Identity pairReq)) then
        AcceptPair visit (PairRequest.RemoteIP pairReq) env ;;
        mret None
      else mret (Some (HandlePairRequest pairReq))
  | _ => panic
  end.

End Ui.


(** ** Concrete situations

    A desktop running the engine and a phone with device id ["B"] at
    10.0.0.2; the examples of Part II are run on them. *)
Module Scenario.
Import Protocol Network Core.

Definition desktop : IdentityBody :=
  {| Protocol.DeviceId := "fyne-0000000000000017979cfe362a0000";
     DeviceName := "laptop"; DeviceType := "desktop";
     ProtocolVersion := 8; TcpPort := 1716; BluetoothAddress := "";
     IncomingCapabilities := capabilities; OutgoingCapabilities := capabilities |}.

Definition phone : IdentityBody :=
  {| Protocol.DeviceId := "B"; DeviceName := "phone"; DeviceType := "phone";
     ProtocolVersion := 8; TcpPort := 1716; BluetoothAddress := "";
     IncomingCapabilities := []; OutgoingCapabilities := [] |}.

Definition own_cert : Certificate :=
  {| Raw := [x30; x82; x01]; RawSubjectPublicKeyInfo := [x30; x01] |}.

Definition phone_cert : Certificate :=
  {| Raw := [x30; x82; x02]; RawSubjectPublicKeyInfo := [x30; x82] |}.

(** Another certificate, held by whoever answers at the phone's address
    later on. *)
Definition other_cert : Certificate :=
  {| Raw := [x30; x82; x03]; RawSubjectPublicKeyInfo := [x30; x83] |}.

(** An identity packet as it travels. *)
Definition announcement (deviceId deviceName : string) : Json.value :=
  Json.Object
    [("id", Json.Number (Json.Int 1700000000000));
     ("type", Json.Str "kdeconnect.identity");
     ("body", Json.Object
        [("deviceId", Json.Str deviceId);
         ("deviceName", Json.Str deviceName);
         ("deviceType", Json.Str "phone");
         ("protocolVersion", Json.Number (Json.Int 8));
         ("tcpPort", Json.Number (Json.Int 1716));
         ("incomingCapabilities", Json.Array []);
         ("outgoingCapabilities", Json.Array [])])].

(** The phone's reply to our pair request. *)
Definition pair_accepted : Json.value :=
  Json.Object
    [("id", Json.Number (Json.Int 1700000001000));
     ("type", Json.Str "kdeconnect.pair");
     ("body", Json.Object [("pair", Json.Bool true);
                           ("timestamp", Json.Number (Json.Int 1700000000))])].

(** A first start: nothing on disk, the clock at 1.7e18 ns. *)
Definition first_start : Startup :=
  {| LoadConfig := None;
     LoadCertificate := None;
     UnixNano := 1700000000000000000;
     GenerateCertificate := λ cn, Some {| Raw := Go.bytes_of_string cn;
                                          RawSubjectPublicKeyInfo := [x30; x01] |};
     listen_ok := λ p, true;
     getBluetoothAddress := "" |}.

(** The phone has been seen on the network; nothing is paired yet. *)
Definition phone_seen : Engine :=
  {| Identity := desktop; Cert := own_cert;
     discoveredDevices :=
       {[ "B" := {| DiscoveredDevice.Identity := phone;
                    DiscoveredDevice.Addr := Some {| IP := "10.0.0.2"; Port := 1716 |} |} ]};
     pairedDevices := ∅; sftpOffers := ∅; activeConns := ∅; pendingPairing := ∅;
     heap := ∅; log := [] |}.

(** The phone is paired, last seen at 10.0.0.2 with port 1716, and not
    in sight. *)
Definition paired_with_phone : Engine :=
  {| Identity := desktop; Cert := own_cert;
     discoveredDevices := ∅;
     pairedDevices :=
       {[ "B" := {| PairedDeviceInfo.Identity := phone;
                    PairedDeviceInfo.LastIP := "10.0.0.2";
                    PairedDeviceInfo.LastPort := 1716 |} ]};
     sftpOffers := ∅; activeConns := ∅; pendingPairing := ∅; heap := ∅; log := [] |}.

(** The phone is paired and in sight. *)
Definition phone_nearby : Engine :=
  with_discoveredDevices
    (insert "B" {| DiscoveredDevice.Identity := phone;
                   DiscoveredDevice.Addr := Some {| IP := "10.0.0.2"; Port := 1716 |} |})
    paired_with_phone.

(** Nobody answers a dial. *)
Definition offline : Env :=
  {| now := 1700000000;
     peer := {| dial_err := Some "dial tcp: i/o timeout"; plain_write_err := None;
                tls_completes := false; presented := []; secure_write_err := None;
                secure_line := None |};
     write_err := None |}.

(** A dial is answered, the handshake completes with the peer presenting
    [cert], and the peer announces itself as the phone. *)
Definition phone_answers (cert : Certificate) : Env :=
  {| now := 1700000000;
     peer := {| dial_err := None; plain_write_err := None;
                tls_completes := true; presented := [cert];
                secure_write_err := None;
                secure_line := Some (Some (announcement "B" "phone")) |};
     write_err := None |}.

(** The phone connects to us. *)
Definition phone_connects : Connection :=
  NewConnection {| RemoteIP := "10.0.0.2"; PeerCertificates := Some [phone_cert] |}
    "B" phone.

End Scenario.

(** ** Further situations *)
Module Situations.
Import Protocol Network Core.
Import Scenario.

(** A connection to the phone as [getOrConnect] leaves it in the heap. *)
Definition link : Connection :=
  {| Conn := {| RemoteIP := "10.0.0.2"; PeerCertificates := Some [phone_cert] |};
     Network.DeviceId := "B";
     RemoteIdentity := phone;
     OnPacket := Some (HandlePacketOf 0%nat);
     OnDisconnect := Some (DeleteAlways "B") |}.

Definition with_link (e : Engine) : Engine :=
  with_heap (insert 0%nat link) (with_activeConns (insert "B" 0%nat) e).

(** We asked the phone to pair and wait for its answer. *)
Definition awaiting_reply : Engine :=
  with_pendingPairing (insert "B" true) (with_link phone_seen).

(** Connected to the phone, not paired, nothing pending. *)
Definition linked : Engine := with_link phone_seen.

(** Connected to the paired phone. *)
Definition linked_paired : Engine := with_link phone_nearby.

Definition packet_of (pType : string) (body : Json.value) : Packet :=
  {| Id := 1700000001000; Type_ := pType; Body := Some body |}.

Definition pair_true : Packet :=
  packet_of "kdeconnect.pair"
    (Encode.pairBody {| Pair := true; Timestamp := 1700000000 |}).

Definition pair_false : Packet :=
  packet_of "kdeconnect.pair" (Encode.pairBody {| Pair := false; Timestamp := 0 |}).

Definition sftp_offer : SftpBody :=
  {| StartBrowsing := false; Ip := "10.0.0.2"; Protocol.Port := 1739;
     User := "kdeconnect"; Password := "secret"; Path := "/storage";
     MultiPaths := []; PathNames := []; ErrorMessage := "" |}.

End Situations.

(* ===================================================================== *)
(** * Part II. The vocabulary of the properties                            *)
(* ===================================================================== *)

Module Spec.
Import Protocol Network Core.

(** *** Verification key *)

(** Lexicographic order on byte strings, each byte read as an unsigned
    number: a proper prefix comes first, otherwise the first differing
    byte decides. *)
Inductive lex_lt : list byte → list byte → Prop :=
| lex_lt_prefix b bs : lex_lt [] (b :: bs)
| lex_lt_first a b as_ bs :
    (Byte.to_N a < Byte.to_N b)%N → lex_lt (a :: as_) (b :: bs)
| lex_lt_rest a as_ bs : lex_lt as_ bs → lex_lt (a :: as_) (a :: bs).

(** The same order as a test. *)
Fixpoint lex_ltb (a b : list byte) : bool :=
  match a, b with
  | _, [] => false
  | [], _ :: _ => true
  | x :: a', y :: b' =>
      (Byte.to_N x <? Byte.to_N y)%N
      || ((Byte.to_N x =? Byte.to_N y)%N && lex_ltb a' b')
  end.

(** The derivation as the specification words it: order the two blobs,
    larger first, append the decimal timestamp, hash, render in lowercase
    hexadecimal, keep eight characters, uppercase them. *)
Definition vk_spec (A B : list byte) (t : Z) : string :=
  let combined := if lex_ltb A B then B ++ A else A ++ B in
  let h := Sha256.Sum256 (combined ++ Go.bytes_of_string (Go.Sprintf_d t)) in
  Go.ToUpper (String.substring 0 8 (Go.Sprintf_x_bytes h)).

(** *** Device identifier *)

Definition hex_char (c : ascii) : Prop :=
  In c (list_ascii_of_string "0123456789abcdef").

(** A string made of lowercase hexadecimal digits only. *)
Definition hexadecimal (s : string) : Prop :=
  Forall hex_char (list_ascii_of_string s).

(** *** Event bus *)

(** [l] is among the listeners of [event]. *)
Definition registered {Listener : Type} (e : Events.EventEmitter Listener)
    (event : string) (l : Listener) : Prop :=
  In l (default [] (Events.listeners e !! event)).

(** *** Packet decoder *)

(** No member of the object is stored into [field]. *)
Definition absent (field : string) (members : list (string * Json.value)) : Prop :=
  Forall (λ kv, Json.key_is field kv.1 = false) members.

(** Every member stored into [Id] is [null] or an integer that fits 64
    bits. *)
Definition id_fits (members : list (string * Json.value)) : Prop :=
  Forall (λ kv, Json.key_is "id" kv.1 = true →
                kv.2 = Json.Null
                ∨ ∃ z, kv.2 = Json.Number (Json.Int z) ∧ Go.is_int64 z = true)
         members.

(** Every member stored into [Type] is [null] or a string. *)
Definition type_fits (members : list (string * Json.value)) : Prop :=
  Forall (λ kv, Json.key_is "type" kv.1 = true →
                kv.2 = Json.Null ∨ ∃ s, kv.2 = Json.Str s)
         members.

(** The values the object gives for [field], in the order of its
    members. *)
Definition given (field : string) (members : list (string * Json.value))
  : list Json.value :=
  map snd (List.filter (λ kv, Json.key_is field kv.1) members).

Definition is_null (v : Json.value) : bool :=
  match v with
  | Json.Null => true
  | _ => false
  end.

(** The last value that is not [null]. *)
Definition last_set (vs : list Json.value) : option Json.value :=
  last (List.filter (λ v, negb (is_null v)) vs).

(** The packet an object makes of [p0]: each field takes the last value
    given for it, [null] not counting for [id] and [type], and is left
    as it is when no value is given. *)
Definition overwritten (p0 : Packet) (members : list (string * Json.value)) : Packet :=
  {| Id := match last_set (given "id" members) with
           | Some (Json.Number (Json.Int z)) => z
           | _ => Id p0
           end;
     Type_ := match last_set (given "type" members) with
              | Some (Json.Str s) => s
              | _ => Type_ p0
              end;
     Body := match last (given "body" members) with
             | Some v => Some v
             | None => Body p0
             end |}.

(** The packet an object denotes. *)
Definition denoted (members : list (string * Json.value)) : Packet :=
  overwritten zeroPacket members.

(** *** Discovery *)

(** The datagram [d] holds an identity packet whose body decodes to
    [idBody]. *)
Definition identity_datagram (d : Datagram) (idBody : IdentityBody) : Prop :=
  ∃ p, payload d ≫= decodePacket = Some p
       ∧ Type_ p = "kdeconnect.identity"
       ∧ decodeIdentity (Body p) = Some idBody.

(** *** Pairing *)

(** Pairedness as the specification defines it: the device is in the
    paired map and the certificate seen on the connection has the
    fingerprint of the certificate seen when the pairing was made. *)
Definition pinned (e : Engine) (deviceId : string)
    (at_pairing at_connection : Certificate) : Prop :=
  deviceId ∈ dom (pairedDevices e)
  ∧ Fingerprint at_connection = Fingerprint at_pairing.

Definition not_pair_request (eff : Effect) : Prop :=
  ∀ data, eff ≠ Emitted "pair_request" data.

(** From [e] to [e'] no device became paired or unpaired and no pair
    request was surfaced. *)
Record same_pairing (e e' : Engine) : Prop := {
  same_IsPaired : ∀ deviceId, IsPaired e' deviceId = IsPaired e deviceId;
  no_pair_request : ∃ l, log e' = log e ++ l ∧ Forall not_pair_request l
}.

End Spec.

(** Unfolds the monad of engine code down to matches on the state. *)
Module Run.
Import Core.

Ltac run :=
  cbv beta iota zeta delta
    [mbind M_bind mret M_ret bind ret get modify perform when deref panic
     SaveConfig deref_conn].

Ltac run_in H :=
  cbv beta iota zeta delta
    [mbind M_bind mret M_ret bind ret get modify perform when deref panic
     SaveConfig deref_conn] in H.

End Run.

(** Notions for the further properties of Part III. *)
Module SpecMore.
Import Protocol Network Core.

(** The integer fields of an identity hold Go integers. *)
Definition identity_fits (i : IdentityBody) : Prop :=
  Go.is_int64 (ProtocolVersion i) = true ∧ Go.is_int64 (TcpPort i) = true.

(** A packet as [Connection.SendPacket] writes it: a 64-bit id and a body
    that is there. *)
Definition sendable (p : Packet) : Prop :=
  Go.is_int64 (Id p) = true ∧ is_Some (Body p).

Definition packet_call (cb : Callback) : Prop :=
  match cb with
  | CallOnPacket _ _ => True
  | CallOnDisconnect _ => False
  end.

(** The packets [handlePacket] drops: a type it has no case for, a pair
    or sftp body that does not decode, an sftp body without a port. *)
Definition dropped (p : Packet) : Prop :=
  (Type_ p ≠ "kdeconnect.pair" ∧ Type_ p ≠ "kdeconnect.ping"
   ∧ Type_ p ≠ "kdeconnect.sftp")
  ∨ (Type_ p = "kdeconnect.pair" ∧ decodePair (Body p) = None)
  ∨ (Type_ p = "kdeconnect.sftp"
     ∧ (decodeSftp (Body p) = None
        ∨ ∃ b, decodeSftp (Body p) = Some b ∧ Protocol.Port b = 0)).

(** A paired record as the engine makes them: integers that fit and a
    device id. *)
Definition info_fits (info : PairedDeviceInfo.t) : Prop :=
  identity_fits (PairedDeviceInfo.Identity info)
  ∧ Go.is_int64 (PairedDeviceInfo.LastPort info) = true
  ∧ Protocol.DeviceId (PairedDeviceInfo.Identity info) ≠ "".

(** *** Text *)

(** Well-formed UTF-8, after the table of byte sequences of the
    Unicode standard (RFC 3629): one byte up to 7F; C2..DF and a
    continuation byte; E0 with A0..BF, E1..EC or EE..EF with a
    continuation byte, ED with 80..9F, each followed by one
    continuation byte; F0 with 90..BF, F1..F3 with a continuation byte,
    F4 with 80..8F, each followed by two. *)
Definition between (lo hi b : N) : bool := ((lo <=? b) && (b <=? hi))%N.

Definition tail_byte (b : N) : bool := between 0x80 0xBF b.

Definition three_bytes (b0 b1 : N) : bool :=
  ((b0 =? 0xE0) && between 0xA0 0xBF b1
   || between 0xE1 0xEC b0 && tail_byte b1
   || (b0 =? 0xED) && between 0x80 0x9F b1
   || between 0xEE 0xEF b0 && tail_byte b1)%N.

Definition four_bytes (b0 b1 : N) : bool :=
  ((b0 =? 0xF0) && between 0x90 0xBF b1
   || between 0xF1 0xF3 b0 && tail_byte b1
   || (b0 =? 0xF4) && between 0x80 0x8F b1)%N.

Fixpoint well_formed (bs : list N) : bool :=
  match bs with
  | [] => true
  | b0 :: rest =>
      if (b0 <=? 0x7F)%N then well_formed rest
      else
        match rest with
        | [] => false
        | b1 :: rest1 =>
            if between 0xC2 0xDF b0 then tail_byte b1 && well_formed rest1
            else
              match rest1 with
              | [] => false
              | b2 :: rest2 =>
                  if three_bytes b0 b1 then tail_byte b2 && well_formed rest2
                  else
                    match rest2 with
                    | [] => false
                    | b3 :: rest3 =>
                        four_bytes b0 b1 && tail_byte b2 && tail_byte b3
                        && well_formed rest3
                    end
              end
        end
  end.

(** The string is UTF-8. *)
Definition utf8 (s : string) : bool :=
  well_formed (map N_of_ascii (list_ascii_of_string s)).

(** Every string of the identity is UTF-8. *)
Definition identity_text (i : IdentityBody) : bool :=
  utf8 (Protocol.DeviceId i) && utf8 (DeviceName i) && utf8 (DeviceType i)
  && utf8 (BluetoothAddress i)
  && forallb utf8 (IncomingCapabilities i) && forallb utf8 (OutgoingCapabilities i).

(** The identity with every string as [json.Marshal] writes it. *)
Definition as_written (i : IdentityBody) : IdentityBody :=
  {| Protocol.DeviceId := Utf8.appendString (Protocol.DeviceId i);
     DeviceName := Utf8.appendString (DeviceName i);
     DeviceType := Utf8.appendString (DeviceType i);
     ProtocolVersion := ProtocolVersion i;
     TcpPort := TcpPort i;
     BluetoothAddress := Utf8.appendString (BluetoothAddress i);
     IncomingCapabilities := map Utf8.appendString (IncomingCapabilities i);
     OutgoingCapabilities := map Utf8.appendString (OutgoingCapabilities i) |}.

(** Every string of the paired record is UTF-8. *)
Definition info_text (info : PairedDeviceInfo.t) : bool :=
  identity_text (PairedDeviceInfo.Identity info) && utf8 (PairedDeviceInfo.LastIP info).

(** *** Verification key *)


Definition upper_hex_char (c : ascii) : Prop :=
  In c (list_ascii_of_string "0123456789ABCDEF").

(** *** Event bus *)

(** The listeners that the calls [cs] register for [event], in the order
    of the calls. *)
Definition subscriptions {Listener Data : Type} (event : string)
    (cs : list (Events.call Listener Data)) : list Listener :=
  flat_map (λ c, match c with
                 | Events.CallOn ev l => if bool_decide (ev = event) then [l] else []
                 | _ => []
                 end) cs.

(** *** Broadcast addresses *)

(** Byte [b] agrees with [a] on the bits set in [m] and has every other
    bit set. *)
Definition broadcast_byte (b a m : byte) : Prop :=
  Z.land (Sha256.byte_to_Z b) (Sha256.byte_to_Z m)
  = Z.land (Sha256.byte_to_Z a) (Sha256.byte_to_Z m)
  ∧ Z.lor (Sha256.byte_to_Z b) (Sha256.byte_to_Z m) = 255.

(** [B] is the broadcast address of the network of [ip] under the first
    four bytes of [mask]: the network bits of [ip], the host bits all
    set. *)
Definition is_broadcast (B : Interfaces.IPv4) (net : Interfaces.IPv4 * list byte) : Prop :=
  let '(b0, b1, b2, b3) := B in
  let '(a0, a1, a2, a3) := net.1 in
  ∃ m0 m1 m2 m3 rest,
    net.2 = m0 :: m1 :: m2 :: m3 :: rest
    ∧ broadcast_byte b0 a0 m0 ∧ broadcast_byte b1 a1 m1
    ∧ broadcast_byte b2 a2 m2 ∧ broadcast_byte b3 a3 m3.

(** The IPv4 networks of one interface, in the order of its addresses. *)
Definition networks_of (addrs : list Interfaces.Addr)
  : list (Interfaces.IPv4 * list byte) :=
  flat_map (λ addr, match addr with
                    | Interfaces.OfIPNet n =>
                        match Interfaces.To4 (Interfaces.IP n) with
                        | Some ip => [(ip, Interfaces.Mask n)]
                        | None => []
                        end
                    | _ => []
                    end) addrs.

(** The IPv4 networks of the interfaces that are up and can broadcast
    (bits 0 and 1 of the flags) and whose addresses can be listed. *)
Definition networks (ifaces : list Interfaces.Interface)
  : list (Interfaces.IPv4 * list byte) :=
  flat_map (λ iface,
              if Z.testbit (Interfaces.Flags iface) 0 && Z.testbit (Interfaces.Flags iface) 1
              then networks_of (default [] (Interfaces.Addrs iface))
              else []) ifaces.

End SpecMore.

(* ===================================================================== *)
(** * Part III. Properties                                                 *)
(* ===================================================================== *)

(** ** The verification key *)
Module VerificationKey.
Import Protocol.
Import Spec.

Lemma to_N_inj (a b : byte) : Byte.to_N a = Byte.to_N b → a = b.
Proof.
  intros H. assert (Hs : Some a = Some b); [| congruence].
  rewrite <- (Byte.of_to_N a), <- (Byte.of_to_N b). by rewrite H.
Qed.

Lemma Compare_lt (a b : list byte) : Go.Compare a b < 0 ↔ lex_lt a b.
Proof.
  revert b. induction a as [| x a IH]; intros [| y b]; simpl.
  - split; [lia | inversion 1].
  - split; [constructor | lia].
  - split; [lia | inversion 1].
  - destruct (N.ltb_spec (Byte.to_N x) (Byte.to_N y)) as [Hxy | Hxy].
    + split; [intros _; by constructor | lia].
    + destruct (N.ltb_spec (Byte.to_N y) (Byte.to_N x)) as [Hyx | Hyx].
      * split; [lia |]. inversion 1; subst; lia.
      * assert (x = y) as -> by (apply to_N_inj; lia).
        rewrite IH. split; [by constructor |].
        inversion 1; subst; [lia | done].
Qed.

(** The test decides the order. *)
Lemma lex_ltb_lt (a b : list byte) : lex_ltb a b = true ↔ lex_lt a b.
Proof.
  revert b. induction a as [| x a IH]; intros [| y b]; simpl.
  - split; [done | inversion 1].
  - split; [constructor | done].
  - split; [done | inversion 1].
  - rewrite orb_true_iff, andb_true_iff, N.ltb_lt, N.eqb_eq, IH. split.
    + intros [Hlt | [Heq Hrest]]; [by constructor |].
      apply to_N_inj in Heq as ->. by constructor.
    + inversion 1; subst; [by left | by right].
Qed.

Lemma Compare_antisym (a b : list byte) : Go.Compare b a = - Go.Compare a b.
Proof.
  revert b. induction a as [| x a IH]; intros [| y b]; simpl; try done.
  destruct (N.ltb_spec (Byte.to_N x) (Byte.to_N y)) as [? | ?];
    destruct (N.ltb_spec (Byte.to_N y) (Byte.to_N x)) as [? | ?]; try lia.
  apply IH.
Qed.

Lemma Compare_eq (a b : list byte) : Go.Compare a b = 0 → a = b.
Proof.
  revert b. induction a as [| x a IH]; intros [| y b]; simpl; try done.
  destruct (N.ltb_spec (Byte.to_N x) (Byte.to_N y)) as [? | ?]; [lia |].
  destruct (N.ltb_spec (Byte.to_N y) (Byte.to_N x)) as [? | ?]; [lia |].
  intros Heq. f_equal; [apply to_N_inj; lia | by apply IH].
Qed.

(** The digest is always 32 bytes, its rendering 64 characters. *)
Lemma Sum256_length (msg : list byte) : length (Sha256.Sum256 msg) = 32%nat.
Proof. reflexivity. Qed.

Lemma Sprintf_x_bytes_length (bs : list byte) :
  String.length (Go.Sprintf_x_bytes bs) = (2 * length bs)%nat.
Proof. induction bs as [| b bs IH]; simpl; [done | rewrite IH; lia]. Qed.

(** C1. [GetVerificationKey] computes exactly the derivation of the
    specification, for all certificates and all timestamps, and never
    reports an error. *)
Theorem GetVerificationKey_spec (certA certB : Certificate) (t : Z) :
  GetVerificationKey certA certB t
  = (vk_spec (RawSubjectPublicKeyInfo certA) (RawSubjectPublicKeyInfo certB) t, None).
Proof.
  unfold GetVerificationKey, vk_spec.
  set (A := RawSubjectPublicKeyInfo certA). set (B := RawSubjectPublicKeyInfo certB).
  assert (Hc : (if Go.Compare A B <? 0 then ([] ++ B) ++ A else ([] ++ A) ++ B)
               = (if lex_ltb A B then B ++ A else A ++ B)).
  { destruct (Z.ltb_spec (Go.Compare A B) 0) as [H | H];
      destruct (lex_ltb A B) eqn:L; try done.
    - apply Compare_lt, lex_ltb_lt in H. congruence.
    - apply lex_ltb_lt, Compare_lt in L. lia. }
  rewrite Hc.
  set (h := Sha256.Sum256 _).
  assert (Hlen : String.length (Go.Sprintf_x_bytes h) = 64%nat)
    by (rewrite Sprintf_x_bytes_length; unfold h; by rewrite Sum256_length).
  rewrite Hlen. reflexivity.
Qed.

(** C4. The verification key does not depend on the order of the two
    certificates. *)
Theorem GetVerificationKey_symmetric (certA certB : Certificate) (t : Z) :
  GetVerificationKey certA certB t = GetVerificationKey certB certA t.
Proof.
  unfold GetVerificationKey.
  set (A := RawSubjectPublicKeyInfo certA). set (B := RawSubjectPublicKeyInfo certB).
  pose proof (Compare_antisym A B) as Hanti.
  destruct (Z.ltb_spec (Go.Compare A B) 0) as [H | H];
    destruct (Z.ltb_spec (Go.Compare B A) 0) as [H' | H']; try lia; try done.
  assert (A = B) as -> by (apply Compare_eq; lia). done.
Qed.

(** Scenario 1 of the specification, evaluated. *)
Example scenario_key_derivation :
  let A := {| Raw := []; RawSubjectPublicKeyInfo := [x30; x01] |} in
  let B := {| Raw := []; RawSubjectPublicKeyInfo := [x30; x82] |} in
  GetVerificationKey A B 1700000000 = ("75E3FD70", None)
  ∧ GetVerificationKey B A 1700000000 = ("75E3FD70", None).
Proof. split; vm_compute; reflexivity. Qed.

Example Sum256_abc :
  Go.Sprintf_x_bytes (Sha256.Sum256 (Go.bytes_of_string "abc"))
  = "ba7816bf8f01cfea414140de5dae2223b00361a396177a9cb410ff61f20015ad".
Proof. vm_compute. reflexivity. Qed.

End VerificationKey.

(** ** The identifier of a new installation *)
Module DeviceIdentifier.
Import Protocol Core.
Import Scenario.
Import Spec.

Lemma string_of_list_ascii_length (l : list ascii) :
  String.length (string_of_list_ascii l) = length l.
Proof. induction l as [| c l IH]; simpl; [done | by rewrite IH]. Qed.

Lemma hex_digit_hex (d : Z) : hex_char (Go.hex_digit d).
Proof.
  unfold Go.hex_digit, hex_char. generalize (Z.to_nat d). intros n.
  do 16 (destruct n as [| n]; [simpl; tauto |]).
  simpl. tauto.
Qed.

Lemma hex_digits_hex (fuel : nat) (u : Z) (buf : list ascii) :
  Forall hex_char buf → Forall hex_char (Go.hex_digits fuel u buf).
Proof.
  revert u buf. induction fuel as [| fuel IH]; intros u buf Hbuf; simpl; [done |].
  destruct (16 <=? u).
  - apply IH. constructor; [apply hex_digit_hex | done].
  - constructor; [apply hex_digit_hex | done].
Qed.

Lemma hex_digits_length (fuel : nat) (u : Z) (buf : list ascii) :
  (length (Go.hex_digits fuel u buf) ≤ fuel + length buf)%nat.
Proof.
  revert u buf. induction fuel as [| fuel IH]; intros u buf; simpl; [done |].
  destruct (16 <=? u); [| simpl; lia].
  etrans; [apply IH |]. simpl. lia.
Qed.

(** Thirty characters come out whatever the number; they are all
    hexadecimal digits when it is not negative. *)
Lemma Sprintf_030x_length (n : Z) : String.length (Go.Sprintf_030x n) = 30%nat.
Proof.
  unfold Go.Sprintf_030x, Go.fmtInteger_zero_x.
  rewrite string_of_list_ascii_length.
  pose proof (hex_digits_length 16 (if n <? 0 then - n else n) []) as Hlen.
  remember (Go.hex_digits 16 (if n <? 0 then - n else n) []) as digits.
  simpl in Hlen.
  destruct (n <? 0); simpl; rewrite length_app, repeat_length; lia.
Qed.

Lemma Sprintf_030x_hexadecimal (n : Z) : 0 ≤ n → hexadecimal (Go.Sprintf_030x n).
Proof.
  intros Hn. unfold hexadecimal, Go.Sprintf_030x, Go.fmtInteger_zero_x.
  rewrite list_ascii_of_string_of_list_ascii.
  destruct (Z.ltb_spec n 0) as [? | _]; [lia |].
  apply Forall_app. split.
  - apply Forall_forall. intros c Hc.
    apply list_elem_of_In, repeat_spec in Hc as ->.
    unfold hex_char. simpl. tauto.
  - by apply hex_digits_hex.
Qed.

Lemma append_length (s t : string) :
  String.length (s +:+ t) = (String.length s + String.length t)%nat.
Proof. induction s as [| c s IH]; simpl; [done | by rewrite IH]. Qed.

(** C6, as the code has it. An engine created when no configuration (or
    no certificate) can be loaded, at a clock reading that is not
    negative, gets the identifier "fyne-" followed by the clock reading
    in hexadecimal, padded with zeros to thirty digits: thirty-five
    characters in all. *)
Theorem NewEngine_device_id (deviceName : string) (os : Startup) (cert : Certificate) :
  LoadConfig os = None ∨ LoadCertificate os = None →
  0 ≤ UnixNano os < 2 ^ 63 →
  GenerateCertificate os (newDeviceId (UnixNano os)) = Some cert →
  let hex := Go.Sprintf_030x (UnixNano os) in
  ∃ engine,
    NewEngine deviceName os = inl engine
    ∧ DeviceId (Identity engine) = "fyne-" +:+ hex
    ∧ String.length hex = 30%nat
    ∧ hexadecimal hex
    ∧ String.length (DeviceId (Identity engine)) = 35%nat.
Proof.
  intros Hnone [Hpos _] Hgen hex.
  assert (Hnew : ∃ engine, NewEngine deviceName os = inl engine
                 ∧ DeviceId (Identity engine) = newDeviceId (UnixNano os)).
  { unfold NewEngine.
    destruct (LoadConfig os) as [cfg |]; [destruct (LoadCertificate os) as [c |] |].
    - by destruct Hnone.
    - rewrite Hgen. by eexists.
    - rewrite Hgen. by eexists. }
  destruct Hnew as (engine & Hengine & Hid).
  exists engine. rewrite Hid. unfold newDeviceId, hex.
  repeat split; try done.
  - apply Sprintf_030x_length.
  - by apply Sprintf_030x_hexadecimal.
  - rewrite append_length, Sprintf_030x_length. reflexivity.
Qed.

Lemma NewEngine_device_id_witness :
  let hex := Go.Sprintf_030x 1700000000000000000 in
  ∃ engine,
    NewEngine "laptop" first_start = inl engine
    ∧ DeviceId (Identity engine) = "fyne-" +:+ hex
    ∧ String.length hex = 30%nat
    ∧ hexadecimal hex
    ∧ String.length (DeviceId (Identity engine)) = 35%nat.
Proof.
  apply (NewEngine_device_id "laptop" first_start
           {| Raw := Go.bytes_of_string (newDeviceId 1700000000000000000);
              RawSubjectPublicKeyInfo := [x30; x01] |}).
  - left. reflexivity.
  - simpl. lia.
  - reflexivity.
Defined.

(** C6, as the specification states it, fails: the identifier made at
    the first start of [Scenario] is 35 characters long, not 36. *)
Lemma device_id_is_not_36_long :
  ∃ engine,
    NewEngine "laptop" first_start = inl engine
    ∧ DeviceId (Identity engine) = "fyne-0000000000000017979cfe362a0000"
    ∧ String.length (DeviceId (Identity engine)) ≠ 36%nat.
Proof.
  eexists. split; [reflexivity |]. split; [vm_compute; reflexivity |].
  vm_compute. discriminate.
Qed.

End DeviceIdentifier.

(** ** The event bus *)
Module EventBus.
Import Events.
Import Spec.

Section Bus.
Context {Listener Data : Type}.
Implicit Types (e : EventEmitter Listener) (l : Listener) (d : Data).

Lemma On_registers e event l : registered (On e event l) event l.
Proof.
  unfold registered, On. simpl. rewrite lookup_insert_eq. simpl.
  apply in_or_app. right. by left.
Qed.

Lemma run_call_keeps e (c : call Listener Data) event l :
  registered e event l → registered (run_call e c) event l.
Proof.
  unfold registered. destruct c as [ev l' | ev l' | ev d]; simpl; try done.
  intros Hin. destruct (decide (ev = event)) as [-> | Hne].
  - rewrite lookup_insert_eq. simpl. apply in_or_app. by left.
  - by rewrite lookup_insert_ne.
Qed.

Lemma run_calls_keep (cs : list (call Listener Data)) e event l :
  registered e event l → registered (run_calls e cs) event l.
Proof.
  revert e. induction cs as [| c cs IH]; intros e Hreg; [done |].
  apply IH. by apply run_call_keeps.
Qed.

Lemma Emit_calls_registered e event l d :
  registered e event l → In (l, d) (Emit e event d).
Proof.
  unfold registered, Emit. destruct (listeners e !! event) as [ls |]; simpl.
  - intros Hin. by apply (in_map (λ l0, (l0, d))).
  - done.
Qed.

(** C10. [Off] changes nothing, so a listener registered with [On] is
    called by every later [Emit] of its event, whatever calls to [On],
    [Off] (also on this very listener) and [Emit] came in between. *)
Theorem Off_is_a_no_op e (event : string) l :
  Off e event l = e
  ∧ ∀ (cs : list (call Listener Data)) d,
      In (l, d) (Emit (run_calls (On e event l) cs) event d).
Proof.
  split; [reflexivity |]. intros cs d.
  apply Emit_calls_registered, run_calls_keep, On_registers.
Qed.

End Bus.

(** Registration, removal, emission: the listener still runs. *)
Example Off_then_Emit :
  Emit (Off (On (NewEventEmitter (Listener := nat)) "sftp_offer" 7%nat) "sftp_offer" 7%nat)
       "sftp_offer" "B"
  = [(7%nat, "B")].
Proof. vm_compute. reflexivity. Qed.

End EventBus.

(** ** The packet decoder *)
Module PacketDecoding.
Import Json Protocol Network.
Import Spec.

(** A key is stored into one field at most. *)
Lemma key_is_id (k : string) :
  key_is "id" k = true → key_is "type" k = false ∧ key_is "body" k = false.
Proof.
  unfold key_is. intros H. apply bool_decide_eq_true in H. rewrite H.
  split; reflexivity.
Qed.

Lemma key_is_type (k : string) : key_is "type" k = true → key_is "body" k = false.
Proof.
  unfold key_is. intros H. apply bool_decide_eq_true in H. by rewrite H.
Qed.

Lemma given_cons (field k : string) (v : value) (members : list (string * value)) :
  given field ((k, v) :: members)
  = if key_is field k then v :: given field members else given field members.
Proof. unfold given. simpl. by destruct (key_is field k). Qed.

Lemma last_set_cons (v : value) (vs : list value) :
  last_set (v :: vs)
  = match last_set vs with
    | Some x => Some x
    | None => if is_null v then None else Some v
    end.
Proof.
  unfold last_set. simpl. destruct (is_null v); simpl.
  - by destruct (last _).
  - by rewrite last_cons.
Qed.

Lemma absent_given (field : string) (members : list (string * value)) :
  absent field members → given field members = [].
Proof.
  induction 1 as [| [k v] members Hk _ IH]; [done |].
  rewrite given_cons. simpl in Hk. by rewrite Hk.
Qed.

Lemma last_set_given (field : string) (members : list (string * value)) (v : value) :
  last_set (given field members) = Some v →
  is_null v = false ∧ ∃ k, In (k, v) members ∧ key_is field k = true.
Proof.
  unfold last_set, given. intros Hlast.
  apply last_Some in Hlast as [l' Hl'].
  assert (Hin : In v (List.filter (λ v, negb (is_null v))
                        (map snd (List.filter (λ kv, key_is field kv.1) members)))).
  { rewrite Hl'. apply in_or_app. right. by left. }
  apply filter_In in Hin as [Hin Hnull]. apply negb_true_iff in Hnull.
  split; [done |]. apply in_map_iff in Hin as ([k v'] & Heq & Hin). simpl in Heq. subst v'.
  apply filter_In in Hin as [Hin Hk]. by exists k.
Qed.

Lemma last_set_id (members : list (string * value)) (v : value) :
  id_fits members → last_set (given "id" members) = Some v → ∃ z, v = Number (Int z).
Proof.
  intros Hid Hlast. apply last_set_given in Hlast as (Hnull & k & Hin & Hk).
  apply List.Forall_forall with (x := (k, v)) in Hid; [| done]. simpl in Hid.
  destruct (Hid Hk) as [-> | (z & -> & _)]; [done | by exists z].
Qed.

Lemma last_set_type (members : list (string * value)) (v : value) :
  type_fits members → last_set (given "type" members) = Some v → ∃ s, v = Str s.
Proof.
  intros Htype Hlast. apply last_set_given in Hlast as (Hnull & k & Hin & Hk).
  apply List.Forall_forall with (x := (k, v)) in Htype; [| done]. simpl in Htype.
  destruct (Htype Hk) as [-> | (s & ->)]; [done | by exists s].
Qed.

Lemma into_members_overwritten (members : list (string * value)) (p0 : Packet) :
  id_fits members → type_fits members →
  into_members storePacket members p0 = Some (overwritten p0 members).
Proof.
  revert p0. induction members as [| [k v] members IH]; intros p0 Hid Htype.
  { by destruct p0. }
  apply Forall_cons in Hid as [Hv Hid]. apply Forall_cons in Htype as [Hs Htype].
  simpl in Hv, Hs. cbn [into_members]. unfold storePacket.
  unfold overwritten. rewrite !given_cons.
  destruct (key_is "id" k) eqn:Eid.
  - destruct (key_is_id k Eid) as [-> ->].
    destruct (Hv eq_refl) as [-> | (z & -> & Hz)]; simpl.
    + rewrite IH by done. unfold overwritten. rewrite last_set_cons. simpl.
      destruct (last_set (given "id" members)); simpl; reflexivity.
    + rewrite Hz. simpl. rewrite IH by done. unfold overwritten.
      rewrite last_set_cons. simpl.
      destruct (last_set (given "id" members)) as [x |] eqn:Ex; simpl; [| reflexivity].
      by destruct (last_set_id members x Hid Ex) as [z' ->].
  - destruct (key_is "type" k) eqn:Etype.
    + rewrite (key_is_type k Etype).
      destruct (Hs eq_refl) as [-> | (s & ->)]; simpl.
      * rewrite IH by done. unfold overwritten. rewrite last_set_cons. simpl.
        destruct (last_set (given "type" members)); simpl; reflexivity.
      * rewrite IH by done. unfold overwritten. rewrite last_set_cons. simpl.
        destruct (last_set (given "type" members)) as [x |] eqn:Ex; simpl; [| reflexivity].
        by destruct (last_set_type members x Htype Ex) as [s' ->].
    + destruct (key_is "body" k) eqn:Ebody; simpl.
      * rewrite IH by done. unfold overwritten. rewrite last_cons. simpl.
        destruct (last (given "body" members)); simpl; reflexivity.
      * rewrite IH by done. done.
Qed.

Lemma into_members_fits (members : list (string * value)) (p0 : Packet) :
  is_Some (into_members storePacket members p0) → id_fits members ∧ type_fits members.
Proof.
  revert p0. induction members as [| [k v] members IH]; intros p0 [p Hp].
  { split; constructor. }
  cbn [into_members] in Hp.
  destruct (storePacket k v p0) as [p1 |] eqn:Estore; [| done].
  simpl in Hp. destruct (IH p1 (ex_intro _ p Hp)) as [Hid Htype].
  unfold storePacket in Estore.
  destruct (key_is "id" k) eqn:Eid.
  - destruct (key_is_id k Eid) as [Et _].
    split; constructor; try done; simpl.
    + intros _. destruct v as [| | [z | l] | | |]; try done; [by left |].
      simpl in Estore. destruct (Go.is_int64 z) eqn:Ez; [| done].
      right. by exists z.
    + by rewrite Et.
  - destruct (key_is "type" k) eqn:Etype.
    + split; constructor; try done; simpl.
      * by rewrite Eid.
      * intros _. destruct v; try done; [by left | right; by eexists].
    + split; constructor; try done; simpl; [by rewrite Eid | by rewrite Etype].
Qed.

(** C7, as the code has it. None of [id], [type] and [body] is required.
    An object is accepted exactly when what it gives for [id] is [null]
    or an integer of 64 bits and what it gives for [type] is [null] or a
    string; [body] takes any value. Each field then holds the last value
    given for it, and the zero value (0, the empty type, the empty
    message) when none is given. The reader loop hands the packet to the
    packet callback and goes on. *)
Theorem decodePacket_type_optional (members : list (string * value)) :
  (is_Some (decodePacket (Object members)) ↔ id_fits members ∧ type_fits members)
  ∧ ∀ p, decodePacket (Object members) = Some p →
      p = denoted members
      ∧ (absent "id" members → Id p = 0)
      ∧ (absent "type" members → Type_ p = "")
      ∧ (absent "body" members → Body p = None)
      ∧ ∀ c h rest, OnPacket c = Some h →
          StartLoop c (Some (Object members) :: rest)
          = CallOnPacket h p :: StartLoop c rest.
Proof.
  unfold decodePacket. cbn [into_struct]. split.
  - split; [apply into_members_fits |].
    intros [Hid Htype]. rewrite into_members_overwritten by done. by eexists.
  - intros p Hp.
    destruct (into_members_fits members zeroPacket (ex_intro _ p Hp)) as [Hid Htype].
    rewrite into_members_overwritten in Hp by done. injection Hp as <-.
    split; [reflexivity |]. split; [| split; [| split]].
    + intros Habs. unfold overwritten. cbn [Id]. by rewrite (absent_given _ _ Habs).
    + intros Habs. unfold overwritten. cbn [Type_]. by rewrite (absent_given _ _ Habs).
    + intros Habs. unfold overwritten. cbn [Body]. by rewrite (absent_given _ _ Habs).
    + intros c h rest Hh. cbn [StartLoop]. unfold decodePacket. cbn [into_struct].
      by rewrite into_members_overwritten, Hh.
Qed.

Lemma decodePacket_type_optional_witness :
  ∃ p, decodePacket (Object [("id", Number (Int 7)); ("body", Object [])]) = Some p
       ∧ p = {| Id := 7; Type_ := ""; Body := Some (Object []) |}
       ∧ ∀ c h rest, OnPacket c = Some h →
           StartLoop c (Some (Object [("id", Number (Int 7)); ("body", Object [])]) :: rest)
           = CallOnPacket h p :: StartLoop c rest.
Proof.
  destruct (decodePacket_type_optional [("id", Number (Int 7)); ("body", Object [])])
    as [Hiff Hp].
  destruct (proj2 Hiff) as [p Hdec].
  - split.
    + constructor; [intros _; right; exists 7; split; reflexivity |].
      constructor; [| constructor]. intros H. vm_compute in H. discriminate.
    + constructor; [intros H; vm_compute in H; discriminate |].
      constructor; [| constructor]. intros H. vm_compute in H. discriminate.
  - exists p. split; [exact Hdec |].
    destruct (Hp p Hdec) as (Hden & _ & _ & _ & Hloop).
    split; [| exact Hloop]. rewrite Hden. reflexivity.
Defined.

(** C7, as the specification states it, fails: an object with no [type]
    member is not rejected, it yields a packet; nor does [body] have to
    be an object, or to be there at all. *)
Lemma missing_type_is_accepted :
  absent "type" [("id", Number (Int 7)); ("body", Object [])]
  ∧ decodePacket (Object [("id", Number (Int 7)); ("body", Object [])])
    = Some {| Id := 7; Type_ := ""; Body := Some (Object []) |}
  ∧ decodePacket (Object [("type", Str "kdeconnect.ping"); ("body", Str "text")])
    = Some {| Id := 0; Type_ := "kdeconnect.ping"; Body := Some (Str "text") |}
  ∧ decodePacket (Object []) = Some {| Id := 0; Type_ := ""; Body := None |}.
Proof. repeat split; repeat constructor. Qed.

(** What the decoder does refuse: a [type] that is not a string, an [id]
    that is not an integer, a value that is not an object. *)
Example decodePacket_refuses :
  decodePacket (Object [("type", Number (Int 3))]) = None
  ∧ decodePacket (Object [("id", Str "7")]) = None
  ∧ decodePacket (Object [("id", Number (Frac "1.5"))]) = None
  ∧ decodePacket (Array []) = None.
Proof. repeat split. Qed.

(** Keys are matched by their folded name: case does not count, and the
    long s counts as an s. *)
Example key_folding :
  key_is "type" "TYPE" = true
  ∧ key_is "type" "typ" = false
  ∧ key_is "protocolVersion"
      ("protocolVer" +:+ String "197" (String "191" "ion")) = true
  ∧ key_is "body" (String "226" (String "132" (String "170" "ody"))) = false.
Proof. repeat split. Qed.

End PacketDecoding.

(** ** Discovery events *)
Module DiscoveryEvents.
Import Protocol Network Core Run.
Import Scenario.
Import Spec.

(** C5, as the code has it. On a discovery event for a paired device:
    when the address text differs from [LastIP] or the device name
    differs from the recorded one, the paired record takes the new
    address, port and identity and the configuration is written;
    otherwise, whatever the port, the paired map is left as it is and
    nothing is written. The discovered record is replaced and
    [device_discovered] is emitted either way. *)
Theorem addDiscoveredDevice_paired (e : Engine) (identity : IdentityBody)
    (addr : UDPAddr) (info : PairedDeviceInfo.t) :
  pairedDevices e !! Protocol.DeviceId identity = Some info →
  let dev := {| DiscoveredDevice.Identity := identity;
                DiscoveredDevice.Addr := Some addr |} in
  let updated := <[Protocol.DeviceId identity :=
                     {| PairedDeviceInfo.Identity := identity;
                        PairedDeviceInfo.LastIP := IP addr;
                        PairedDeviceInfo.LastPort := Port addr |}]> (pairedDevices e) in
  ∃ e', addDiscoveredDevice identity (Some addr) e = Some (tt, e')
    ∧ discoveredDevices e' = <[Protocol.DeviceId identity := dev]> (discoveredDevices e)
    ∧ (PairedDeviceInfo.LastIP info ≠ IP addr
       ∨ DeviceName (PairedDeviceInfo.Identity info) ≠ DeviceName identity →
       pairedDevices e' = updated
       ∧ log e' = log e ++ [ConfigWritten {| Config.Identity := Identity e;
                                             Config.PairedDevices := updated |};
                            Emitted "device_discovered" (OfDevice dev)])
    ∧ (PairedDeviceInfo.LastIP info = IP addr →
       DeviceName (PairedDeviceInfo.Identity info) = DeviceName identity →
       pairedDevices e' = pairedDevices e
       ∧ log e' = log e ++ [Emitted "device_discovered" (OfDevice dev)]).
Proof.
  intros Hinfo dev updated. unfold addDiscoveredDevice. run. simpl.
  rewrite Hinfo.
  destruct (bool_decide (PairedDeviceInfo.LastIP info ≠ IP addr)) eqn:Eip;
    [| destruct (bool_decide (DeviceName (PairedDeviceInfo.Identity info)
                              ≠ DeviceName identity)) eqn:Ename];
    simpl; eexists; (split; [reflexivity |]); simpl.
  all: repeat match goal with
         | H : bool_decide _ = true |- _ => apply bool_decide_eq_true in H
         | H : bool_decide _ = false |- _ => apply bool_decide_eq_false in H
         end.
  all: split; [reflexivity |]; split; [intros Hchanged | intros Hip Hname].
  all: try (split; [reflexivity | by rewrite <- app_assoc]).
  all: tauto.
Qed.

Lemma addDiscoveredDevice_paired_witness :
  let e := paired_with_phone in
  let addr := {| IP := "10.0.0.3"; Port := 1716 |} in
  let dev := {| DiscoveredDevice.Identity := phone;
                DiscoveredDevice.Addr := Some addr |} in
  let updated := <["B" :=
                     {| PairedDeviceInfo.Identity := phone;
                        PairedDeviceInfo.LastIP := "10.0.0.3";
                        PairedDeviceInfo.LastPort := 1716 |}]> (pairedDevices e) in
  ∃ e', addDiscoveredDevice phone (Some addr) e = Some (tt, e')
    ∧ pairedDevices e' = updated
    ∧ log e' = [ConfigWritten {| Config.Identity := desktop;
                                 Config.PairedDevices := updated |};
                Emitted "device_discovered" (OfDevice dev)].
Proof.
  intros e addr dev updated.
  destruct (addDiscoveredDevice_paired e phone addr
              {| PairedDeviceInfo.Identity := phone;
                 PairedDeviceInfo.LastIP := "10.0.0.2";
                 PairedDeviceInfo.LastPort := 1716 |} eq_refl)
    as (e' & Hrun & _ & Hchanged & _).
  exists e'. split; [exact Hrun |].
  apply Hchanged. left. simpl. discriminate.
Defined.

(** C5, as the specification states it, fails: the phone is seen again
    at the same address with another port, so the pair (address, port)
    has changed, yet the paired record keeps the old port and nothing is
    written. *)
Lemma port_change_is_not_recorded :
  let e := paired_with_phone in
  let addr := {| IP := "10.0.0.2"; Port := 1717 |} in
  ∃ info e',
    pairedDevices e !! "B" = Some info
    ∧ (PairedDeviceInfo.LastIP info, PairedDeviceInfo.LastPort info) ≠ (IP addr, Port addr)
    ∧ addDiscoveredDevice phone (Some addr) e = Some (tt, e')
    ∧ pairedDevices e' !! "B" = Some info
    ∧ log e' = [Emitted "device_discovered"
                  (OfDevice {| DiscoveredDevice.Identity := phone;
                               DiscoveredDevice.Addr := Some addr |})].
Proof.
  intros e addr. eexists. eexists.
  split; [vm_compute; reflexivity |].
  split; [intros H; inversion H |].
  split; [vm_compute; reflexivity |].
  split; vm_compute; reflexivity.
Qed.

Lemma for_each_app {A} (f : A → M unit) (l1 l2 : list A) (e : Engine) :
  for_each f (l1 ++ l2) e = (for_each f l1 ;; for_each f l2) e.
Proof.
  revert e. induction l1 as [| a l1 IH]; intros e; simpl; run.
  - by destruct (for_each f l2 e) as [[[] ?] |].
  - destruct (f a e) as [[[] e1] |]; [| done]. apply IH.
Qed.

Lemma ListenDiscovery_app (reads1 reads2 : list (option Datagram)) :
  ListenDiscovery (reads1 ++ reads2) = ListenDiscovery reads1 ++ ListenDiscovery reads2.
Proof.
  induction reads1 as [| [d |] reads1 IH]; simpl; try done.
  destruct (payload d ≫= decodePacket); simpl; by rewrite IH.
Qed.

(** The listener treats the reads one after the other. *)
Lemma Start_ListenDiscovery_app (reads1 reads2 : list (option Datagram)) (e : Engine) :
  Start_ListenDiscovery (reads1 ++ reads2) e
  = (Start_ListenDiscovery reads1 ;; Start_ListenDiscovery reads2) e.
Proof.
  unfold Start_ListenDiscovery. rewrite ListenDiscovery_app. apply for_each_app.
Qed.

(** C9. A datagram that holds an identity packet is dropped without any
    trace (no discovered record, no event, no write) when the identity
    carries our own device id; with any other device id the identity goes
    to [addDiscoveredDevice] together with the source address of the
    datagram. No other datagram has any effect. *)
Theorem self_filter (e : Engine) (d : Datagram) :
  (∀ idBody, identity_datagram d idBody →
     Protocol.DeviceId idBody = Protocol.DeviceId (Identity e) →
     Start_ListenDiscovery [Some d] e = Some (tt, e))
  ∧ (∀ idBody, identity_datagram d idBody →
       Protocol.DeviceId idBody ≠ Protocol.DeviceId (Identity e) →
       Start_ListenDiscovery [Some d] e
       = addDiscoveredDevice idBody (Some (source d)) e)
  ∧ (Start_ListenDiscovery [Some d] e ≠ Some (tt, e) →
     ∃ idBody, identity_datagram d idBody
               ∧ Protocol.DeviceId idBody ≠ Protocol.DeviceId (Identity e)).
Proof.
  unfold Start_ListenDiscovery, identity_datagram. simpl.
  destruct (payload d ≫= decodePacket) as [p |]; simpl.
  2: { split; [| split]; [by intros ? (? & ? & _) | by intros ? (? & ? & _) | done]. }
  unfold discoveryHandler. run.
  destruct (bool_decide (Type_ p = "kdeconnect.identity")) eqn:Etype.
  2: { apply bool_decide_eq_false in Etype.
       split; [| split]; [| | done]; intros ? (? & [= <-] & ? & _); done. }
  apply bool_decide_eq_true in Etype.
  destruct (decodeIdentity (Body p)) as [idBody |] eqn:Ebody.
  2: { split; [| split]; [| | done]; intros ? (? & [= <-] & _ & ?); congruence. }
  destruct (bool_decide (Protocol.DeviceId idBody ≠ Protocol.DeviceId (Identity e)))
    eqn:Eid.
  - apply bool_decide_eq_true in Eid. split; [| split].
    + intros ? (? & [= <-] & _ & ?) ?. by simplify_eq.
    + intros ? (? & [= <-] & _ & ?) _. simplify_eq.
      by destruct (addDiscoveredDevice idBody (Some (source d)) e) as [[[] ?] |].
    + intros _. exists idBody. split; [by exists p | done].
  - apply bool_decide_eq_false in Eid. split; [| split]; [done | | done].
    intros ? (? & [= <-] & _ & ?) ?. by simplify_eq.
Qed.

Lemma self_filter_witness :
  let e := paired_with_phone in
  let from_us :=
    {| payload := Some (announcement "fyne-0000000000000017979cfe362a0000" "laptop");
       source := {| IP := "10.0.0.1"; Port := 40000 |} |} in
  let from_phone :=
    {| payload := Some (announcement "B" "phone");
       source := {| IP := "10.0.0.2"; Port := 40001 |} |} in
  Start_ListenDiscovery [Some from_us] e = Some (tt, e)
  ∧ Start_ListenDiscovery [Some from_phone] e
    = addDiscoveredDevice phone (Some {| IP := "10.0.0.2"; Port := 40001 |}) e.
Proof.
  intros e from_us from_phone. split.
  - destruct (self_filter e from_us) as (Hown & _ & _).
    eapply Hown; [eexists; repeat split; reflexivity |]. reflexivity.
  - destruct (self_filter e from_phone) as (_ & Hother & _).
    apply (Hother phone); [eexists; repeat split; reflexivity |].
    vm_compute. discriminate.
Defined.

End DiscoveryEvents.

(** ** Pairing and unpairing *)
Module Pairing.
Import Protocol Network Core Run.
Import Scenario.
Import Spec.

(** C8. Unpairing a device that is not paired changes nothing: the call
    returns "device not paired" with the whole state, log included, as it
    was. Marking as paired a device that is already in the paired map
    keeps the set of paired ids, and so the number of entries. *)
Theorem unpair_pair_idempotent (e : Engine) (deviceId : string) (env : Env) :
  (pairedDevices e !! deviceId = None →
   Unpair deviceId env e = Some (Some "device not paired", e))
  ∧ (is_Some (pairedDevices e !! deviceId) →
     (∀ dev, discoveredDevices e !! deviceId = Some dev →
             is_Some (DiscoveredDevice.Addr dev)) →
     ∃ e', MarkAsPaired deviceId e = Some (tt, e')
           ∧ dom (pairedDevices e') = dom (pairedDevices e)
           ∧ size (pairedDevices e') = size (pairedDevices e)).
Proof.
  split.
  - intros Hnone. unfold Unpair. run. by rewrite Hnone.
  - intros Hpaired Haddr. unfold MarkAsPaired. run.
    assert (Hdom : ∀ info, dom (<[deviceId := info]> (pairedDevices e))
                           = dom (pairedDevices e)).
    { intros info. rewrite dom_insert_L.
      apply subseteq_union_1_L, singleton_subseteq_l. by apply elem_of_dom. }
    destruct (discoveredDevices e !! deviceId) as [dev |] eqn:Edev.
    + destruct (Haddr dev eq_refl) as [a Ha]. rewrite Ha. simpl.
      eexists. split; [reflexivity |]. simpl. split; [apply Hdom |].
      by rewrite <- !size_dom, Hdom.
    + simpl. eexists. split; [reflexivity |]. by simpl.
Qed.

Lemma unpair_pair_idempotent_witness :
  Unpair "C" offline phone_nearby = Some (Some "device not paired", phone_nearby)
  ∧ ∃ e', MarkAsPaired "B" phone_nearby = Some (tt, e')
          ∧ dom (pairedDevices e') = dom (pairedDevices phone_nearby)
          ∧ size (pairedDevices e') = size (pairedDevices phone_nearby).
Proof.
  split.
  - apply (unpair_pair_idempotent phone_nearby "C" offline). reflexivity.
  - apply (unpair_pair_idempotent phone_nearby "B" offline).
    + eexists. vm_compute. reflexivity.
    + intros dev Hdev. vm_compute in Hdev. inversion Hdev. eexists. reflexivity.
Defined.

End Pairing.

(** ** What the engine's steps leave alone *)
Module EngineFacts.
Import Protocol Network Core Run.
Import Spec.

Lemma same_pairing_refl (e : Engine) : same_pairing e e.
Proof. split; [done |]. exists []. by rewrite app_nil_r. Qed.

Lemma IsPaired_in_map (e : Engine) (deviceId : string) :
  IsPaired e deviceId = true ↔ deviceId ∈ dom (pairedDevices e).
Proof.
  unfold IsPaired. rewrite elem_of_dom.
  destruct (pairedDevices e !! deviceId); split; done.
Qed.

(** A sighting with an address never panics; it touches neither the
    connections nor who is paired. *)
Lemma addDiscoveredDevice_Some (identity : IdentityBody) (a : UDPAddr) (e : Engine) :
  ∃ e', addDiscoveredDevice identity (Some a) e = Some (tt, e')
        ∧ heap e' = heap e
        ∧ activeConns e' = activeConns e
        ∧ same_pairing e e'.
Proof.
  unfold addDiscoveredDevice. run. simpl.
  destruct (pairedDevices e !! Protocol.DeviceId identity) as [info |] eqn:Einfo.
  - destruct (bool_decide (PairedDeviceInfo.LastIP info ≠ IP a)
              || bool_decide (DeviceName (PairedDeviceInfo.Identity info)
                              ≠ DeviceName identity)).
    + eexists. split; [reflexivity |]. repeat split.
      * intros deviceId. unfold IsPaired. simpl.
        destruct (decide (Protocol.DeviceId identity = deviceId)) as [<- | Hne].
        -- by rewrite lookup_insert_eq, Einfo.
        -- by rewrite lookup_insert_ne.
      * simpl. eexists. split; [by rewrite <- app_assoc |].
        repeat constructor; intros d; discriminate.
    + eexists. split; [reflexivity |]. repeat split.
      simpl. eexists. split; [done |]. repeat constructor; intros d; discriminate.
  - eexists. split; [reflexivity |]. repeat split.
    simpl. eexists. split; [done |]. repeat constructor; intros d; discriminate.
Qed.

(** The outbound handshake takes whatever certificates the peer
    presents. *)
Lemma Connect_trusts_any_certificate (ip : string) (port : Z) (cert : Certificate)
    (myIdentity : IdentityBody) (peer : Peer) (v : Json.value) (p : Packet)
    (remote : IdentityBody) :
  dial_err peer = None → plain_write_err peer = None →
  tls_completes peer = true → presented peer ≠ [] →
  secure_write_err peer = None →
  secure_line peer = Some (Some v) → decodePacket v = Some p →
  decodeIdentity (Body p) = Some remote →
  Connect ip port cert myIdentity peer
  = inl (NewConnection {| RemoteIP := ip; PeerCertificates := Some (presented peer) |}
           (Protocol.DeviceId remote) remote).
Proof.
  intros Hdial Hplain Htls Hcerts Hsecure Hline Hp Hremote.
  unfold Connect, sendIdentity, Handshake.
  rewrite Hdial, Hplain, Htls, Hsecure, Hline. simpl.
  destruct (presented peer) as [| c cs]; [done |]. simpl.
  by rewrite Hp, Hremote.
Qed.

(** Accepting a connection whose advertised port is a port number. *)
Lemma accepted_Some (c : Connection) (e : Engine) :
  0 ≤ TcpPort (RemoteIdentity c) ≤ 65535 →
  let conn := fresh (dom (heap e)) in
  ∃ e', accepted c e = Some (conn, e')
        ∧ activeConns e' = <[Network.DeviceId c := conn]> (activeConns e)
        ∧ heap e' !! conn
          = Some {| Conn := Conn c; DeviceId := Network.DeviceId c;
                    RemoteIdentity := RemoteIdentity c;
                    OnPacket := Some (HandlePacketOf conn);
                    OnDisconnect := Some (DeleteIfSame (Network.DeviceId c) conn) |}
        ∧ (∀ l, l ≠ conn → heap e' !! l = heap e !! l)
        ∧ same_pairing e e'.
Proof.
  intros Hport conn.
  unfold accepted, new_conn, handleNewConnection, set_OnPacket, set_OnDisconnect.
  run. simpl. fold conn. rewrite lookup_insert_eq. simpl.
  unfold ResolveUDPAddr.
  replace ((0 <=? TcpPort (RemoteIdentity c)) && (TcpPort (RemoteIdentity c) <=? 65535))
    with true by (symmetry; apply andb_true_intro; split; lia).
  match goal with
  | |- context [addDiscoveredDevice ?i (Some ?a) ?e0] =>
      destruct (addDiscoveredDevice_Some i a e0) as (e1 & -> & Hheap & Hactive & Hsame)
  end.
  simpl in Hheap, Hactive.
  rewrite Hheap, lookup_insert_eq. simpl. rewrite lookup_insert_eq. simpl.
  eexists. split; [reflexivity |]. simpl. repeat split.
  - done.
  - by rewrite lookup_insert_eq.
  - intros l Hl. rewrite Hheap. by rewrite !lookup_insert_ne.
  - intros deviceId. exact (same_IsPaired _ _ Hsame deviceId).
  - destruct (no_pair_request _ _ Hsame) as (l & Hl & Hq). simpl in Hl. by exists l.
Qed.

(** Looking up or dialling a device whose discovered record, if any, has
    an address. *)
Lemma getOrConnect_Some (deviceId : string) (env : Env) (e : Engine) :
  (∀ dev, discoveredDevices e !! deviceId = Some dev →
          is_Some (DiscoveredDevice.Addr dev)) →
  ∃ r e', getOrConnect deviceId env e = Some (r, e')
          ∧ pairedDevices e' = pairedDevices e
          ∧ same_pairing e e'.
Proof.
  intros Haddr. unfold getOrConnect. run.
  destruct (activeConns e !! deviceId) as [conn |].
  { do 2 eexists. split; [reflexivity |]. split; [done | apply same_pairing_refl]. }
  assert (Hgo : ∀ ip port,
    ∃ r e',
      (if bool_decide (ip = "") || bool_decide (port = 0)
       then ret (inr ("missing address for device " +:+ deviceId))
       else
         match Connect ip port (Cert e) (Identity e) (peer env) with
         | inr err => ret (inr err)
         | inl c =>
             newConn ← new_conn c;
             modify (with_activeConns (insert deviceId newConn)) ;;
             set_OnPacket newConn (HandlePacketOf newConn) ;;
             set_OnDisconnect newConn (DeleteAlways deviceId) ;;
             perform (LoopStarted newConn) ;;
             ret (inl newConn)
         end) e = Some (r, e')
      ∧ pairedDevices e' = pairedDevices e ∧ same_pairing e e').
  { intros ip port.
    destruct (bool_decide (ip = "") || bool_decide (port = 0)).
    { do 2 eexists. split; [reflexivity |]. split; [done | apply same_pairing_refl]. }
    destruct (Connect ip port (Cert e) (Identity e) (peer env)) as [c | err].
    2: { do 2 eexists. split; [reflexivity |]. split; [done | apply same_pairing_refl]. }
    unfold new_conn, set_OnPacket, set_OnDisconnect. run. simpl.
    rewrite lookup_insert_eq. simpl. rewrite lookup_insert_eq. simpl.
    do 2 eexists. split; [reflexivity |]. simpl. split; [done |]. split; [done |].
    simpl. eexists. split; [done |]. repeat constructor. intros d. discriminate. }
  destruct (discoveredDevices e !! deviceId) as [dev |] eqn:Edev.
  - destruct (Haddr dev eq_refl) as [a Ha]. rewrite Ha. simpl.
    destruct (Hgo (IP a) (TcpPort (DiscoveredDevice.Identity dev)))
      as (r & e' & Hrun & Hrest).
    run_in Hrun. exists r, e'. by split.
  - destruct (pairedDevices e !! deviceId) as [info |].
    + destruct (Hgo (PairedDeviceInfo.LastIP info) (PairedDeviceInfo.LastPort info))
        as (r & e' & Hrun & Hrest).
      run_in Hrun. exists r, e'. by split.
    + do 2 eexists. split; [reflexivity |]. split; [done | apply same_pairing_refl].
Qed.

End EngineFacts.

(** ** Replacement of connections and the disconnect handlers *)
Module Reconciliation.
Import Protocol Network Core Run EngineFacts.
Import Scenario.
Import Spec.

(** The handler built by [handleNewConnection] compares pointers: when
    the map holds another connection for the device, nothing happens. *)
Lemma DeleteIfSame_keeps_replacement (e : Engine) (deviceId : string) (c1 c2 : loc) :
  activeConns e !! deviceId = Some c2 → c1 ≠ c2 →
  call_OnDisconnect (DeleteIfSame deviceId c1) e = Some (tt, e).
Proof.
  intros Hc2 Hne. unfold call_OnDisconnect. run. rewrite Hc2.
  rewrite bool_decide_eq_false_2; [done | congruence].
Qed.

(** The handler built by [getOrConnect] does not: the entry goes,
    whichever connection it holds. *)
Lemma DeleteAlways_purges (e : Engine) (deviceId : string) :
  ∃ e', call_OnDisconnect (DeleteAlways deviceId) e = Some (tt, e')
        ∧ activeConns e' !! deviceId = None.
Proof.
  eexists. split; [reflexivity |]. simpl. apply lookup_delete_eq.
Qed.

(** Two accepted connections of one device: the older one reporting its
    disconnect leaves the newer one registered. *)
Lemma accepted_disconnect_keeps_replacement (e : Engine) (c1 c2 : Connection) :
  0 ≤ TcpPort (RemoteIdentity c1) ≤ 65535 →
  0 ≤ TcpPort (RemoteIdentity c2) ≤ 65535 →
  Network.DeviceId c1 = Network.DeviceId c2 →
  ∃ l1 l2 e1 e2,
    accepted c1 e = Some (l1, e1)
    ∧ accepted c2 e1 = Some (l2, e2)
    ∧ l1 ≠ l2
    ∧ activeConns e2 !! Network.DeviceId c1 = Some l2
    ∧ disconnects l1 e2 = Some (tt, e2).
Proof.
  intros Hp1 Hp2 Hid.
  destruct (accepted_Some c1 e Hp1) as (e1 & Hrun1 & Hact1 & Hheap1 & _ & _).
  destruct (accepted_Some c2 e1 Hp2) as (e2 & Hrun2 & Hact2 & Hheap2 & Hframe2 & _).
  set (l1 := fresh (dom (heap e))) in *. set (l2 := fresh (dom (heap e1))) in *.
  assert (Hne : l1 ≠ l2).
  { intros Heq. apply (is_fresh (dom (heap e1))). fold l2. rewrite <- Heq.
    apply elem_of_dom. by eexists. }
  exists l1, l2, e1, e2. repeat split; try done.
  - by rewrite Hact2, Hid, lookup_insert_eq.
  - unfold disconnects. run.
    rewrite (Hframe2 l1 Hne), Hheap1.
    cbn [OnDisconnect for_each]. run.
    rewrite DeleteIfSame_keeps_replacement with (c2 := l2); try done.
    by rewrite Hact2, Hid, lookup_insert_eq.
Qed.

(** The reader loop at end of file does just that. *)
Lemma StartLoop_eof (conn : loc) (env : Env) (e : Engine) :
  Connection_StartLoop conn [] env e = disconnects conn e.
Proof.
  unfold Connection_StartLoop, disconnects. run.
  destruct (heap e !! conn) as [c |]; [| done].
  unfold StartLoop, disconnect. by destruct (OnDisconnect c).
Qed.

(** C3 fails on the outbound path. The engine dials the phone
    (connection 0, registered by [getOrConnect]); the phone then connects
    to us (connection 1 replaces 0 in the map); connection 0 reports its
    disconnect and the entry of connection 1 is removed. *)
Theorem dialled_disconnect_purges_replacement :
  ∃ e1 e2 e3,
    getOrConnect "B" (phone_answers phone_cert) phone_nearby
    = Some (inl 0%nat, e1)
    ∧ (OnDisconnect <$> heap e1 !! 0%nat) = Some (Some (DeleteAlways "B"))
    ∧ accepted phone_connects e1 = Some (1%nat, e2)
    ∧ activeConns e2 !! "B" = Some 1%nat
    ∧ disconnects 0%nat e2 = Some (tt, e3)
    ∧ activeConns e3 !! "B" = None.
Proof.
  do 3 eexists.
  split; [vm_compute; reflexivity |].
  split; [vm_compute; reflexivity |].
  split; [vm_compute; reflexivity |].
  split; [vm_compute; reflexivity |].
  split; vm_compute; reflexivity.
Qed.

End Reconciliation.

(** ** Pairing and the peer's certificate *)
Module Pinning.
Import Protocol Network Core Run EngineFacts.
Import Scenario.
Import Spec.

(** C2, as the code has it. A device is paired exactly when it is in the
    paired map. Registering a connection, dialled or accepted, whatever
    certificate its peer holds, changes the pairedness of no device and
    surfaces no pair request. *)
Theorem paired_iff_in_map (e : Engine) (deviceId : string) :
  (IsPaired e deviceId = true ↔ deviceId ∈ dom (pairedDevices e))
  ∧ (∀ env,
       (∀ dev, discoveredDevices e !! deviceId = Some dev →
               is_Some (DiscoveredDevice.Addr dev)) →
       ∃ r e', getOrConnect deviceId env e = Some (r, e') ∧ same_pairing e e')
  ∧ (∀ c,
       0 ≤ TcpPort (RemoteIdentity c) ≤ 65535 →
       ∃ conn e', accepted c e = Some (conn, e') ∧ same_pairing e e').
Proof.
  split; [apply IsPaired_in_map |]. split.
  - intros env Haddr.
    destruct (getOrConnect_Some deviceId env e Haddr) as (r & e' & Hrun & _ & Hsame).
    by exists r, e'.
  - intros c Hport.
    destruct (accepted_Some c e Hport) as (e' & Hrun & _ & _ & _ & Hsame).
    by eexists _, e'.
Qed.

Lemma paired_iff_in_map_witness :
  (IsPaired phone_seen "B" = true ↔ "B" ∈ dom (pairedDevices phone_seen))
  ∧ (∃ r e', getOrConnect "B" (phone_answers other_cert) phone_seen
             = Some (r, e') ∧ same_pairing phone_seen e')
  ∧ (∃ conn e', accepted phone_connects phone_seen = Some (conn, e')
                ∧ same_pairing phone_seen e').
Proof.
  destruct (paired_iff_in_map phone_seen "B") as (Hiff & Hdial & Haccept).
  split; [exact Hiff |]. split.
  - apply Hdial. intros dev Hdev. vm_compute in Hdev. inversion Hdev.
    eexists. reflexivity.
  - apply Haccept. simpl. lia.
Defined.

(** C2, as the specification states it, fails. We pair with the phone
    over a connection on which it presents [phone_cert]; the connection
    ends; the next connection to the phone's address is answered with
    [other_cert]. The device still counts as paired, although the
    fingerprints differ, and no pair request has been surfaced. *)
Lemma other_certificate_stays_paired :
  ∃ e1 e2 e3 c,
    Pair_ "B" (phone_answers phone_cert) phone_seen
    = Some (None, e1)
    ∧ (PeerCertificates ∘ Conn <$> heap e1 !! 0%nat)
      = Some (Some [phone_cert])
    ∧ Connection_StartLoop 0%nat [Some pair_accepted]
        (phone_answers phone_cert) e1
      = Some (tt, e2)
    ∧ IsPaired e2 "B" = true
    ∧ activeConns e2 !! "B" = None
    ∧ SendPacket "B" "kdeconnect.ping" EmptyOut
        (phone_answers other_cert) e2
      = Some (None, e3)
    ∧ activeConns e3 !! "B" = Some 1%nat
    ∧ heap e3 !! 1%nat = Some c
    ∧ PeerCertificates (Conn c) = Some [other_cert]
    ∧ Fingerprint other_cert ≠ Fingerprint phone_cert
    ∧ Forall not_pair_request (log e3)
    ∧ ¬ (IsPaired e3 "B" = true
         ↔ pinned e3 "B" phone_cert other_cert).
Proof.
  do 4 eexists.
  split; [vm_compute; reflexivity |].
  split; [vm_compute; reflexivity |].
  split; [vm_compute; reflexivity |].
  split; [vm_compute; reflexivity |].
  split; [vm_compute; reflexivity |].
  split; [vm_compute; reflexivity |].
  split; [vm_compute; reflexivity |].
  split; [vm_compute; reflexivity |].
  split; [vm_compute; reflexivity |].
  assert (Hfp : Fingerprint other_cert ≠ Fingerprint phone_cert)
    by (vm_compute; discriminate).
  split; [exact Hfp |].
  split.
  - vm_compute. repeat constructor; intros d; discriminate.
  - intros [Hpinned _]. destruct Hpinned as [_ Heq]; [vm_compute; reflexivity |].
    by apply Hfp.
Qed.

End Pinning.

(** ** Text that is UTF-8 *)
Module Utf8Facts.
Import Utf8 SpecMore.

Ltac to_prop H :=
  repeat first [ rewrite andb_true_iff in H | rewrite orb_true_iff in H
               | rewrite N.leb_le in H | rewrite N.eqb_eq in H
               | rewrite N.ltb_lt in H ].

(** Settles the comparisons of the goal one after the other, from the
    ranges in the context. *)
Ltac settle :=
  repeat first
    [ match goal with
      | |- context [(?a <? ?b)%N] =>
          first [ replace (a <? b)%N with true by (symmetry; apply N.ltb_lt; lia)
                | replace (a <? b)%N with false by (symmetry; apply N.ltb_ge; lia) ]
      | |- context [(?a <=? ?b)%N] =>
          first [ replace (a <=? b)%N with true by (symmetry; apply N.leb_le; lia)
                | replace (a <=? b)%N with false by (symmetry; apply N.leb_gt; lia) ]
      | |- context [(?a =? ?b)%N] =>
          first [ replace (a =? b)%N with true by (symmetry; apply N.eqb_eq; lia)
                | replace (a =? b)%N with false by (symmetry; apply N.eqb_neq; lia) ]
      end; cbv iota; cbn [negb andb orb length Nat.ltb Nat.leb] ].

(** On well-formed text the decoder finds a character, and what follows
    it is well formed. *)
Lemma DecodeRune_well_formed (c : ascii) (l : list ascii) :
  well_formed (map N_of_ascii (c :: l)) = true →
  ∃ size, DecodeRuneInString (c :: l) = Some (S size)
          ∧ (S size ≤ length (c :: l))%nat
          ∧ well_formed (map N_of_ascii (drop (S size) (c :: l))) = true.
Proof.
  intros Hwf. cbn [map well_formed] in Hwf.
  unfold DecodeRuneInString, first, continuation, within.
  destruct (N.leb_spec (N_of_ascii c) 0x7F) as [H0 | H0].
  { exists 0%nat. settle. split; [done |]. split; [simpl; lia | done]. }
  destruct l as [| c1 l1]; [done |]. cbn [map] in Hwf.
  destruct (between 0xC2 0xDF (N_of_ascii c)) eqn:E2.
  { apply andb_true_iff in Hwf as [Ht Hwf].
    unfold between in E2. unfold tail_byte, between in Ht. to_prop E2. to_prop Ht.
    exists 1%nat. settle. split; [done |]. split; [simpl; lia | done]. }
  clear E2.
  destruct l1 as [| c2 l2]; [done |]. cbn [map] in Hwf.
  destruct (three_bytes (N_of_ascii c) (N_of_ascii c1)) eqn:E3.
  { apply andb_true_iff in Hwf as [Ht Hwf].
    unfold three_bytes, tail_byte, between in E3.
    unfold tail_byte, between in Ht. to_prop E3. to_prop Ht.
    exists 2%nat.
    destruct E3 as [[[E3 | E3] | E3] | E3];
      settle; (split; [done |]); (split; [simpl; lia | done]). }
  clear E3.
  destruct l2 as [| c3 l3]; [done |]. cbn [map] in Hwf.
  apply andb_true_iff in Hwf as [Hwf Hrest].
  apply andb_true_iff in Hwf as [Hwf Ht3].
  apply andb_true_iff in Hwf as [E4 Ht2].
  unfold four_bytes, tail_byte, between in E4.
  unfold tail_byte, between in Ht2, Ht3. to_prop E4. to_prop Ht2. to_prop Ht3.
  exists 3%nat.
  destruct E4 as [[E4 | E4] | E4];
    settle; (split; [done |]); (split; [simpl; lia | done]).
Qed.

Lemma appendString_from_well_formed (fuel : nat) (l : list ascii) :
  (length l ≤ fuel)%nat → well_formed (map N_of_ascii l) = true →
  appendString_from fuel l = l.
Proof.
  revert l. induction fuel as [| fuel IH]; intros l Hlen Hwf.
  { destruct l; [done | simpl in Hlen; lia]. }
  destruct l as [| c l]; [done |]. cbn [appendString_from].
  destruct (DecodeRune_well_formed c l Hwf) as (size & -> & Hsize & Hrest).
  rewrite IH; [apply take_drop | | done].
  rewrite length_drop. simpl in *. lia.
Qed.

(** Text that is UTF-8 is written as it is. *)
Lemma appendString_utf8 (s : string) : utf8 s = true → appendString s = s.
Proof.
  intros Hs. unfold appendString.
  rewrite appendString_from_well_formed.
  - apply string_of_list_ascii_of_string.
  - clear Hs. induction s as [| c s IH]; simpl; lia.
  - exact Hs.
Qed.

Lemma DecodeRuneInString_size (s : list ascii) (n : nat) :
  DecodeRuneInString s = Some n → (1 ≤ n)%nat.
Proof.
  unfold DecodeRuneInString. destruct s as [| s0 s]; [done |].
  destruct (first (N_of_ascii s0)) as [| | size lo hi]; [by intros [= <-] | done |].
  repeat case_match; intros [= <-]; lia.
Qed.

(** Every round takes at least one byte: as many rounds as there are
    bytes are enough, more change nothing. *)
Lemma appendString_from_S (fuel : nat) (src : list ascii) :
  (length src ≤ fuel)%nat →
  appendString_from (S fuel) src = appendString_from fuel src.
Proof.
  revert src. induction fuel as [| fuel IH]; intros src Hlen.
  { destruct src; [done | simpl in Hlen; lia]. }
  destruct src as [| c rest]; [done |].
  change (appendString_from (S (S fuel)) (c :: rest))
    with (match DecodeRuneInString (c :: rest) with
          | None => replacement ++ appendString_from (S fuel) rest
          | Some size => take size (c :: rest)
                         ++ appendString_from (S fuel) (drop size (c :: rest))
          end).
  change (appendString_from (S fuel) (c :: rest))
    with (match DecodeRuneInString (c :: rest) with
          | None => replacement ++ appendString_from fuel rest
          | Some size => take size (c :: rest)
                         ++ appendString_from fuel (drop size (c :: rest))
          end).
  simpl in Hlen.
  destruct (DecodeRuneInString (c :: rest)) as [size |] eqn:E.
  - apply DecodeRuneInString_size in E. rewrite IH; [done |].
    rewrite length_drop. simpl. lia.
  - rewrite IH; [done | lia].
Qed.

Lemma appendString_from_enough (fuel : nat) (src : list ascii) :
  (length src ≤ fuel)%nat →
  appendString_from fuel src = appendString_from (length src) src.
Proof.
  intros Hlen. replace fuel with (length src + (fuel - length src))%nat by lia.
  generalize (fuel - length src)%nat as k. intros k. clear Hlen.
  induction k as [| k IH]; [by rewrite Nat.add_0_r |].
  rewrite Nat.add_succ_r, appendString_from_S by lia. exact IH.
Qed.

(** Only the empty string is written as the empty string. *)
Lemma appendString_empty (s : string) :
  bool_decide (appendString s = "") = bool_decide (s = "").
Proof.
  destruct s as [| c s]; [done |].
  rewrite (bool_decide_eq_false_2 (String c s = "")) by done.
  apply bool_decide_eq_false_2. unfold appendString.
  cbn [String.length list_ascii_of_string appendString_from].
  destruct (DecodeRuneInString _) as [size |] eqn:E; [| done].
  apply DecodeRuneInString_size in E. by destruct size as [| size]; [lia |].
Qed.

Lemma map_appendString_utf8 (l : list string) :
  forallb utf8 l = true → map appendString l = l.
Proof.
  induction l as [| s l IH]; simpl; [done |].
  intros [Hs Hl]%andb_true_iff. by rewrite (appendString_utf8 s Hs), IH.
Qed.

(** A byte that starts no character comes out as U+FFFD, a character
    as it is. *)
Example appendString_replaces :
  appendString (String "255" "A") = String "239" (String "191" (String "189" "A"))
  ∧ utf8 (String "255" "A") = false
  ∧ appendString (String "195" (String "169" "")) = String "195" (String "169" "")
  ∧ utf8 (String "195" (String "169" "")) = true
  ∧ appendString (String "226" (String "130" ""))
    = String "239" (String "191" (String "189"
        (String "239" (String "191" (String "189" "")))))
  ∧ utf8 (String "237" (String "160" (String "128" ""))) = false.
Proof. repeat split. Qed.

End Utf8Facts.

(** ** Encoding and decoding *)
Module RoundTrip.
Import Json Protocol Network Core Run.
Import Scenario Spec SpecMore Utf8Facts.

Lemma into_string_elems_strings (l : list string) :
  into_string_elems (map Str l) = Some l.
Proof. induction l as [| s l IH]; simpl; [done | by rewrite IH]. Qed.

Lemma into_struct_identity (i : IdentityBody) :
  identity_fits i → into_struct storeIdentity (Encode.identity i) zeroIdentity = Some i.
Proof.
  intros [Hpv Htp]. destruct i as [di dn dt pv tp ba ic oc]. simpl in Hpv, Htp.
  unfold Encode.identity. simpl.
  destruct (bool_decide (ba = "")) eqn:Eba.
  - apply bool_decide_eq_true in Eba as ->.
    lazy -[Go.is_int64 into_string_elems]. rewrite Hpv.
    lazy -[Go.is_int64 into_string_elems]. rewrite Htp.
    lazy -[Go.is_int64 into_string_elems]. rewrite !into_string_elems_strings.
    reflexivity.
  - lazy -[Go.is_int64 into_string_elems]. rewrite Hpv.
    lazy -[Go.is_int64 into_string_elems]. rewrite Htp.
    lazy -[Go.is_int64 into_string_elems]. rewrite !into_string_elems_strings.
    reflexivity.
Qed.

Lemma identity_decodes (i : IdentityBody) :
  identity_fits i → decodeIdentity (Some (Encode.identity i)) = Some i.
Proof. intros Hfits. by apply into_struct_identity. Qed.

(** Decoded on top of an identity [i0], the printed identity replaces
    every field but a Bluetooth address left out for being empty. *)
Lemma into_struct_identity_over (i i0 : IdentityBody) :
  identity_fits i →
  into_struct storeIdentity (Encode.identity i) i0
  = Some (if bool_decide (BluetoothAddress i = "")
          then Core.with_BluetoothAddress (BluetoothAddress i0) i else i).
Proof.
  intros [Hpv Htp]. destruct i as [di dn dt pv tp ba ic oc].
  destruct i0 as [di0 dn0 dt0 pv0 tp0 ba0 ic0 oc0]. simpl in Hpv, Htp.
  unfold Encode.identity, Core.with_BluetoothAddress. simpl.
  destruct (bool_decide (ba = "")) eqn:Eba.
  - lazy -[Go.is_int64 into_string_elems]. rewrite Hpv.
    lazy -[Go.is_int64 into_string_elems]. rewrite Htp.
    lazy -[Go.is_int64 into_string_elems]. rewrite !into_string_elems_strings.
    reflexivity.
  - lazy -[Go.is_int64 into_string_elems]. rewrite Hpv.
    lazy -[Go.is_int64 into_string_elems]. rewrite Htp.
    lazy -[Go.is_int64 into_string_elems]. rewrite !into_string_elems_strings.
    reflexivity.
Qed.

Lemma identity_decodes_over (i i0 : IdentityBody) :
  identity_fits i → BluetoothAddress i0 = BluetoothAddress i →
  Json.Unmarshal storeIdentity (Some (Encode.identity i)) i0 = Some i.
Proof.
  intros Hfits Hba. unfold Json.Unmarshal. cbn [mbind option_bind].
  rewrite (into_struct_identity_over i i0 Hfits), Hba.
  destruct i as [di dn dt pv tp ba ic oc]. unfold Core.with_BluetoothAddress. simpl.
  by destruct (bool_decide (ba = "")).
Qed.

(** Text that is UTF-8 is written as it is. *)
Lemma as_written_text (i : IdentityBody) : identity_text i = true → as_written i = i.
Proof.
  destruct i as [di dn dt pv tp ba ic oc]. unfold identity_text, as_written.
  cbn [Protocol.DeviceId DeviceName DeviceType ProtocolVersion TcpPort
       BluetoothAddress IncomingCapabilities OutgoingCapabilities].
  intros H.
  apply andb_true_iff in H as [H Hoc]. apply andb_true_iff in H as [H Hic].
  apply andb_true_iff in H as [H Hba]. apply andb_true_iff in H as [H Hdt].
  apply andb_true_iff in H as [Hdi Hdn].
  by rewrite !appendString_utf8, !map_appendString_utf8.
Qed.

(** What [json.Marshal] prints for an identity is the object that holds
    the identity as written. *)
Lemma Marshal_identity (i : IdentityBody) :
  Marshal.identity i = Encode.identity (as_written i).
Proof.
  destruct i as [di dn dt pv tp ba ic oc].
  unfold Marshal.identity, Encode.identity, as_written, Marshal.strings,
    Encode.strings, Marshal.text.
  cbn [Protocol.DeviceId DeviceName DeviceType ProtocolVersion TcpPort
       BluetoothAddress IncomingCapabilities OutgoingCapabilities].
  by rewrite appendString_empty, !map_map.
Qed.

Lemma Marshal_identityPacket (millis : Z) (i : IdentityBody) :
  Marshal.packet (Marshal.identityPacket millis i)
  = Encode.packet (Encode.identityPacket millis (as_written i)).
Proof.
  unfold Marshal.packet, Marshal.identityPacket, Encode.packet, Encode.identityPacket,
    Marshal.text.
  cbn [Id Type_ Body]. rewrite Marshal_identity.
  by rewrite (appendString_utf8 "kdeconnect.identity") by reflexivity.
Qed.

(** A packet whose type is UTF-8, as every type the program sends is, is
    printed as the object that holds it. *)
Lemma Marshal_packet_text (p : Packet) :
  utf8 (Type_ p) = true → Marshal.packet p = Encode.packet p.
Proof.
  intros Htype. unfold Marshal.packet, Encode.packet, Marshal.text.
  by rewrite (appendString_utf8 _ Htype).
Qed.

(** X1. Identity round trip: what [json.Marshal] prints for an identity
    decodes to the identity as written, that is with U+FFFD in place of
    every byte of a string that starts no UTF-8 character; when its
    strings are UTF-8 that is the same identity, every field and every
    capability list. *)
Theorem identity_round_trip (i : IdentityBody) :
  identity_fits i →
  decodeIdentity (Some (Marshal.identity i)) = Some (as_written i)
  ∧ (identity_text i = true → as_written i = i).
Proof.
  intros Hfits. split; [| apply as_written_text].
  rewrite Marshal_identity. apply into_struct_identity.
  by destruct i.
Qed.

Lemma identity_round_trip_witness :
  decodeIdentity (Some (Marshal.identity desktop)) = Some desktop.
Proof.
  destruct (identity_round_trip desktop) as [Hdec Hsame]; [split; reflexivity |].
  rewrite Hdec, (Hsame eq_refl). reflexivity.
Defined.

Lemma decodePacket_packet (p : Packet) :
  Go.is_int64 (Id p) = true →
  decodePacket (Encode.packet p)
  = Some {| Id := Id p; Type_ := Type_ p; Body := Some (default Null (Body p)) |}.
Proof.
  intros Hid. destruct p as [id ty body]. simpl in Hid.
  unfold decodePacket, Encode.packet.
  lazy -[Go.is_int64 default]. rewrite Hid. reflexivity.
Qed.

Lemma decodePacket_sendable (p : Packet) :
  sendable p → decodePacket (Encode.packet p) = Some p.
Proof.
  intros [Hid [body Hbody]]. rewrite decodePacket_packet by done.
  destruct p as [id ty b]. simpl in *. by subst.
Qed.

(** X2. Framing: when the peer writes the packets [ps] one after the
    other and closes, the reader loop hands exactly [ps], in order, to
    the packet callback and then reports the disconnect. *)
Theorem StartLoop_delivers (c : Connection) (h : PacketHandler) (ps : list Packet) :
  OnPacket c = Some h →
  Forall sendable ps →
  StartLoop c (map (λ p, Some (Encode.packet p)) ps)
  = map (CallOnPacket h) ps ++ disconnect c.
Proof.
  intros Hh Hps. induction Hps as [| p ps Hp _ IH]; cbn [map StartLoop app]; [done |].
  by rewrite (decodePacket_sendable p Hp), Hh, IH.
Qed.

Lemma StartLoop_delivers_witness :
  let c := {| Conn := Conn phone_connects; Network.DeviceId := "B";
              RemoteIdentity := phone; OnPacket := Some (HandlePacketOf 0%nat);
              OnDisconnect := Some (DeleteIfSame "B" 0%nat) |} in
  let ping := {| Id := 1700000000000; Type_ := "kdeconnect.ping";
                 Body := Some (Object []) |} in
  let hello := Encode.identityPacket 1700000000001 phone in
  StartLoop c [Some (Encode.packet ping); Some (Encode.packet hello)]
  = [CallOnPacket (HandlePacketOf 0%nat) ping;
     CallOnPacket (HandlePacketOf 0%nat) hello;
     CallOnDisconnect (DeleteIfSame "B" 0%nat)].
Proof.
  intros c ping hello.
  apply (StartLoop_delivers c (HandlePacketOf 0%nat) [ping; hello]).
  - reflexivity.
  - repeat constructor; by eexists.
Defined.

(** X3. The reader loop stops at the first item it cannot decode, be it
    a failed read, bytes that are not JSON or a JSON value that does not
    decode into a packet: the run is the same as if the stream ended
    there, whatever follows is never delivered. Every run is a sequence
    of packet callbacks followed by the disconnect callback, called once
    if it is set. *)
Theorem StartLoop_stops (c : Connection) (stream rest : list (option Json.value))
    (item : option Json.value) :
  item ≫= decodePacket = None →
  StartLoop c (stream ++ item :: rest) = StartLoop c stream
  ∧ ∃ calls, StartLoop c stream = calls ++ disconnect c ∧ Forall packet_call calls.
Proof.
  intros Hitem. split.
  - induction stream as [| [v |] stream IH]; cbn [app StartLoop]; try done.
    + destruct item as [v |]; [| done]. simpl in Hitem. by rewrite Hitem.
    + destruct (decodePacket v); [| done]. destruct (OnPacket c); by rewrite IH.
  - clear Hitem. induction stream as [| [v |] stream IH]; simpl; try by exists [].
    destruct (decodePacket v) as [p |]; [| by exists []].
    destruct IH as (calls & -> & Hcalls). destruct (OnPacket c) as [h |].
    + exists (CallOnPacket h p :: calls). split; [done |]. by constructor.
    + by exists calls.
Qed.

Lemma StartLoop_stops_witness :
  let c := {| Conn := Conn phone_connects; Network.DeviceId := "B";
              RemoteIdentity := phone; OnPacket := Some (HandlePacketOf 0%nat);
              OnDisconnect := Some (DeleteIfSame "B" 0%nat) |} in
  let ping := Object [("id", Number (Int 1)); ("type", Str "kdeconnect.ping");
                      ("body", Object [])] in
  let text_id := Object [("id", Str "1"); ("type", Str "kdeconnect.ping");
                         ("body", Object [])] in
  StartLoop c ([Some ping] ++ Some text_id :: [Some ping]) = StartLoop c [Some ping]
  ∧ ∃ calls, StartLoop c [Some ping] = calls ++ disconnect c
             ∧ Forall packet_call calls.
Proof.
  intros c ping text_id.
  apply (StartLoop_stops c [Some ping] [Some ping] (Some text_id)).
  reflexivity.
Defined.



End RoundTrip.

(** ** Packet dispatch *)
Module Dispatch.
Import Json Protocol Network Core CoreMore Run.
Import Scenario Spec SpecMore.

(** X5. The reply to our own pair request completes the pairing without
    asking: with the device pending and discovered, a [pair: true] packet
    clears the pending flag, records the device as paired at its
    discovered address, writes the configuration and emits
    [pairing_changed]; no [pair_request] is emitted. *)
Theorem pair_reply_completes (e : Engine) (conn : loc) (c : Connection) (p : Packet)
    (b : PairBody) (dev : DiscoveredDevice.t) (a : UDPAddr) (env : Env) :
  heap e !! conn = Some c →
  Type_ p = "kdeconnect.pair" →
  decodePair (Body p) = Some b → Pair b = true →
  pendingPairing e !! Network.DeviceId c = Some true →
  discoveredDevices e !! Network.DeviceId c = Some dev →
  DiscoveredDevice.Addr dev = Some a →
  let deviceId := Network.DeviceId c in
  let paired :=
    <[deviceId := {| PairedDeviceInfo.Identity := DiscoveredDevice.Identity dev;
                     PairedDeviceInfo.LastIP := IP a;
                     PairedDeviceInfo.LastPort := Port a |}]> (pairedDevices e) in
  ∃ e', handlePacket conn p env e = Some (tt, e')
        ∧ pendingPairing e' = delete deviceId (pendingPairing e)
        ∧ pairedDevices e' = paired
        ∧ IsPaired e' deviceId = true
        ∧ log e' = log e ++ [ConfigWritten {| Config.Identity := Identity e;
                                              Config.PairedDevices := paired |};
                             Emitted "pairing_changed" (OfDeviceId deviceId)].
Proof.
  intros Hc Htype Hb Hpair Hpending Hdev Ha deviceId paired.
  unfold handlePacket, MarkAsPaired. run. rewrite Hc, Htype. simpl.
  rewrite Hb, Hpair, Hpending. simpl. rewrite Hdev, Ha. simpl.
  eexists. split; [reflexivity |]. simpl. repeat split.
  - unfold IsPaired. simpl. by rewrite lookup_insert_eq.
  - by rewrite <- app_assoc.
Qed.

Lemma pair_reply_completes_witness :
  ∃ e', handlePacket 0%nat Situations.pair_true offline Situations.awaiting_reply
        = Some (tt, e')
        ∧ pendingPairing e' = delete "B" (pendingPairing Situations.awaiting_reply)
        ∧ IsPaired e' "B" = true.
Proof.
  destruct (pair_reply_completes Situations.awaiting_reply 0%nat Situations.link
              Situations.pair_true {| Pair := true; Timestamp := 1700000000 |}
              {| DiscoveredDevice.Identity := phone;
                 DiscoveredDevice.Addr := Some {| IP := "10.0.0.2"; Port := 1716 |} |}
              {| IP := "10.0.0.2"; Port := 1716 |} offline
              eq_refl eq_refl eq_refl eq_refl eq_refl eq_refl eq_refl)
    as (e' & Hrun & Hpending & _ & Hpaired & _).
  by exists e'.
Defined.

(** X6. A pair request we did not ask for is surfaced, not granted: with
    nothing pending for the device, a [pair: true] packet from a
    discovered device emits one [pair_request] carrying the remote
    address, the peer's identity and the verification key derived from
    our certificate, the peer's leaf certificate and the timestamp of the
    packet; no map of the engine changes. *)
Theorem pair_request_surfaces (e : Engine) (conn : loc) (c : Connection) (p : Packet)
    (b : PairBody) (peerCert : Certificate) (rest : list Certificate) (env : Env) :
  heap e !! conn = Some c →
  Type_ p = "kdeconnect.pair" →
  decodePair (Body p) = Some b → Pair b = true →
  default false (pendingPairing e !! Network.DeviceId c) = false →
  IsDiscovered e (Network.DeviceId c) = true →
  PeerCertificates (Conn c) = Some (peerCert :: rest) →
  handlePacket conn p env e
  = Some (tt, with_log (λ l, l ++ [Emitted "pair_request" (OfPairRequest
            {| PairRequest.RemoteIP := RemoteIP (Conn c);
               PairRequest.Identity := RemoteIdentity c;
               PairRequest.VerificationKey :=
                 (GetVerificationKey (Cert e) peerCert (Timestamp b)).1 |})]) e).
Proof.
  intros Hc Htype Hb Hpair Hpending Hdisc Hcerts.
  unfold handlePacket. run. rewrite Hc, Htype. simpl.
  by rewrite Hb, Hpair, Hpending, Hdisc, Hcerts.
Qed.

Lemma pair_request_surfaces_witness :
  handlePacket 0%nat Situations.pair_true offline Situations.linked
  = Some (tt, with_log (λ l, l ++ [Emitted "pair_request" (OfPairRequest
            {| PairRequest.RemoteIP := "10.0.0.2";
               PairRequest.Identity := phone;
               PairRequest.VerificationKey := "75E3FD70" |})]) Situations.linked).
Proof.
  exact (pair_request_surfaces Situations.linked 0%nat Situations.link
           Situations.pair_true {| Pair := true; Timestamp := 1700000000 |}
           phone_cert [] offline eq_refl eq_refl eq_refl eq_refl eq_refl eq_refl eq_refl).
Defined.

(** X7. What the dispatch drops: a packet of a type other than pair,
    ping and sftp, a pair or sftp packet whose body does not decode, and
    an sftp packet without a port leave the engine exactly as it was: no
    event (not even a generic one), no reply, no write. *)
Theorem handlePacket_drops (e : Engine) (conn : loc) (c : Connection) (p : Packet)
    (env : Env) :
  heap e !! conn = Some c → dropped p → handlePacket conn p env e = Some (tt, e).
Proof.
  intros Hc Hdrop. unfold handlePacket. run. rewrite Hc.
  destruct Hdrop as [(Hpair & Hping & Hsftp) | [[Htype Hbody] | [Htype Hbody]]].
  - by rewrite !bool_decide_eq_false_2.
  - rewrite Htype. simpl. by rewrite Hbody.
  - rewrite Htype. simpl. destruct Hbody as [-> | (b & -> & Hport)]; [done |].
    rewrite bool_decide_eq_false_2; [done | by intros []].
Qed.

Lemma handlePacket_drops_witness :
  handlePacket 0%nat (Situations.packet_of "kdeconnect.battery" (Object []))
    offline Situations.linked
  = Some (tt, Situations.linked).
Proof.
  apply (handlePacket_drops Situations.linked 0%nat Situations.link); [reflexivity |].
  left. repeat split; discriminate.
Defined.

(** X8. A ping is answered with a ping with an empty body on the
    connection it came in on, whether or not the write succeeds; nothing
    else changes. *)
Theorem ping_answered (e : Engine) (conn : loc) (c : Connection) (p : Packet)
    (env : Env) :
  heap e !! conn = Some c → Type_ p = "kdeconnect.ping" →
  handlePacket conn p env e
  = Some (tt, with_log (λ l, l ++ [PacketSent conn "kdeconnect.ping" EmptyOut]) e).
Proof.
  intros Hc Htype. unfold handlePacket, Connection_SendPacket. run.
  by rewrite Hc, Htype.
Qed.

Lemma ping_answered_witness :
  handlePacket 0%nat (Situations.packet_of "kdeconnect.ping" (Object []))
    offline Situations.linked
  = Some (tt, with_log (λ l, l ++ [PacketSent 0%nat "kdeconnect.ping" EmptyOut])
                Situations.linked).
Proof.
  exact (ping_answered Situations.linked 0%nat Situations.link
           (Situations.packet_of "kdeconnect.ping" (Object [])) offline eq_refl eq_refl).
Defined.

(** X9. An sftp offer with a port is kept for its device and announced:
    afterwards [GetSftpOffer] returns it for that device, the offers of
    the other devices are untouched, and [sftp_offer] has been emitted
    with the device id. *)
Theorem sftp_offer_recorded (e : Engine) (conn : loc) (c : Connection) (p : Packet)
    (b : SftpBody) (env : Env) :
  heap e !! conn = Some c → Type_ p = "kdeconnect.sftp" →
  decodeSftp (Body p) = Some b → Protocol.Port b ≠ 0 →
  ∃ e', handlePacket conn p env e = Some (tt, e')
        ∧ GetSftpOffer e' (Network.DeviceId c) = (b, true)
        ∧ (∀ other, other ≠ Network.DeviceId c →
             GetSftpOffer e' other = GetSftpOffer e other)
        ∧ log e' = log e ++ [Emitted "sftp_offer" (OfDeviceId (Network.DeviceId c))].
Proof.
  intros Hc Htype Hb Hport. unfold handlePacket. run. rewrite Hc, Htype. simpl.
  rewrite Hb. rewrite (bool_decide_eq_true_2 _ Hport).
  eexists. split; [reflexivity |]. unfold GetSftpOffer. simpl. repeat split.
  - by rewrite lookup_insert_eq.
  - intros other Hother. by rewrite lookup_insert_ne.
Qed.

Lemma sftp_offer_recorded_witness :
  ∃ e', handlePacket 0%nat
          (Situations.packet_of "kdeconnect.sftp"
             (Object [("ip", Str "10.0.0.2"); ("port", Number (Int 1739));
                      ("user", Str "kdeconnect"); ("password", Str "secret");
                      ("path", Str "/storage")]))
          offline Situations.linked = Some (tt, e')
        ∧ GetSftpOffer e' "B" = (Situations.sftp_offer, true).
Proof.
  destruct (sftp_offer_recorded Situations.linked 0%nat Situations.link
              (Situations.packet_of "kdeconnect.sftp"
                 (Object [("ip", Str "10.0.0.2"); ("port", Number (Int 1739));
                          ("user", Str "kdeconnect"); ("password", Str "secret");
                          ("path", Str "/storage")]))
              Situations.sftp_offer offline eq_refl eq_refl eq_refl)
    as (e' & Hrun & Hoffer & _); [discriminate |].
  by exists e'.
Defined.

End Dispatch.

(** ** Pairing operations and connections on demand *)
Module Operations.
Import Json Protocol Network Core CoreMore Run.
Import Scenario Spec SpecMore.

(** X10. Unpairing a paired device we are connected to removes it from
    the paired map, writes the configuration without it, emits
    [pairing_changed] and sends [pair: false] with the current time on
    the registered connection; the call returns nil even if that write
    fails. *)
Theorem Unpair_connected (e : Engine) (deviceId : string) (info : PairedDeviceInfo.t)
    (conn : loc) (env : Env) :
  pairedDevices e !! deviceId = Some info →
  activeConns e !! deviceId = Some conn →
  ∃ e', Unpair deviceId env e = Some (None, e')
        ∧ pairedDevices e' = delete deviceId (pairedDevices e)
        ∧ IsPaired e' deviceId = false
        ∧ log e' = log e ++
            [ConfigWritten {| Config.Identity := Identity e;
                              Config.PairedDevices := delete deviceId (pairedDevices e) |};
             Emitted "pairing_changed" (OfDeviceId deviceId);
             PacketSent conn "kdeconnect.pair"
               (PairOut {| Pair := false; Timestamp := now env |})].
Proof.
  intros Hinfo Hconn.
  unfold Unpair, SendPacket, getOrConnect, Connection_SendPacket. run.
  rewrite Hinfo. simpl. rewrite Hconn. simpl.
  eexists. split; [reflexivity |]. simpl. repeat split.
  - unfold IsPaired. simpl. by rewrite lookup_delete_eq.
  - by rewrite <- !app_assoc.
Qed.

Lemma Unpair_connected_witness :
  ∃ e', Unpair "B" offline Situations.linked_paired = Some (None, e')
        ∧ IsPaired e' "B" = false.
Proof.
  destruct (Unpair_connected Situations.linked_paired "B"
              {| PairedDeviceInfo.Identity := phone;
                 PairedDeviceInfo.LastIP := "10.0.0.2";
                 PairedDeviceInfo.LastPort := 1716 |} 0%nat offline eq_refl eq_refl)
    as (e' & Hrun & _ & Hpaired & _).
  by exists e'.
Defined.

(** X11. A device known only from the paired map is unpaired silently:
    its record, the only place that holds its address, is deleted before
    the engine looks for a way to reach it, so nothing is dialled and no
    [pair: false] packet is sent; the call still returns nil. *)
Theorem Unpair_out_of_sight (e : Engine) (deviceId : string)
    (info : PairedDeviceInfo.t) (env : Env) :
  pairedDevices e !! deviceId = Some info →
  discoveredDevices e !! deviceId = None →
  activeConns e !! deviceId = None →
  ∃ e', Unpair deviceId env e = Some (None, e')
        ∧ pairedDevices e' = delete deviceId (pairedDevices e)
        ∧ heap e' = heap e ∧ activeConns e' = activeConns e
        ∧ log e' = log e ++
            [ConfigWritten {| Config.Identity := Identity e;
                              Config.PairedDevices := delete deviceId (pairedDevices e) |};
             Emitted "pairing_changed" (OfDeviceId deviceId)].
Proof.
  intros Hinfo Hdisc Hconn.
  unfold Unpair, SendPacket, getOrConnect. run.
  rewrite Hinfo. simpl. rewrite Hconn, Hdisc, lookup_delete_eq. simpl.
  eexists. split; [reflexivity |]. simpl. repeat split.
  by rewrite <- !app_assoc.
Qed.

Lemma Unpair_out_of_sight_witness :
  ∃ e', Unpair "B" (phone_answers phone_cert) paired_with_phone = Some (None, e')
        ∧ heap e' = heap paired_with_phone
        ∧ log e' = [ConfigWritten {| Config.Identity := desktop;
                                     Config.PairedDevices := delete "B" (pairedDevices paired_with_phone) |};
                    Emitted "pairing_changed" (OfDeviceId "B")].
Proof.
  destruct (Unpair_out_of_sight paired_with_phone "B"
              {| PairedDeviceInfo.Identity := phone;
                 PairedDeviceInfo.LastIP := "10.0.0.2";
                 PairedDeviceInfo.LastPort := 1716 |}
              (phone_answers phone_cert) eq_refl eq_refl eq_refl)
    as (e' & Hrun & _ & Hheap & _ & Hlog).
  by exists e'.
Defined.

(** X12. Asking to pair with a device the engine cannot reach fails with
    "device ... not found", but the device stays marked as pending: the
    flag is set before the connection is attempted and never cleared on
    failure. *)
Theorem Pair_unknown_device (e : Engine) (deviceId : string) (env : Env) :
  activeConns e !! deviceId = None →
  discoveredDevices e !! deviceId = None →
  pairedDevices e !! deviceId = None →
  Pair_ deviceId env e
  = Some (Some ("device " +:+ deviceId +:+ " not found"),
          with_pendingPairing (insert deviceId true) e).
Proof.
  intros Hconn Hdisc Hpaired. unfold Pair_, SendPacket, getOrConnect. run. simpl.
  by rewrite Hconn, Hdisc, Hpaired.
Qed.

Lemma Pair_unknown_device_witness :
  Pair_ "C" offline phone_seen
  = Some (Some "device C not found", with_pendingPairing (insert "C" true) phone_seen).
Proof.
  exact (Pair_unknown_device phone_seen "C" offline eq_refl eq_refl eq_refl).
Defined.

(** X13. [MarkAsPaired] pairs only what has been discovered: afterwards
    a device is paired exactly if it was paired before or it is the
    marked device and was discovered. The configuration is written and
    [pairing_changed] emitted in every case, also when nothing was
    added. *)
Theorem MarkAsPaired_needs_discovery (e : Engine) (deviceId : string) :
  (∀ dev, discoveredDevices e !! deviceId = Some dev →
          is_Some (DiscoveredDevice.Addr dev)) →
  ∃ e', MarkAsPaired deviceId e = Some (tt, e')
        ∧ (∀ other, IsPaired e' other
                    = IsPaired e other
                      || (bool_decide (other = deviceId) && IsDiscovered e deviceId))
        ∧ log e' = log e ++
            [ConfigWritten {| Config.Identity := Identity e;
                              Config.PairedDevices := pairedDevices e' |};
             Emitted "pairing_changed" (OfDeviceId deviceId)].
Proof.
  intros Haddr. unfold MarkAsPaired, IsDiscovered. run.
  destruct (discoveredDevices e !! deviceId) as [dev |] eqn:Edev.
  - destruct (Haddr dev eq_refl) as [a Ha]. rewrite Ha. simpl.
    eexists. split; [reflexivity |]. simpl. split; [| by rewrite <- app_assoc].
    intros other. unfold IsPaired. simpl. rewrite andb_true_r.
    destruct (decide (other = deviceId)) as [-> | Hne].
    + rewrite lookup_insert_eq, bool_decide_eq_true_2 by done. by rewrite orb_true_r.
    + rewrite lookup_insert_ne, bool_decide_eq_false_2 by done. by rewrite orb_false_r.
  - simpl. eexists. split; [reflexivity |]. simpl. split; [| by rewrite <- app_assoc].
    intros other. by rewrite andb_false_r, orb_false_r.
Qed.

Lemma MarkAsPaired_needs_discovery_witness :
  ∃ e', MarkAsPaired "C" phone_seen = Some (tt, e')
        ∧ IsPaired e' "C" = false
        ∧ log e' = [ConfigWritten {| Config.Identity := desktop;
                                     Config.PairedDevices := pairedDevices e' |};
                    Emitted "pairing_changed" (OfDeviceId "C")].
Proof.
  destruct (MarkAsPaired_needs_discovery phone_seen "C") as (e' & Hrun & Hpaired & Hlog).
  - intros dev Hdev. vm_compute in Hdev. discriminate.
  - exists e'. split; [exact Hrun |]. split; [| exact Hlog].
    rewrite Hpaired. reflexivity.
Defined.

(** X14. A failed attempt to reach a device changes nothing: whenever
    [getOrConnect] returns an error (unknown device, no usable address,
    or any failure of the handshake), the engine is exactly as it was
    before the call. *)
Theorem getOrConnect_failure_is_clean (e e' : Engine) (deviceId : string) (env : Env)
    (err : string) :
  getOrConnect deviceId env e = Some (inr err, e') → e' = e.
Proof.
  unfold getOrConnect, new_conn, set_OnPacket, set_OnDisconnect. run.
  destruct (activeConns e !! deviceId); [done |].
  destruct (discoveredDevices e !! deviceId) as [dev |].
  - destruct (DiscoveredDevice.Addr dev) as [a |]; simpl; [| done].
    destruct (_ || _); [by intros [= _ <-] |].
    destruct (Connect _ _ _ _ _); simpl; [| by intros [= _ <-]].
    rewrite lookup_insert_eq. simpl. rewrite lookup_insert_eq. simpl. done.
  - destruct (pairedDevices e !! deviceId) as [info |]; simpl; [| by intros [= _ <-]].
    destruct (_ || _); [by intros [= _ <-] |].
    destruct (Connect _ _ _ _ _); simpl; [| by intros [= _ <-]].
    rewrite lookup_insert_eq. simpl. rewrite lookup_insert_eq. simpl. done.
Qed.

Lemma getOrConnect_failure_is_clean_witness :
  getOrConnect "B" offline phone_seen = Some (inr "dial tcp: i/o timeout", phone_seen)
  ∧ phone_seen = phone_seen.
Proof.
  split; [reflexivity |].
  apply (getOrConnect_failure_is_clean phone_seen phone_seen "B" offline
           "dial tcp: i/o timeout").
  reflexivity.
Defined.

Lemma getOrConnect_registers (e e1 : Engine) (deviceId : string) (env : Env)
    (conn : loc) :
  getOrConnect deviceId env e = Some (inl conn, e1) →
  activeConns e1 !! deviceId = Some conn.
Proof.
  unfold getOrConnect, new_conn, set_OnPacket, set_OnDisconnect. run.
  destruct (activeConns e !! deviceId) as [c0 |] eqn:Eactive;
    [by intros [= <- <-] |].
  assert (Hgo : ∀ ip port,
    (if bool_decide (ip = "") || bool_decide (port = 0)
     then ret (inr ("missing address for device " +:+ deviceId))
     else
       match Connect ip port (Cert e) (Identity e) (peer env) with
       | inr err => ret (inr err)
       | inl c =>
           newConn ← new_conn c;
           modify (with_activeConns (insert deviceId newConn)) ;;
           set_OnPacket newConn (HandlePacketOf newConn) ;;
           set_OnDisconnect newConn (DeleteAlways deviceId) ;;
           perform (LoopStarted newConn) ;;
           ret (inl newConn)
       end) e = Some (inl conn, e1) → activeConns e1 !! deviceId = Some conn).
  { intros ip port. destruct (_ || _); [done |].
    destruct (Connect _ _ _ _ _); [| done].
    unfold new_conn, set_OnPacket, set_OnDisconnect. run. simpl.
    rewrite lookup_insert_eq. simpl. rewrite lookup_insert_eq. simpl.
    intros [= <- <-]. simpl. by rewrite lookup_insert_eq. }
  destruct (discoveredDevices e !! deviceId) as [dev |].
  - destruct (DiscoveredDevice.Addr dev) as [a |]; simpl; [| done].
    intros Hrun. apply (Hgo (IP a) (TcpPort (DiscoveredDevice.Identity dev))).
    by run.
  - destruct (pairedDevices e !! deviceId) as [info |]; simpl; [| done].
    intros Hrun.
    apply (Hgo (PairedDeviceInfo.LastIP info) (PairedDeviceInfo.LastPort info)).
    by run.
Qed.

(** X15. A connection is opened once and then reused: after
    [getOrConnect] has returned a connection for a device, every further
    call for that device returns the same connection without dialling
    and without changing the engine. *)
Theorem getOrConnect_reuses (e e1 : Engine) (deviceId : string) (env env' : Env)
    (conn : loc) :
  getOrConnect deviceId env e = Some (inl conn, e1) →
  getOrConnect deviceId env' e1 = Some (inl conn, e1).
Proof.
  intros Hrun. apply getOrConnect_registers in Hrun.
  unfold getOrConnect. run. by rewrite Hrun.
Qed.

Lemma getOrConnect_reuses_witness :
  ∃ e1, getOrConnect "B" (phone_answers phone_cert) phone_seen = Some (inl 0%nat, e1)
        ∧ getOrConnect "B" offline e1 = Some (inl 0%nat, e1).
Proof.
  eexists. split; [vm_compute; reflexivity |].
  eapply (getOrConnect_reuses phone_seen _ "B" (phone_answers phone_cert) offline).
  vm_compute. reflexivity.
Defined.

Lemma first_from_spec (remoteIP : string) (visit : list (string * loc)) (e : Engine) :
  (∀ k l, (k, l) ∈ visit → is_Some (heap e !! l)) →
  (∃ k conn c, (k, conn) ∈ visit ∧ heap e !! conn = Some c
               ∧ RemoteIP (Conn c) = remoteIP
               ∧ first_from remoteIP visit e = Some (Some conn, e))
  ∨ ((∀ k conn c, (k, conn) ∈ visit → heap e !! conn = Some c →
                  RemoteIP (Conn c) ≠ remoteIP)
     ∧ first_from remoteIP visit e = Some (None, e)).
Proof.
  induction visit as [| [k l] visit IH]; intros Hlive.
  { right. split; [by intros ? ? ? ?%elem_of_nil | done]. }
  destruct (Hlive k l) as [c Hc]; [by left |].
  simpl. run. rewrite Hc.
  destruct (decide (RemoteIP (Conn c) = remoteIP)) as [Heq | Hne].
  - left. exists k, l, c. rewrite (bool_decide_eq_true_2 _ Heq).
    repeat split; try done. by left.
  - rewrite (bool_decide_eq_false_2 _ Hne).
    destruct IH as [(k' & conn & c' & Hin & Hc' & Hip & Hrun) | [Hnone Hrun]].
    + intros k' l' Hin. apply (Hlive k' l'). by right.
    + left. exists k', conn, c'. repeat split; try done. by right.
    + right. split; [| done]. intros k' conn c' Hin Hc'.
      apply elem_of_cons in Hin as [[= -> ->] | Hin]; [congruence |].
      by apply (Hnone k' conn c').
Qed.

(** X16. Accepting a pair request answers it and nothing more: whatever
    the order in which the active connections are visited, [AcceptPair]
    either sends one [pair: true] packet with the current time on an
    active connection whose remote address is the given one, or, when no
    active connection has that address, does nothing at all. It never
    adds the device to the paired map. *)
Theorem AcceptPair_answers (e : Engine) (visit : list (string * loc))
    (remoteIP : string) (env : Env) :
  visit ≡ₚ map_to_list (activeConns e) →
  (∀ k l, activeConns e !! k = Some l → is_Some (heap e !! l)) →
  (∃ k conn c,
      activeConns e !! k = Some conn ∧ heap e !! conn = Some c
      ∧ RemoteIP (Conn c) = remoteIP
      ∧ AcceptPair visit remoteIP env e
        = Some (tt, with_log (λ l, l ++ [PacketSent conn "kdeconnect.pair"
                  (PairOut {| Pair := true; Timestamp := now env |})]) e))
  ∨ ((∀ k conn c, activeConns e !! k = Some conn → heap e !! conn = Some c →
                  RemoteIP (Conn c) ≠ remoteIP)
     ∧ AcceptPair visit remoteIP env e = Some (tt, e)).
Proof.
  intros Hvisit Hlive.
  assert (Hin : ∀ k l, (k, l) ∈ visit ↔ activeConns e !! k = Some l).
  { intros k l. by rewrite Hvisit, elem_of_map_to_list. }
  destruct (first_from_spec remoteIP visit e)
    as [(k & conn & c & Hk & Hc & Hip & Hrun) | [Hnone Hrun]].
  - intros k l Hk. apply (Hlive k l). by apply Hin.
  - left. exists k, conn, c. repeat split; try done; [by apply Hin |].
    unfold AcceptPair, Connection_SendPacket. run. by rewrite Hrun.
  - right. split.
    + intros k conn c Hk. apply (Hnone k conn c). by apply Hin.
    + unfold AcceptPair. run. by rewrite Hrun.
Qed.

Lemma AcceptPair_answers_witness :
  AcceptPair [("B", 0%nat)] "10.0.0.2" offline Situations.linked
  = Some (tt, with_log (λ l, l ++ [PacketSent 0%nat "kdeconnect.pair"
            (PairOut {| Pair := true; Timestamp := 1700000000 |})]) Situations.linked)
  ∧ AcceptPair [("B", 0%nat)] "10.0.0.9" offline Situations.linked
    = Some (tt, Situations.linked).
Proof.
  assert (Hvisit : [("B", 0%nat)] ≡ₚ map_to_list (activeConns Situations.linked)).
  { change (activeConns Situations.linked) with (<["B" := 0%nat]> (∅ : gmap string loc)).
    rewrite map_to_list_insert by done. by rewrite map_to_list_empty. }
  assert (Hlive : ∀ k l, activeConns Situations.linked !! k = Some l →
                         is_Some (heap Situations.linked !! l)).
  { intros k l Hk. change (activeConns Situations.linked)
      with (<["B" := 0%nat]> (∅ : gmap string loc)) in Hk.
    apply lookup_insert_Some in Hk as [[_ <-] | [_ Hk]]; [by eexists |].
    by rewrite lookup_empty in Hk. }
  split.
  - destruct (AcceptPair_answers Situations.linked [("B", 0%nat)] "10.0.0.2" offline
                Hvisit Hlive) as [(k & conn & c & _ & _ & _ & _) | [_ Hrun]].
    + vm_compute. reflexivity.
    + vm_compute in Hrun. discriminate.
  - destruct (AcceptPair_answers Situations.linked [("B", 0%nat)] "10.0.0.9" offline
                Hvisit Hlive) as [(k & conn & c & _ & _ & _ & Hrun) | [_ Hrun]].
    + vm_compute in Hrun. discriminate.
    + exact Hrun.
Defined.

End Operations.

(** ** Start-up and the life of a connection *)
Module Lifecycle.
Import Json Protocol Network Core CoreMore Run.
Import Scenario Spec SpecMore EngineFacts.

(** X17. A restart keeps who we are: when the configuration and the
    certificate load, the engine takes its device id and its paired map
    from the configuration and the certificate from disk, goes by the
    device name it is given, and rewrites the configuration only if that
    name is new or a Bluetooth address was found for an identity that had
    none. *)
Theorem NewEngine_restart (deviceName : string) (os : Startup) (cfg : Config.t)
    (cert : Certificate) :
  LoadConfig os = Some cfg → LoadCertificate os = Some cert →
  let changed :=
    bool_decide (DeviceName (Config.Identity cfg) ≠ deviceName)
    || (bool_decide (BluetoothAddress (Config.Identity cfg) = "")
        && bool_decide (getBluetoothAddress os ≠ "")) in
  ∃ e, NewEngine deviceName os = inl e
       ∧ Protocol.DeviceId (Identity e) = Protocol.DeviceId (Config.Identity cfg)
       ∧ DeviceName (Identity e) = deviceName
       ∧ pairedDevices e = Config.PairedDevices cfg
       ∧ Cert e = cert
       ∧ log e = if changed
                 then [ConfigWritten {| Config.Identity := Identity e;
                                        Config.PairedDevices := Config.PairedDevices cfg |}]
                 else [].
Proof.
  intros Hcfg Hcert changed. unfold NewEngine. rewrite Hcfg, Hcert.
  subst changed. destruct cfg as [[di dn dt pv tp ba ic oc] paired]. simpl.
  destruct (bool_decide (dn ≠ deviceName)) eqn:Ename; simpl.
  - destruct (bool_decide (ba = "") && bool_decide (getBluetoothAddress os ≠ ""));
      simpl; eexists; (split; [reflexivity |]); by repeat split.
  - apply bool_decide_eq_false in Ename. apply dec_stable in Ename as ->.
    destruct (bool_decide (ba = "") && bool_decide (getBluetoothAddress os ≠ ""));
      simpl; eexists; (split; [reflexivity |]); by repeat split.
Qed.

Lemma NewEngine_restart_witness :
  ∃ e, NewEngine "laptop"
         {| LoadConfig := Some {| Config.Identity := desktop;
                                  Config.PairedDevices := pairedDevices paired_with_phone |};
            LoadCertificate := Some own_cert;
            UnixNano := 1800000000000000000;
            GenerateCertificate := λ _, None;
            listen_ok := λ _, false;
            getBluetoothAddress := "" |} = inl e
       ∧ Protocol.DeviceId (Identity e) = Protocol.DeviceId desktop
       ∧ pairedDevices e = pairedDevices paired_with_phone
       ∧ log e = [].
Proof.
  destruct (NewEngine_restart "laptop"
              {| LoadConfig := Some {| Config.Identity := desktop;
                                       Config.PairedDevices := pairedDevices paired_with_phone |};
                 LoadCertificate := Some own_cert;
                 UnixNano := 1800000000000000000;
                 GenerateCertificate := λ _, None;
                 listen_ok := λ _, false;
                 getBluetoothAddress := "" |}
              {| Config.Identity := desktop;
                 Config.PairedDevices := pairedDevices paired_with_phone |}
              own_cert eq_refl eq_refl)
    as (e & Hrun & Hid & _ & Hpaired & _ & Hlog).
  by exists e.
Defined.

Lemma first_free_seqZ (listen : Z → bool) (n : nat) (m port : Z) :
  let r := first_free listen (seqZ m (Z.of_nat n)) port in
  (r = port ∧ ∀ q, m ≤ q < m + Z.of_nat n → listen q = false)
  ∨ (m ≤ r < m + Z.of_nat n ∧ listen r = true ∧ ∀ q, m ≤ q < r → listen q = false).
Proof.
  revert m. induction n as [| n IH]; intros m; simpl.
  { left. split; [done |]. intros q Hq. lia. }
  rewrite Nat2Z.inj_succ, seqZ_cons by lia. simpl.
  destruct (listen m) eqn:Em.
  - right. split; [lia |]. split; [done |]. intros q Hq. lia.
  - replace (Z.pred (Z.succ (Z.of_nat n))) with (Z.of_nat n) by lia.
    destruct (IH (Z.succ m)) as [[Hr Hnone] | (Hr & Hfree & Hbelow)].
    + left. split; [done |]. intros q Hq.
      destruct (decide (q = m)) as [-> | Hne]; [done |]. apply Hnone. lia.
    + right. split; [lia |]. split; [done |]. intros q Hq.
      destruct (decide (q = m)) as [-> | Hne]; [done |]. apply Hbelow. lia.
Qed.

(** X18. The port a new identity advertises is the lowest port from 1716
    to 1764 that could be bound at start-up, and 1716 when none of them
    could; it always lies in that range. *)
Theorem NewEngine_port (deviceName : string) (os : Startup) (cert : Certificate) :
  LoadConfig os = None ∨ LoadCertificate os = None →
  GenerateCertificate os (newDeviceId (UnixNano os)) = Some cert →
  ∃ e, NewEngine deviceName os = inl e
       ∧ 1716 ≤ TcpPort (Identity e) ≤ 1764
       ∧ (∀ q, 1716 ≤ q < TcpPort (Identity e) → listen_ok os q = false)
       ∧ (listen_ok os (TcpPort (Identity e)) = true
          ∨ (TcpPort (Identity e) = 1716
             ∧ ∀ q, 1716 ≤ q ≤ 1764 → listen_ok os q = false)).
Proof.
  intros Hnone Hgen.
  assert (Hnew : ∃ e, NewEngine deviceName os = inl e
                 ∧ TcpPort (Identity e)
                   = first_free (listen_ok os) (seqZ 1716 (Z.of_nat 49)) 1716).
  { unfold NewEngine.
    destruct (LoadConfig os) as [cfg |]; [destruct (LoadCertificate os) as [c |] |].
    - by destruct Hnone.
    - rewrite Hgen. by eexists.
    - rewrite Hgen. by eexists. }
  destruct Hnew as (e & Hrun & Hport). exists e. split; [done |]. rewrite Hport.
  destruct (first_free_seqZ (listen_ok os) 49 1716 1716)
    as [[-> Hnone'] | (Hr & Hfree & Hbelow)].
  - split; [lia |]. split; [intros q Hq; lia |]. right. split; [done |].
    intros q Hq. apply Hnone'. lia.
  - split; [lia |]. split; [done |]. by left.
Qed.

Lemma NewEngine_port_witness :
  ∃ e, NewEngine "laptop" first_start = inl e
       ∧ 1716 ≤ TcpPort (Identity e) ≤ 1764.
Proof.
  destruct (NewEngine_port "laptop" first_start
              {| Raw := Go.bytes_of_string (newDeviceId 1700000000000000000);
                 RawSubjectPublicKeyInfo := [x30; x01] |})
    as (e & Hrun & Hrange & _).
  - left. reflexivity.
  - reflexivity.
  - by exists e.
Defined.

(** X19. Losing the certificate changes who we are but not whom we
    trust: when the configuration loads and the certificate does not, the
    engine starts under a freshly generated device id while keeping the
    paired map of the old configuration. *)
Theorem NewEngine_lost_certificate (deviceName : string) (os : Startup)
    (cfg : Config.t) (cert : Certificate) :
  LoadConfig os = Some cfg → LoadCertificate os = None →
  GenerateCertificate os (newDeviceId (UnixNano os)) = Some cert →
  ∃ e, NewEngine deviceName os = inl e
       ∧ Protocol.DeviceId (Identity e) = newDeviceId (UnixNano os)
       ∧ Cert e = cert
       ∧ pairedDevices e = Config.PairedDevices cfg.
Proof.
  intros Hcfg Hcert Hgen. unfold NewEngine. rewrite Hcfg, Hcert, Hgen.
  eexists. split; [reflexivity |]. by repeat split.
Qed.

Lemma NewEngine_lost_certificate_witness :
  ∃ e, NewEngine "laptop"
         {| LoadConfig := Some {| Config.Identity := desktop;
                                  Config.PairedDevices := pairedDevices paired_with_phone |};
            LoadCertificate := None;
            UnixNano := 1800000000000000000;
            GenerateCertificate := λ _, Some other_cert;
            listen_ok := λ _, true;
            getBluetoothAddress := "" |} = inl e
       ∧ Protocol.DeviceId (Identity e) = "fyne-0000000000000018fae27693b40000"
       ∧ pairedDevices e = pairedDevices paired_with_phone.
Proof.
  destruct (NewEngine_lost_certificate "laptop"
              {| LoadConfig := Some {| Config.Identity := desktop;
                                       Config.PairedDevices := pairedDevices paired_with_phone |};
                 LoadCertificate := None;
                 UnixNano := 1800000000000000000;
                 GenerateCertificate := λ _, Some other_cert;
                 listen_ok := λ _, true;
                 getBluetoothAddress := "" |}
              {| Config.Identity := desktop;
                 Config.PairedDevices := pairedDevices paired_with_phone |}
              other_cert eq_refl eq_refl eq_refl)
    as (e & Hrun & Hid & _ & Hpaired).
  exists e. split; [exact Hrun |]. split; [| exact Hpaired].
  rewrite Hid. vm_compute. reflexivity.
Defined.

(** X20. A paired device can bring the engine down by connecting: when
    the identity it announces carries a [tcpPort] that is not a port
    number, the address of the new connection does not resolve, and
    recording the sighting of a paired device dereferences that nil
    address. *)
Theorem accepted_panics (e : Engine) (c : Connection) (info : PairedDeviceInfo.t) :
  pairedDevices e !! Protocol.DeviceId (RemoteIdentity c) = Some info →
  ¬ (0 ≤ TcpPort (RemoteIdentity c) ≤ 65535) →
  accepted c e = None.
Proof.
  intros Hinfo Hport.
  unfold accepted, new_conn, handleNewConnection, addDiscoveredDevice. run. simpl.
  rewrite lookup_insert_eq. simpl. rewrite Hinfo. unfold ResolveUDPAddr.
  replace ((0 <=? TcpPort (RemoteIdentity c)) && (TcpPort (RemoteIdentity c) <=? 65535))
    with false; [done |].
  symmetry. apply andb_false_iff. rewrite Z.leb_gt, Z.leb_gt. lia.
Qed.

Lemma accepted_panics_witness :
  accepted
    (NewConnection {| RemoteIP := "10.0.0.2"; PeerCertificates := Some [phone_cert] |}
       "B" (Build_IdentityBody "B" "phone" "phone" 8 70000 "" [] []))
    paired_with_phone = None.
Proof.
  apply (accepted_panics paired_with_phone _
           {| PairedDeviceInfo.Identity := phone;
              PairedDeviceInfo.LastIP := "10.0.0.2";
              PairedDeviceInfo.LastPort := 1716 |}).
  - reflexivity.
  - simpl. lia.
Defined.

(** X21. An accepted connection cleans up after itself and only after
    itself: when it reports its disconnect while it is still the
    registered connection of its device, the entry is removed; when a
    later accepted connection of the same device has replaced it, the
    entry is left to the newer connection. *)
Theorem accepted_disconnect (e : Engine) (c1 c2 : Connection) :
  0 ≤ TcpPort (RemoteIdentity c1) ≤ 65535 →
  0 ≤ TcpPort (RemoteIdentity c2) ≤ 65535 →
  Network.DeviceId c1 = Network.DeviceId c2 →
  ∃ l1 l2 e1 e1' e2,
    accepted c1 e = Some (l1, e1)
    ∧ disconnects l1 e1 = Some (tt, e1')
    ∧ activeConns e1' !! Network.DeviceId c1 = None
    ∧ accepted c2 e1 = Some (l2, e2)
    ∧ disconnects l1 e2 = Some (tt, e2)
    ∧ activeConns e2 !! Network.DeviceId c1 = Some l2.
Proof.
  intros Hp1 Hp2 Hid.
  destruct (Reconciliation.accepted_disconnect_keeps_replacement e c1 c2 Hp1 Hp2 Hid)
    as (l1 & l2 & e1 & e2 & Hrun1 & Hrun2 & Hne & Hact2 & Hdisc2).
  destruct (accepted_Some c1 e Hp1) as (e1_ & Hrun1' & Hact1 & Hheap1 & _ & _).
  rewrite Hrun1 in Hrun1'. injection Hrun1' as -> ->.
  eexists _, l2, e1_, (with_activeConns (delete (Network.DeviceId c1)) e1_), e2.
  repeat split; try done.
  - unfold disconnects. run. rewrite Hheap1. cbn [OnDisconnect for_each].
    unfold call_OnDisconnect. run. rewrite Hact1, lookup_insert_eq.
    by rewrite bool_decide_eq_true_2.
  - simpl. apply lookup_delete_eq.
Qed.

Lemma accepted_disconnect_witness :
  ∃ l1 l2 e1 e1' e2,
    accepted phone_connects phone_seen = Some (l1, e1)
    ∧ disconnects l1 e1 = Some (tt, e1')
    ∧ activeConns e1' !! "B" = None
    ∧ accepted phone_connects e1 = Some (l2, e2)
    ∧ disconnects l1 e2 = Some (tt, e2)
    ∧ activeConns e2 !! "B" = Some l2.
Proof.
  apply (accepted_disconnect phone_seen phone_connects phone_connects);
    [simpl; lia | simpl; lia | reflexivity].
Defined.

End Lifecycle.

(** ** The two handshakes *)
Module Handshakes.
Import Json Protocol Network Core Server.
Import Scenario Spec SpecMore.

(** X22. The outbound handshake yields a connection exactly when the
    dial, both writes and the TLS exchange succeed, the peer presents at
    least one certificate (any one), and the line read inside TLS is a
    packet whose body decodes as an identity; the connection then carries
    that identity, its device id, the dialled address and the presented
    certificates. The type of the packet is not looked at. *)
Theorem Connect_succeeds_iff (ip : string) (port : Z) (cert : Certificate)
    (myIdentity : IdentityBody) (peer : Peer) (c : Connection) :
  Connect ip port cert myIdentity peer = inl c
  ↔ dial_err peer = None ∧ plain_write_err peer = None
    ∧ tls_completes peer = true ∧ presented peer ≠ []
    ∧ secure_write_err peer = None
    ∧ ∃ v p remote,
        secure_line peer = Some (Some v) ∧ decodePacket v = Some p
        ∧ decodeIdentity (Body p) = Some remote
        ∧ c = NewConnection {| RemoteIP := ip;
                               PeerCertificates := Some (presented peer) |}
                (Protocol.DeviceId remote) remote.
Proof.
  unfold Connect, sendIdentity, Handshake. split.
  - destruct (dial_err peer); [done |]. destruct (plain_write_err peer); [done |].
    destruct (tls_completes peer); [| done]. simpl.
    destruct (presented peer) as [| pc pcs]; [done |]. simpl.
    destruct (secure_write_err peer); [done |].
    destruct (secure_line peer) as [[v |] |]; simpl; try done.
    destruct (decodePacket v) as [p |] eqn:Ep; [| done].
    destruct (decodeIdentity (Body p)) as [remote |] eqn:Er; [| done].
    intros [= <-]. repeat split; try done. by exists v, p, remote.
  - intros (-> & -> & -> & Hcerts & -> & v & p & remote & -> & Hp & Hr & ->). simpl.
    destruct (presented peer) as [| pc pcs]; [done |]. simpl. by rewrite Hp, Hr.
Qed.

(** X23. Two instances of the program understand each other, inbound:
    when the caller sends the identity packet this program writes for an
    identity whose strings are UTF-8, in the clear and (announcing
    protocol version 8 or more) again inside TLS, and presents a
    certificate, [handleConnection] builds a connection that carries
    exactly the caller's identity, device id, address and
    certificates. *)
Theorem handleConnection_same_code (cert : Certificate) (identity i : IdentityBody)
    (caller : Caller) (m1 m2 : Z) :
  identity_fits i → identity_text i = true →
  Go.is_int64 m1 = true → Go.is_int64 m2 = true →
  8 ≤ ProtocolVersion i →
  caller_line caller = Some (Some (Marshal.packet (Marshal.identityPacket m1 i))) →
  caller_tls caller = true → caller_certs caller ≠ [] →
  caller_write_err caller = None →
  caller_secure caller = Some (Marshal.packet (Marshal.identityPacket m2 i)) →
  handleConnection cert identity caller
  = inl (NewConnection {| RemoteIP := caller_ip caller;
                          PeerCertificates := Some (caller_certs caller) |}
           (Protocol.DeviceId i) i).
Proof.
  intros Hfits Htext Hm1 Hm2 Hversion Hline Htls Hcerts Hwrite Hsecure.
  rewrite RoundTrip.Marshal_identityPacket, (RoundTrip.as_written_text i Htext)
    in Hline, Hsecure.
  unfold handleConnection, ClientHandshake.
  rewrite Hline, Htls, Hwrite, Hsecure. cbn [mbind option_bind negb].
  rewrite !RoundTrip.decodePacket_sendable by (split; [done | by eexists]).
  cbn [Encode.identityPacket Body].
  rewrite (RoundTrip.identity_decodes i Hfits).
  destruct (caller_certs caller) as [| pc pcs]; [done |].
  replace (8 <=? ProtocolVersion i) with true by (symmetry; by apply Z.leb_le).
  by rewrite (RoundTrip.identity_decodes_over i i Hfits eq_refl).
Qed.

Lemma handleConnection_same_code_witness :
  handleConnection own_cert desktop
    {| caller_ip := "10.0.0.2";
       caller_line := Some (Some (Marshal.packet (Marshal.identityPacket 1700000000000 phone)));
       caller_tls := true;
       caller_certs := [phone_cert];
       caller_write_err := None;
       caller_secure := Some (Marshal.packet (Marshal.identityPacket 1700000000001 phone)) |}
  = inl phone_connects.
Proof.
  exact (handleConnection_same_code own_cert desktop phone
           {| caller_ip := "10.0.0.2";
              caller_line := Some (Some (Marshal.packet (Marshal.identityPacket 1700000000000 phone)));
              caller_tls := true;
              caller_certs := [phone_cert];
              caller_write_err := None;
              caller_secure := Some (Marshal.packet (Marshal.identityPacket 1700000000001 phone)) |}
           1700000000000 1700000000001
           (conj eq_refl eq_refl) eq_refl eq_refl eq_refl ltac:(simpl; lia)
           eq_refl eq_refl ltac:(discriminate) eq_refl eq_refl).
Defined.

(** X24. The identity is read again inside TLS only from protocol
    version 8 on. When the identity sent in the clear announces a lower
    version, the connection carries that identity and what the caller
    sends next is left to the reader loop; from version 8 on a caller
    that sends no decodable packet inside TLS gets no connection. *)
Theorem handleConnection_version_gate (cert : Certificate) (identity : IdentityBody)
    (caller : Caller) (v : value) (p : Packet) (i0 : IdentityBody) :
  caller_line caller = Some (Some v) → decodePacket v = Some p →
  decodeIdentity (Body p) = Some i0 →
  caller_tls caller = true → caller_certs caller ≠ [] →
  caller_write_err caller = None →
  (ProtocolVersion i0 < 8 →
   handleConnection cert identity caller
   = inl (NewConnection {| RemoteIP := caller_ip caller;
                           PeerCertificates := Some (caller_certs caller) |}
            (Protocol.DeviceId i0) i0))
  ∧ (8 ≤ ProtocolVersion i0 → caller_secure caller ≫= decodePacket = None →
     handleConnection cert identity caller = inr "failed to read secure identity").
Proof.
  intros Hline Hp Hi0 Htls Hcerts Hwrite.
  unfold handleConnection, ClientHandshake.
  rewrite Hline. cbn [mbind option_bind]. rewrite Hp, Hi0, Htls, Hwrite.
  destruct (caller_certs caller) as [| pc pcs]; [done |]. simpl. split.
  - intros Hold. by replace (8 <=? ProtocolVersion i0) with false
      by (symmetry; by apply Z.leb_gt).
  - intros Hnew Hsecure. replace (8 <=? ProtocolVersion i0) with true
      by (symmetry; by apply Z.leb_le).
    by rewrite Hsecure.
Qed.

Lemma handleConnection_version_gate_witness :
  let old_phone := Build_IdentityBody "B" "phone" "phone" 7 1716 "" [] [] in
  handleConnection own_cert desktop
    {| caller_ip := "10.0.0.2";
       caller_line := Some (Some (Encode.packet (Encode.identityPacket 1700000000000 old_phone)));
       caller_tls := true;
       caller_certs := [phone_cert];
       caller_write_err := None;
       caller_secure := None |}
  = inl (NewConnection {| RemoteIP := "10.0.0.2"; PeerCertificates := Some [phone_cert] |}
           "B" old_phone).
Proof.
  intros old_phone.
  destruct (handleConnection_version_gate own_cert desktop
              {| caller_ip := "10.0.0.2";
                 caller_line := Some (Some (Encode.packet (Encode.identityPacket 1700000000000 old_phone)));
                 caller_tls := true;
                 caller_certs := [phone_cert];
                 caller_write_err := None;
                 caller_secure := None |}
              (Encode.packet (Encode.identityPacket 1700000000000 old_phone))
              (Encode.identityPacket 1700000000000 old_phone) old_phone
              eq_refl eq_refl eq_refl eq_refl ltac:(discriminate) eq_refl)
    as [Hold _].
  apply Hold. simpl. lia.
Defined.


End Handshakes.

(** ** The configuration file *)
Module ConfigFile.
Import Json Protocol Network Core Storage.
Import Scenario Spec SpecMore Utf8Facts.

Lemma foldl_insert {A B : Type} (f : A → B) (l : list (string * A)) (m0 : gmap string B) :
  NoDup l.*1 →
  foldl (λ m ka, <[ka.1 := f ka.2]> m) m0 l = (f <$> list_to_map l) ∪ m0.
Proof.
  revert m0. induction l as [| [k a] l IH]; intros m0 Hnodup; simpl.
  { by rewrite fmap_empty, (left_id_L ∅ (∪)). }
  apply NoDup_cons in Hnodup as [Hk Hnodup]. rewrite IH by done.
  rewrite fmap_insert, <- insert_union_l.
  rewrite insert_union_r; [done |].
  rewrite lookup_fmap. by rewrite (not_elem_of_list_to_map_1 l k Hk).
Qed.

Lemma into_entries_encoded {A B : Type} (store : string → value → B → option B)
    (zero : B) (enc : A → value) (f : A → B) (l : list (string * A))
    (m0 : gmap string B) :
  Forall (λ ka, into_struct store (enc ka.2) zero = Some (f ka.2)) l →
  into_entries store zero ((λ ka, (ka.1, enc ka.2)) <$> l) m0
  = Some (foldl (λ m ka, <[ka.1 := f ka.2]> m) m0 l).
Proof.
  intros Hl. revert m0. induction Hl as [| [k a] l Ha _ IH]; intros m0; [done |].
  cbn [fmap list_fmap into_entries foldl fst snd]. simpl in Ha. rewrite Ha. simpl.
  apply IH.
Qed.

Lemma into_map_entries {A B : Type} (store : string → value → B → option B)
    (zero : B) (enc : A → value) (f : A → B) (m : gmap string A) :
  map_Forall (λ _ a, into_struct store (enc a) zero = Some (f a)) m →
  into_map store zero (Object (entries enc m)) ∅ = Some (f <$> m).
Proof.
  intros Hm. unfold into_map, entries.
  rewrite (into_entries_encoded store zero enc f).
  - rewrite foldl_insert by apply NoDup_fst_map_to_list.
    by rewrite list_to_map_to_list, (right_id_L ∅ (∪)).
  - apply map_Forall_to_list in Hm. eapply Forall_impl; [exact Hm |].
    by intros [k a].
Qed.

(** The entries of a map sorted by key, decoded: the map. *)
Lemma into_map_sorted {A B : Type} (store : string → value → B → option B)
    (zero : B) (enc : A → value) (f : A → B) (m : gmap string A) :
  map_Forall (λ _ a, into_struct store (enc a) zero = Some (f a)) m →
  into_map store zero (Object ((λ ka, (ka.1, enc ka.2)) <$> sorted m)) ∅
  = Some (f <$> m).
Proof.
  intros Hm. unfold into_map.
  assert (Hperm : sorted m ≡ₚ map_to_list m) by apply merge_sort_Permutation.
  assert (Hnodup : NoDup (sorted m).*1).
  { rewrite Hperm. apply NoDup_fst_map_to_list. }
  rewrite (into_entries_encoded store zero enc f).
  - rewrite foldl_insert by done.
    rewrite (list_to_map_proper (sorted m) (map_to_list m) Hnodup Hperm).
    by rewrite list_to_map_to_list, (right_id_L ∅ (∪)).
  - rewrite Hperm. apply map_Forall_to_list in Hm. eapply Forall_impl; [exact Hm |].
    by intros [k a].
Qed.

Lemma into_struct_info (i : PairedDeviceInfo.t) :
  identity_fits (PairedDeviceInfo.Identity i) →
  Go.is_int64 (PairedDeviceInfo.LastPort i) = true →
  info_text i = true →
  into_struct storePairedDeviceInfo (info i) zeroInfo = Some i.
Proof.
  intros Hfits Hport Htext. destruct i as [identity ip port].
  unfold info_text in Htext. simpl in Hfits, Hport, Htext.
  apply andb_true_iff in Htext as [Hidentity Hip].
  unfold info, Marshal.text.
  cbn [PairedDeviceInfo.Identity PairedDeviceInfo.LastIP PairedDeviceInfo.LastPort].
  rewrite RoundTrip.Marshal_identity, (RoundTrip.as_written_text identity Hidentity).
  rewrite (appendString_utf8 ip Hip).
  cbn [into_struct into_members].
  replace (storePairedDeviceInfo "identity" (Encode.identity identity) zeroInfo)
    with (Some {| PairedDeviceInfo.Identity := identity;
                  PairedDeviceInfo.LastIP := "";
                  PairedDeviceInfo.LastPort := 0 |}).
  2: { symmetry. unfold storePairedDeviceInfo.
       change (key_is "identity" "identity") with true. cbv iota. cbn [zeroInfo PairedDeviceInfo.Identity].
       by rewrite (RoundTrip.into_struct_identity identity Hfits). }
  cbn [mbind option_bind].
  lazy -[Go.is_int64]. rewrite Hport. reflexivity.
Qed.

(** An identity, read as a paired record, matches none of its fields. *)
Lemma into_struct_info_identity (i : IdentityBody) :
  into_struct storePairedDeviceInfo (Encode.identity i) zeroInfo = Some zeroInfo.
Proof.
  destruct i as [di dn dt pv tp ba ic oc]. unfold Encode.identity. simpl.
  by destruct (bool_decide (ba = "")).
Qed.

(** X25. Saving and loading the configuration is a round trip: from the
    file [SaveConfig] writes for an identity and a paired map whose keys
    and strings are UTF-8 and whose records all carry a device id,
    [LoadConfig] restores exactly that identity and that paired map,
    addresses and ports included. *)
Theorem config_round_trip (cfg : Config.t) :
  identity_fits (Config.Identity cfg) →
  identity_text (Config.Identity cfg) = true →
  map_Forall (λ k i, info_fits i ∧ utf8 k = true ∧ info_text i = true)
             (Config.PairedDevices cfg) →
  LoadConfig (Some (config cfg)) ∅
  = Some (Config.Identity cfg, Config.PairedDevices cfg).
Proof.
  intros Hfits Htext Hpaired. destruct cfg as [identity paired].
  cbn [Config.Identity Config.PairedDevices] in *.
  unfold config. cbn [Config.Identity Config.PairedDevices].
  rewrite RoundTrip.Marshal_identity, (RoundTrip.as_written_text identity Htext).
  assert (Hkeys : (λ ka : string * PairedDeviceInfo.t, (Utf8.appendString ka.1, info ka.2))
                  <$> sorted paired
                  = (λ ka, (ka.1, info ka.2)) <$> sorted paired).
  { apply list_fmap_ext. intros n [k i] Hn. simpl.
    assert (Hin : (k, i) ∈ map_to_list paired).
    { rewrite <- (merge_sort_Permutation key_le (map_to_list paired)).
      by eapply list_elem_of_lookup_2. }
    apply elem_of_map_to_list in Hin. destruct (Hpaired k i Hin) as (_ & Hk & _).
    by rewrite (appendString_utf8 k Hk). }
  rewrite Hkeys. clear Hkeys.
  unfold LoadConfig. cbn [mbind option_bind into_struct into_members].
  replace (storeRaw "identity" (Encode.identity identity) (zeroIdentity, None))
    with (Some (identity, None : RawMessage)).
  2: { symmetry. unfold storeRaw. change (key_is "identity" "identity") with true.
       cbv iota. cbn [fst snd]. by rewrite (RoundTrip.into_struct_identity identity Hfits). }
  cbn [mbind option_bind].
  change (storeRaw "pairedDevices" ?v ?r) with (Some (r.1, Some v)).
  cbn [mbind option_bind fst snd].
  rewrite (into_map_sorted storePairedDeviceInfo zeroInfo info id).
  2: { eapply map_Forall_impl; [exact Hpaired |].
       intros k i ((Hi & Hport & _) & _ & Hitext). by apply into_struct_info. }
  rewrite map_fmap_id.
  rewrite (bool_decide_eq_true_2 (map_Forall _ paired)).
  2: { eapply map_Forall_impl; [exact Hpaired |]. by intros k i ((_ & _ & Hid) & _). }
  destruct (decide (paired = ∅)) as [-> | Hne].
  - rewrite map_size_empty. cbn [andb bool_decide decide_rel].
    unfold sorted. rewrite map_to_list_empty. simpl.
    by rewrite fmap_empty, (left_id_L ∅ (∪)).
  - rewrite bool_decide_eq_true_2; [done |].
    apply map_size_non_empty_iff in Hne. lia.
Qed.

Lemma config_round_trip_witness :
  LoadConfig
    (Some (config {| Config.Identity := desktop;
                     Config.PairedDevices := pairedDevices paired_with_phone |})) ∅
  = Some (desktop, pairedDevices paired_with_phone).
Proof.
  apply (config_round_trip {| Config.Identity := desktop;
                              Config.PairedDevices := pairedDevices paired_with_phone |}).
  - split; reflexivity.
  - reflexivity.
  - intros k i Hk. cbn [Config.PairedDevices pairedDevices paired_with_phone] in Hk.
    apply lookup_singleton_Some in Hk as [<- <-].
    split; [repeat split; discriminate | split; reflexivity].
Defined.

(** X26. Migration of the older layout: from a file whose paired devices
    are plain identities, [LoadConfig] makes one paired record per
    device, with that identity, an empty address and port 0. *)
Theorem old_config_migrates (identity : IdentityBody) (paired : gmap string IdentityBody) :
  identity_fits identity →
  map_Forall (λ _ i, identity_fits i) paired →
  LoadConfig (Some (old_config identity paired)) ∅
  = Some (identity,
          (λ v, {| PairedDeviceInfo.Identity := v;
                   PairedDeviceInfo.LastIP := "";
                   PairedDeviceInfo.LastPort := 0 |}) <$> paired).
Proof.
  intros Hfits Hpaired.
  unfold LoadConfig, old_config. cbn [mbind option_bind into_struct into_members].
  replace (storeRaw "identity" (Encode.identity identity) (zeroIdentity, None))
    with (Some (identity, None : RawMessage)).
  2: { symmetry. unfold storeRaw. change (key_is "identity" "identity") with true.
       cbv iota. cbn [fst snd]. by rewrite (RoundTrip.into_struct_identity identity Hfits). }
  cbn [mbind option_bind].
  change (storeRaw "pairedDevices" ?v ?r) with (Some (r.1, Some v)).
  cbn [mbind option_bind fst snd].
  rewrite (into_map_entries storePairedDeviceInfo zeroInfo Encode.identity (λ _, zeroInfo)).
  2: { intros k i _. apply into_struct_info_identity. }
  rewrite (into_map_entries storeIdentity zeroIdentity Encode.identity id).
  2: { eapply map_Forall_impl; [exact Hpaired |].
       intros k i Hi. by apply RoundTrip.into_struct_identity. }
  rewrite map_fmap_id, (right_id_L ∅ (∪)).
  destruct (decide (paired = ∅)) as [-> | Hne].
  - rewrite fmap_empty, map_size_empty. by rewrite andb_false_r.
  - rewrite bool_decide_eq_false_2; [done |].
    intros Hall. apply map_choose in Hne as (k & i & Hk).
    apply (Hall k zeroInfo); [| done]. by rewrite lookup_fmap, Hk.
Qed.

Lemma old_config_migrates_witness :
  LoadConfig (Some (old_config desktop {[ "B" := phone ]})) ∅
  = Some (desktop, {[ "B" := {| PairedDeviceInfo.Identity := phone;
                                PairedDeviceInfo.LastIP := "";
                                PairedDeviceInfo.LastPort := 0 |} ]}).
Proof.
  rewrite <- (map_fmap_singleton
                (λ v, {| PairedDeviceInfo.Identity := v;
                         PairedDeviceInfo.LastIP := "";
                         PairedDeviceInfo.LastPort := 0 |}) "B" phone).
  apply (old_config_migrates desktop {[ "B" := phone ]}).
  - split; reflexivity.
  - intros k i Hk. apply lookup_singleton_Some in Hk as [_ <-]. split; reflexivity.
Defined.

End ConfigFile.

(** ** The shape of a verification key *)
Module KeyFormat.
Import Protocol.
Import Spec SpecMore.

Lemma upper_hex_digit (d : Z) : upper_hex_char (Go.upper_ascii (Go.hex_digit d)).
Proof.
  unfold Go.hex_digit, upper_hex_char. generalize (Z.to_nat d). intros n.
  do 16 (destruct n as [| n]; [vm_compute; tauto |]).
  vm_compute. tauto.
Qed.

(** X27. A verification key is always eight characters out of
    [0123456789ABCDEF], whatever the certificates and the timestamp: the
    rendering of the digest is longer than eight characters, so the cut
    is always made. *)
Theorem GetVerificationKey_format (certA certB : Certificate) (t : Z) :
  let key := (GetVerificationKey certA certB t).1 in
  String.length key = 8%nat ∧ Forall upper_hex_char (list_ascii_of_string key).
Proof.
  intros key. subst key. unfold GetVerificationKey.
  set (h := Sha256.Sum256 _).
  assert (Hh : ∃ b0 b1 b2 b3 b4 rest, h = b0 :: b1 :: b2 :: b3 :: b4 :: rest).
  { unfold h, Sha256.Sum256, Sha256.digest_bytes, Sha256.be32. cbn [app].
    by eexists _, _, _, _, _, _. }
  destruct Hh as (b0 & b1 & b2 & b3 & b4 & rest & ->).
  cbn [Go.Sprintf_x_bytes String.length Nat.ltb Nat.leb Go.slice_to substring
       Go.ToUpper fst list_ascii_of_string].
  split; [reflexivity |].
  repeat (apply List.Forall_cons; [apply upper_hex_digit |]). apply List.Forall_nil.
Qed.

End KeyFormat.

(** ** What an emission delivers *)
Module Delivery.
Import Events.
Import Spec SpecMore.

Section Bus.
Context {Listener Data : Type}.
Implicit Types (e : EventEmitter Listener) (l : Listener) (d : Data).

Lemma Emit_On e (ev event : string) l d :
  Emit (On e ev l) event d
  = Emit e event d ++ (if bool_decide (ev = event) then [(l, d)] else []).
Proof.
  unfold Emit, On. simpl. destruct (decide (ev = event)) as [-> | Hne].
  - rewrite lookup_insert_eq, bool_decide_eq_true_2 by done.
    destruct (listeners e !! event) as [ls |]; simpl; [| done].
    by rewrite map_app.
  - rewrite lookup_insert_ne, bool_decide_eq_false_2 by done.
    by rewrite app_nil_r.
Qed.

(** X28. An emission starts the listeners of its event and no others,
    once per registration and in the order of registration: after any
    calls of [On], [Off] and [Emit], [Emit] starts the listeners there
    were before followed by those the calls registered for the event. *)
Theorem Emit_in_registration_order e (cs : list (call Listener Data))
    (event : string) d :
  Emit (run_calls e cs) event d
  = Emit e event d ++ map (λ l, (l, d)) (subscriptions event cs).
Proof.
  revert e. induction cs as [| c cs IH]; intros e.
  - simpl. by rewrite app_nil_r.
  - change (run_calls e (c :: cs)) with (run_calls (run_call e c) cs).
    rewrite IH. unfold subscriptions. cbn [flat_map]. rewrite map_app, app_assoc.
    f_equal. destruct c as [ev l | ev l | ev d']; simpl; try by rewrite app_nil_r.
    rewrite Emit_On. by destruct (bool_decide (ev = event)).
Qed.

End Bus.
End Delivery.

(** ** Where the announcement is sent *)
Module Broadcasts.
Import Interfaces.
Import SpecMore.

Lemma byte_to_Z_range (b : byte) : 0 ≤ Sha256.byte_to_Z b < 256.
Proof.
  unfold Sha256.byte_to_Z. pose proof (Byte.to_N_bounded b). lia.
Qed.

Lemma byte_to_Z_to_byte (x : Z) :
  Sha256.byte_to_Z (Sha256.Z_to_byte x) = x mod 256.
Proof.
  unfold Sha256.byte_to_Z, Sha256.Z_to_byte.
  pose proof (Z.mod_pos_bound x 256 ltac:(lia)) as Hx.
  destruct (Byte.of_N (Z.to_N (x mod 256))) as [b |] eqn:E.
  - apply Byte.to_of_N in E. rewrite E. lia.
  - apply Byte.of_N_None_iff in E. lia.
Qed.

Lemma byte_high_bits (b : byte) (n : Z) :
  8 ≤ n → Z.testbit (Sha256.byte_to_Z b) n = false.
Proof.
  intros Hn. pose proof (byte_to_Z_range b) as Hb.
  rewrite <- (Z.mod_small (Sha256.byte_to_Z b) (2 ^ 8)) by (simpl; lia).
  apply Z.mod_pow2_bits_high. lia.
Qed.

Lemma testbit_255 (n : Z) : 0 ≤ n → Z.testbit 255 n = (n <? 8).
Proof.
  intros Hn. change 255 with (Z.ones 8).
  destruct (Z.ltb_spec n 8) as [H | H].
  - apply Z.ones_spec_low. lia.
  - apply Z.ones_spec_high. lia.
Qed.

(** The byte the loop writes keeps the bits of the address under the
    mask and sets the others. *)
Lemma or_not_broadcast (a m : byte) : broadcast_byte (or_not a m) a m.
Proof.
  unfold broadcast_byte, or_not. rewrite byte_to_Z_to_byte.
  change 256 with (2 ^ 8). split; apply Z.bits_inj'; intros n Hn.
  - rewrite !Z.land_spec. destruct (Z.ltb_spec n 8) as [H | H].
    + rewrite Z.mod_pow2_bits_low by lia.
      rewrite Z.lor_spec, Z.lxor_spec, testbit_255 by lia.
      rewrite (proj2 (Z.ltb_lt n 8) H).
      by destruct (Z.testbit (Sha256.byte_to_Z a) n),
                  (Z.testbit (Sha256.byte_to_Z m) n).
    + rewrite Z.mod_pow2_bits_high by lia.
      rewrite (byte_high_bits m n H). by rewrite !andb_false_r.
  - rewrite Z.lor_spec, testbit_255 by lia. destruct (Z.ltb_spec n 8) as [H | H].
    + rewrite Z.mod_pow2_bits_low by lia.
      rewrite Z.lor_spec, Z.lxor_spec, testbit_255 by lia.
      rewrite (proj2 (Z.ltb_lt n 8) H).
      by destruct (Z.testbit (Sha256.byte_to_Z a) n),
                  (Z.testbit (Sha256.byte_to_Z m) n).
    + rewrite Z.mod_pow2_bits_high by lia.
      by rewrite (byte_high_bits m n H).
Qed.

Lemma broadcastOf_spec (ip : IPv4) (mask : list byte) :
  (4 ≤ length mask)%nat →
  ∃ B, broadcastOf ip mask = Some B ∧ is_broadcast B (ip, mask).
Proof.
  intros Hlen. destruct ip as [[[a b] c] d].
  destruct mask as [| m0 [| m1 [| m2 [| m3 rest]]]]; simpl in Hlen; try lia.
  eexists. split; [reflexivity |]. simpl.
  exists m0, m1, m2, m3, rest.
  split; [done |]. repeat split; apply or_not_broadcast.
Qed.

(** The flag test of the loop reads bits 0 and 1. *)
Lemma flag_bit (f : Z) (k : Z) :
  0 ≤ k → (Z.land f (2 ^ k) =? 0) = negb (Z.testbit f k).
Proof.
  intros Hk. destruct (Z.testbit f k) eqn:E; simpl.
  - apply Z.eqb_neq. intros H0.
    assert (Hb : Z.testbit (Z.land f (2 ^ k)) k = true).
    { by rewrite Z.land_spec, E, Z.pow2_bits_true. }
    rewrite H0, Z.bits_0 in Hb. discriminate.
  - apply Z.eqb_eq. apply Z.bits_inj'. intros n Hn.
    rewrite Z.land_spec, Z.bits_0, Z.pow2_bits_eqb by lia.
    destruct (Z.eqb_spec k n) as [<- | Hne]; [by rewrite E | by rewrite andb_false_r].
Qed.

Lemma over_addrs_spec (addrs : list Addr) (broadcasts : list string) :
  Forall (λ net, (4 ≤ length net.2)%nat) (networks_of addrs) →
  ∃ Bs, over_addrs addrs broadcasts = Some (broadcasts ++ map String_ Bs)
        ∧ Forall2 is_broadcast Bs (networks_of addrs).
Proof.
  revert broadcasts. induction addrs as [| addr addrs IH]; intros broadcasts Hmasks.
  { exists []. split; [by rewrite app_nil_r | constructor]. }
  unfold networks_of in Hmasks |- *. cbn [flat_map over_addrs] in Hmasks |- *.
  fold (networks_of addrs) in Hmasks |- *.
  destruct addr as [n | ip'].
  - destruct (To4 (IP n)) as [ip |].
    + apply Forall_app in Hmasks as [Hn Hrest].
      apply Forall_cons_1 in Hn as [Hn _]. simpl in Hn.
      destruct (broadcastOf_spec ip (Mask n) Hn) as (B & -> & HB).
      cbn [mbind option_bind].
      destruct (IH (broadcasts ++ [String_ B]) Hrest) as (Bs & -> & HBs).
      exists (B :: Bs). split.
      * by rewrite <- app_assoc.
      * simpl. by constructor.
    + by apply IH.
  - by apply IH.
Qed.

Lemma over_ifaces_spec (ifaces : list Interface) (broadcasts : list string) :
  Forall (λ net, (4 ≤ length net.2)%nat) (networks ifaces) →
  ∃ Bs, over_ifaces ifaces broadcasts = Some (broadcasts ++ map String_ Bs)
        ∧ Forall2 is_broadcast Bs (networks ifaces).
Proof.
  revert broadcasts. induction ifaces as [| iface ifaces IH]; intros broadcasts Hmasks.
  { exists []. split; [by rewrite app_nil_r | constructor]. }
  unfold networks in Hmasks |- *. cbn [flat_map over_ifaces] in Hmasks |- *.
  fold (networks ifaces) in Hmasks |- *.
  change FlagUp with (2 ^ 0). change FlagBroadcast with (2 ^ 1).
  rewrite !flag_bit by lia. rewrite <- negb_andb.
  destruct (Z.testbit (Flags iface) 0 && Z.testbit (Flags iface) 1); simpl.
  - apply Forall_app in Hmasks as [Hhere Hrest].
    destruct (Addrs iface) as [addrs |]; simpl in Hhere |- *.
    + destruct (over_addrs_spec addrs broadcasts Hhere) as (Bs1 & -> & HBs1).
      cbn [mbind option_bind].
      destruct (IH (broadcasts ++ map String_ Bs1) Hrest) as (Bs2 & -> & HBs2).
      exists (Bs1 ++ Bs2). split.
      * by rewrite map_app, app_assoc.
      * by apply Forall2_app.
    + by apply IH.
  - by apply IH.
Qed.

(** X29. The announcement goes to the broadcast address of every IPv4
    network of the machine and to the limited broadcast address: when
    the masks have their four bytes, the targets of [StartDiscovery]
    are, for each IPv4 network of an interface that is up and can
    broadcast, in order, the address made of the network bits of the
    interface address with every host bit set, and [255.255.255.255]
    last. *)
Theorem broadcast_targets (ifaces : list Interface) :
  Forall (λ net, (4 ≤ length net.2)%nat) (networks ifaces) →
  ∃ Bs, targets (inl ifaces) = Some (map String_ Bs ++ ["255.255.255.255"])
        ∧ Forall2 is_broadcast Bs (networks ifaces).
Proof.
  intros Hmasks. destruct (over_ifaces_spec ifaces [] Hmasks) as (Bs & Hrun & HBs).
  exists Bs. split; [| done].
  unfold targets, getBroadcastAddresses. by rewrite Hrun.
Qed.

Lemma broadcast_targets_witness :
  ∃ Bs, targets (inl [ {| Flags := 19;
                          Addrs := Some [OfIPNet {| IP := [xc0; xa8; x01; x0a];
                                                    Mask := [xff; xff; xff; x00] |}] |};
                       {| Flags := 9;
                          Addrs := Some [OfIPNet {| IP := [x7f; x00; x00; x01];
                                                    Mask := [xff; x00; x00; x00] |}] |} ])
        = Some (map String_ Bs ++ ["255.255.255.255"])
        ∧ map String_ Bs = ["192.168.1.255"].
Proof.
  destruct (broadcast_targets
              [ {| Flags := 19;
                   Addrs := Some [OfIPNet {| IP := [xc0; xa8; x01; x0a];
                                             Mask := [xff; xff; xff; x00] |}] |};
                {| Flags := 9;
                   Addrs := Some [OfIPNet {| IP := [x7f; x00; x00; x01];
                                             Mask := [xff; x00; x00; x00] |}] |} ])
    as (Bs & Hrun & HBs).
  - apply List.Forall_cons; [simpl; lia | apply List.Forall_nil].
  - exists Bs. split; [exact Hrun |].
    vm_compute in Hrun. injection Hrun as Hrun.
    destruct Bs as [| B [| B' Bs]]; [discriminate | | ].
    + vm_compute. vm_compute in Hrun. congruence.
    + apply Forall2_length in HBs. simpl in HBs. discriminate.
Defined.

End Broadcasts.

(** ** The pairing dialog *)
Module Dialog.
Import Json Protocol Network Core CoreMore Ui Run.
Import Scenario Spec SpecMore.

(** X30. A pair request is granted by the user: when a device that is
    discovered but not paired asks to pair, the listener of the user
    interface opens the dialog with the verification key; confirming it
    sends one [pair: true] packet on an active connection from the
    requesting address and records the device as paired at its
    discovered address; declining changes nothing and sends nothing. *)
Theorem confirmed_request_pairs (e : Engine) (conn : loc) (c : Connection) (p : Packet)
    (b : PairBody) (dev : DiscoveredDevice.t) (a : UDPAddr)
    (visit : list (string * loc)) (env : Env) :
  heap e !! conn = Some c →
  Network.DeviceId c = Protocol.DeviceId (RemoteIdentity c) →
  activeConns e !! Network.DeviceId c = Some conn →
  (∀ k l, activeConns e !! k = Some l → is_Some (heap e !! l)) →
  visit ≡ₚ map_to_list (activeConns e) →
  Type_ p = "kdeconnect.pair" → decodePair (Body p) = Some b → Pair b = true →
  default false (pendingPairing e !! Network.DeviceId c) = false →
  discoveredDevices e !! Network.DeviceId c = Some dev →
  DiscoveredDevice.Addr dev = Some a →
  IsPaired e (Network.DeviceId c) = false →
  ∃ req e1 target tc e2,
    handlePacket conn p env e = Some (tt, e1)
    ∧ log e1 = log e ++ [Emitted "pair_request" (OfPairRequest req)]
    ∧ on_pair_request visit (OfPairRequest req) env e1
      = Some (Some (HandlePairRequest req), e1)
    ∧ answer visit req true env e1 = Some (tt, e2)
    ∧ heap e !! target = Some tc ∧ RemoteIP (Conn tc) = RemoteIP (Conn c)
    ∧ pairedDevices e2
      = <[Network.DeviceId c :=
            {| PairedDeviceInfo.Identity := DiscoveredDevice.Identity dev;
               PairedDeviceInfo.LastIP := IP a;
               PairedDeviceInfo.LastPort := Network.Port a |}]> (pairedDevices e)
    ∧ log e2 = log e1 ++
        [PacketSent target "kdeconnect.pair"
           (PairOut {| Pair := true; Timestamp := now env |});
         ConfigWritten {| Config.Identity := Identity e;
                          Config.PairedDevices := pairedDevices e2 |};
         Emitted "pairing_changed" (OfDeviceId (Network.DeviceId c))]
    ∧ answer visit req false env e1 = Some (tt, e1).
Proof.
  intros Hc Hid Hactive Hlive Hvisit Htype Hb Hpair Hpending Hdev Haddr Hunpaired.
  set (req := {| PairRequest.RemoteIP := RemoteIP (Conn c);
                 PairRequest.Identity := RemoteIdentity c;
                 PairRequest.VerificationKey :=
                   match PeerCertificates (Conn c) with
                   | Some (peerCert :: _) =>
                       (GetVerificationKey (Cert e) peerCert (Timestamp b)).1
                   | _ => ""
                   end |}).
  set (e1 := with_log (λ l, l ++ [Emitted "pair_request" (OfPairRequest req)]) e).
  assert (Hin : ∀ k l, (k, l) ∈ visit ↔ activeConns e1 !! k = Some l).
  { intros k l. by rewrite Hvisit, elem_of_map_to_list. }
  destruct (Operations.first_from_spec (RemoteIP (Conn c)) visit e1)
    as [(k & target & tc & Hk & Htc & Hip & Hfirst) | [Hnone _]].
  { intros k l Hk. apply (Hlive k l). by apply Hin. }
  2: { exfalso. apply (Hnone (Network.DeviceId c) conn c); [by apply Hin | done | done]. }
  eexists req, e1, target, tc, _.
  split; [| split; [| split; [| split; [| split; [| split; [| split; [| split]]]]]]].
  - unfold handlePacket. run. rewrite Hc, Htype. simpl.
    rewrite Hb, Hpair, Hpending. unfold IsDiscovered. by rewrite Hdev.
  - done.
  - unfold on_pair_request. run. cbn [PairRequest.Identity req].
    rewrite <- Hid. change (IsPaired e1 (Network.DeviceId c))
      with (IsPaired e (Network.DeviceId c)). by rewrite Hunpaired.
  - unfold answer, AcceptPair, Connection_SendPacket, MarkAsPaired. run.
    cbn [PairRequest.RemoteIP PairRequest.Identity req].
    rewrite Hfirst. rewrite <- Hid. simpl. rewrite Hdev, Haddr. simpl. reflexivity.
  - exact Htc.
  - exact Hip.
  - reflexivity.
  - simpl. by rewrite <- !app_assoc.
  - reflexivity.
Qed.

Lemma confirmed_request_pairs_witness :
  ∃ req e1 e2,
    handlePacket 0%nat Situations.pair_true offline Situations.linked = Some (tt, e1)
    ∧ on_pair_request [("B", 0%nat)] (OfPairRequest req) offline e1
      = Some (Some (HandlePairRequest req), e1)
    ∧ answer [("B", 0%nat)] req true offline e1 = Some (tt, e2)
    ∧ IsPaired e2 "B" = true.
Proof.
  destruct (confirmed_request_pairs Situations.linked 0%nat Situations.link
              Situations.pair_true {| Pair := true; Timestamp := 1700000000 |}
              {| DiscoveredDevice.Identity := phone;
                 DiscoveredDevice.Addr := Some {| IP := "10.0.0.2"; Port := 1716 |} |}
              {| IP := "10.0.0.2"; Port := 1716 |} [("B", 0%nat)] offline)
    as (req & e1 & target & tc & e2 & Hrun & _ & Hasks & Hyes & _ & _ & Hpaired & _).
  - reflexivity.
  - reflexivity.
  - reflexivity.
  - intros k l Hk. change (activeConns Situations.linked)
      with (<["B" := 0%nat]> (∅ : gmap string loc)) in Hk.
    apply lookup_insert_Some in Hk as [[_ <-] | [_ Hk]]; [by eexists |].
    by rewrite lookup_empty in Hk.
  - change (activeConns Situations.linked) with (<["B" := 0%nat]> (∅ : gmap string loc)).
    rewrite map_to_list_insert by done. by rewrite map_to_list_empty.
  - reflexivity.
  - reflexivity.
  - reflexivity.
  - reflexivity.
  - reflexivity.
  - reflexivity.
  - reflexivity.
  - exists req, e1, e2. split; [exact Hrun |]. split; [exact Hasks |].
    split; [exact Hyes |].
    unfold IsPaired. rewrite Hpaired.
    change (Network.DeviceId Situations.link) with "B". by rewrite lookup_insert_eq.
Defined.

End Dialog.
